(** * SmartSpoon: the model layer of the meal-planning application

    A shallow embedding of the JavaScript model layer (state container,
    recipe entity, meal-plan engine, servings adjustment, bookmark
    synchronisation, detail retrieval, ingredient availability, week
    navigation, pantry, start-up from storage) together with the one
    controller entry point that guards the meal plan.

    Conventions of the embedding.
    - A JavaScript number is a [num]: a finite value (an exact rational,
      so rounding, overflow and signed zeros of IEEE doubles are not
      represented) or one of NaN, +Infinity, -Infinity. A product or a
      quotient of finite values is therefore finite here, where the code
      can overflow to an infinity or underflow to zero: a statement that
      depends on the magnitude of a result bounds its operands
      ([safeMagnitude]).
    - A property that holds a number or one of the sentinel strings
      ("-", "Unavailable", "N/A") is a [jsval]; the operators [+ - * / < >]
      coerce their operands as ECMAScript does.
    - The mutable singleton [state] is threaded explicitly; a function
      that can raise a [TypeError] returns [option], [None] standing for
      the exception.
    - Date strings such as "Mon Jan 20 2025" are calendar days, counted
      from Thursday 1 January 1970. *)

From Stdlib Require Import ZArith QArith Qabs Qfield String Ascii List Lia Lqa DecimalString.
From stdpp Require Import base option list gmap strings sorting.

Local Open Scope string_scope.
Local Open Scope Z_scope.

(** ** Numbers *)

Inductive num : Type :=
  | Fin (q : Q)
  | PInf
  | NInf
  | NaN.

Definition Qlt_bool (x y : Q) : bool := negb (Qle_bool y x).

Definition Qsign (q : Q) : comparison := (Qnum q ?= 0)%Z.

Definition num_neg (a : num) : num :=
  match a with
  | Fin q => Fin (- q)
  | PInf => NInf
  | NInf => PInf
  | NaN => NaN
  end.

Definition num_add (a b : num) : num :=
  match a, b with
  | NaN, _ | _, NaN => NaN
  | Fin x, Fin y => Fin (x + y)
  | PInf, NInf | NInf, PInf => NaN
  | PInf, _ | _, PInf => PInf
  | NInf, _ | _, NInf => NInf
  end.

Definition num_sub (a b : num) : num := num_add a (num_neg b).

(** An infinity multiplied or divided by a finite value of the given sign;
    [pos] tells whether the infinity is the positive one. *)
Definition inf_by_sign (pos : bool) (s : comparison) (zero : num) : num :=
  match s with
  | Eq => zero
  | Gt => if pos then PInf else NInf
  | Lt => if pos then NInf else PInf
  end.

Definition num_mul (a b : num) : num :=
  match a, b with
  | NaN, _ | _, NaN => NaN
  | Fin x, Fin y => Fin (x * y)
  | Fin x, PInf | PInf, Fin x => inf_by_sign true (Qsign x) NaN
  | Fin x, NInf | NInf, Fin x => inf_by_sign false (Qsign x) NaN
  | PInf, PInf | NInf, NInf => PInf
  | PInf, NInf | NInf, PInf => NInf
  end.

Definition num_div (a b : num) : num :=
  match a, b with
  | NaN, _ | _, NaN => NaN
  | Fin x, Fin y =>
      if Qeq_bool y 0 then inf_by_sign true (Qsign x) NaN else Fin (x / y)
  | Fin _, _ => Fin 0
  | PInf, Fin y => inf_by_sign true (Qsign y) PInf
  | NInf, Fin y => inf_by_sign false (Qsign y) NInf
  | _, _ => NaN
  end.

(** [a < b] on numbers: false as soon as one side is NaN. *)
Definition num_ltb (a b : num) : bool :=
  match a, b with
  | NaN, _ | _, NaN => false
  | Fin x, Fin y => Qlt_bool x y
  | NInf, NInf | PInf, _ | _, NInf => false
  | NInf, _ | _, PInf => true
  end.

Definition num_is_finite (a : num) : bool :=
  match a with Fin _ => true | _ => false end.

(** Equality of numbers up to the representation of a rational. *)
Definition num_equiv (a b : num) : Prop :=
  match a, b with
  | Fin x, Fin y => x == y
  | PInf, PInf | NInf, NInf | NaN, NaN => True
  | _, _ => False
  end.

(** ** Values and the coercions of the operators *)

Inductive jsval : Type :=
  | VUndef
  | VNull
  | VNum (n : num)
  | VStr (s : string).

(** The two string conversions of ECMAScript (StringToNumber and
    Number::toString) are taken as given. *)
Class JSConversions : Type := {
  StringToNumber : string -> num;
  NumberToString : num -> string
}.

Section Operators.
Context `{JSConversions}.

Definition to_number (v : jsval) : num :=
  match v with
  | VUndef => NaN
  | VNull => Fin 0
  | VNum n => n
  | VStr s => StringToNumber s
  end.

Definition to_string (v : jsval) : string :=
  match v with
  | VUndef => "undefined"
  | VNull => "null"
  | VNum n => NumberToString n
  | VStr s => s
  end.

(** Binary [+]: concatenation once an operand is a string. *)
Definition js_add (a b : jsval) : jsval :=
  match a, b with
  | VStr _, _ | _, VStr _ => VStr (String.append (to_string a) (to_string b))
  | _, _ => VNum (num_add (to_number a) (to_number b))
  end.

Definition js_sub (a b : jsval) : jsval := VNum (num_sub (to_number a) (to_number b)).
Definition js_mul (a b : jsval) : jsval := VNum (num_mul (to_number a) (to_number b)).
Definition js_div (a b : jsval) : jsval := VNum (num_div (to_number a) (to_number b)).

(** Unary [+]. *)
Definition js_plus (a : jsval) : jsval := VNum (to_number a).

(** [a < b]: lexicographic on two strings, numeric otherwise. *)
Definition js_lt (a b : jsval) : bool :=
  match a, b with
  | VStr s, VStr t => String.ltb s t
  | _, _ => num_ltb (to_number a) (to_number b)
  end.

Definition js_gt (a b : jsval) : bool := js_lt b a.
End Operators.

(** [Number.isFinite]: no coercion, true on finite numbers only. *)
Definition Number_isFinite (v : jsval) : bool :=
  match v with VNum (Fin _) => true | _ => false end.

(** What [JSON.parse(JSON.stringify(v))] makes of a value held in an
    object property: a non-finite number becomes [null]. *)
Definition json_val (v : jsval) : jsval :=
  match v with
  | VNum (Fin q) => VNum (Fin q)
  | VNum _ => VNull
  | _ => v
  end.

Definition num_lit (z : Z) : jsval := VNum (Fin (inject_Z z)).

(** A value handed to a parameter that is declared with the default [null]
    and then tested with [!== null]: [undefined] selects the default, so
    both [undefined] and [null] arrive as [null], which is [None]. *)
Definition nullable (v : jsval) : option jsval :=
  match v with
  | VUndef | VNull => None
  | _ => Some v
  end.

(** Equality of values up to the representation of a rational. *)
Definition jsval_equiv (a b : jsval) : Prop :=
  match a, b with
  | VNum x, VNum y => num_equiv x y
  | _, _ => a = b
  end.

(** ** The recipe entity *)

(** A property that holds a value of the expected shape, or a sentinel
    string where the shape does not apply (custom meal entries). *)
Inductive orStr (A : Type) : Type :=
  | Is (a : A)
  | Str (s : string).
Arguments Is {A} a.
Arguments Str {A} s.

Definition orStr_map {A B : Type} (f : A -> B) (x : orStr A) : orStr B :=
  match x with
  | Is a => Is (f a)
  | Str s => Str s
  end.

Inductive AvailabilityState : Type :=
  | householdItem
  | definitelyAvailable
  | potentiallyAvailable
  | unavailable.

(** The object returned by [getIngredientAvailability]; the matched name is
    [None] where the source leaves it [null]. *)
Record Availability : Type := {
  availabilityState : AvailabilityState;
  matchingPantryIngredient : option string
}.

Module Ingredient.
Record t : Type := Build {
  ingredientText : string;
  quantity : jsval;
  unit : string;
  name : string;
  category : string;
  availability : Availability
}.

Definition set_quantity (v : jsval) (i : t) : t :=
  Build (ingredientText i) v (unit i) (name i) (category i) (availability i).

Definition set_availability (a : Availability) (i : t) : t :=
  Build (ingredientText i) (quantity i) (unit i) (name i) (category i) a.

Definition deepCopy (i : t) : t := set_quantity (json_val (quantity i)) i.
End Ingredient.

Inductive Origin : Type :=
  | app
  | user
  | customMealEntry.

Module Recipe.

(** The fields are those of the [Recipe] class, in the order of its
    constructor, so that [Recipe.Build] reads like [new Recipe(...)]. *)
Record t : Type := Build {
  title : string;
  image : string;
  id : Z;
  isBookmarked : bool;
  mealType : string;
  dietaryRestrictions : orStr (list string);
  prepTime : jsval;
  cuisine : string;
  calories : jsval;
  servings : jsval;
  ingredients : orStr (list Ingredient.t);
  instructions : orStr (list string);
  saturatedFat : jsval;
  sugar : jsval;
  fiber : jsval;
  sodium : jsval;
  cholesterol : jsval;
  iron : jsval;
  zinc : jsval;
  calcium : jsval;
  magnesium : jsval;
  protein : jsval;
  fats : jsval;
  carbs : jsval;
  percentProtein : jsval;
  percentFats : jsval;
  percentCarbs : jsval;
  percentDVProtein : jsval;
  percentDVFats : jsval;
  percentDVCarbs : jsval;
  numMissingIngredients : jsval;
  origin : Origin
}.

(** Assignment to one property, [recipe.f = v]. *)
Definition set_isBookmarked (v : bool) (r : t) : t :=
  Build (title r) (image r) (id r) v (mealType r) (dietaryRestrictions r) (prepTime r)
    (cuisine r) (calories r) (servings r) (ingredients r) (instructions r) (saturatedFat r)
    (sugar r) (fiber r) (sodium r) (cholesterol r) (iron r) (zinc r) (calcium r)
    (magnesium r) (protein r) (fats r) (carbs r) (percentProtein r) (percentFats r)
    (percentCarbs r) (percentDVProtein r) (percentDVFats r) (percentDVCarbs r)
    (numMissingIngredients r) (origin r).
Definition set_servings (v : jsval) (r : t) : t :=
  Build (title r) (image r) (id r) (isBookmarked r) (mealType r) (dietaryRestrictions r)
    (prepTime r) (cuisine r) (calories r) v (ingredients r) (instructions r)
    (saturatedFat r) (sugar r) (fiber r) (sodium r) (cholesterol r) (iron r) (zinc r)
    (calcium r) (magnesium r) (protein r) (fats r) (carbs r) (percentProtein r)
    (percentFats r) (percentCarbs r) (percentDVProtein r) (percentDVFats r)
    (percentDVCarbs r) (numMissingIngredients r) (origin r).
Definition set_ingredients (v : orStr (list Ingredient.t)) (r : t) : t :=
  Build (title r) (image r) (id r) (isBookmarked r) (mealType r) (dietaryRestrictions r)
    (prepTime r) (cuisine r) (calories r) (servings r) v (instructions r) (saturatedFat r)
    (sugar r) (fiber r) (sodium r) (cholesterol r) (iron r) (zinc r) (calcium r)
    (magnesium r) (protein r) (fats r) (carbs r) (percentProtein r) (percentFats r)
    (percentCarbs r) (percentDVProtein r) (percentDVFats r) (percentDVCarbs r)
    (numMissingIngredients r) (origin r).
Definition set_percentDVProtein (v : jsval) (r : t) : t :=
  Build (title r) (image r) (id r) (isBookmarked r) (mealType r) (dietaryRestrictions r)
    (prepTime r) (cuisine r) (calories r) (servings r) (ingredients r) (instructions r)
    (saturatedFat r) (sugar r) (fiber r) (sodium r) (cholesterol r) (iron r) (zinc r)
    (calcium r) (magnesium r) (protein r) (fats r) (carbs r) (percentProtein r)
    (percentFats r) (percentCarbs r) v (percentDVFats r) (percentDVCarbs r)
    (numMissingIngredients r) (origin r).
Definition set_percentDVFats (v : jsval) (r : t) : t :=
  Build (title r) (image r) (id r) (isBookmarked r) (mealType r) (dietaryRestrictions r)
    (prepTime r) (cuisine r) (calories r) (servings r) (ingredients r) (instructions r)
    (saturatedFat r) (sugar r) (fiber r) (sodium r) (cholesterol r) (iron r) (zinc r)
    (calcium r) (magnesium r) (protein r) (fats r) (carbs r) (percentProtein r)
    (percentFats r) (percentCarbs r) (percentDVProtein r) v (percentDVCarbs r)
    (numMissingIngredients r) (origin r).
Definition set_percentDVCarbs (v : jsval) (r : t) : t :=
  Build (title r) (image r) (id r) (isBookmarked r) (mealType r) (dietaryRestrictions r)
    (prepTime r) (cuisine r) (calories r) (servings r) (ingredients r) (instructions r)
    (saturatedFat r) (sugar r) (fiber r) (sodium r) (cholesterol r) (iron r) (zinc r)
    (calcium r) (magnesium r) (protein r) (fats r) (carbs r) (percentProtein r)
    (percentFats r) (percentCarbs r) (percentDVProtein r) (percentDVFats r) v
    (numMissingIngredients r) (origin r).
Definition set_numMissingIngredients (v : jsval) (r : t) : t :=
  Build (title r) (image r) (id r) (isBookmarked r) (mealType r) (dietaryRestrictions r)
    (prepTime r) (cuisine r) (calories r) (servings r) (ingredients r) (instructions r)
    (saturatedFat r) (sugar r) (fiber r) (sodium r) (cholesterol r) (iron r) (zinc r)
    (calcium r) (magnesium r) (protein r) (fats r) (carbs r) (percentProtein r)
    (percentFats r) (percentCarbs r) (percentDVProtein r) (percentDVFats r)
    (percentDVCarbs r) v (origin r).
Definition set_calories (v : jsval) (r : t) : t :=
  Build (title r) (image r) (id r) (isBookmarked r) (mealType r) (dietaryRestrictions r)
    (prepTime r) (cuisine r) v (servings r) (ingredients r) (instructions r)
    (saturatedFat r) (sugar r) (fiber r) (sodium r) (cholesterol r) (iron r) (zinc r)
    (calcium r) (magnesium r) (protein r) (fats r) (carbs r) (percentProtein r)
    (percentFats r) (percentCarbs r) (percentDVProtein r) (percentDVFats r)
    (percentDVCarbs r) (numMissingIngredients r) (origin r).
Definition set_saturatedFat (v : jsval) (r : t) : t :=
  Build (title r) (image r) (id r) (isBookmarked r) (mealType r) (dietaryRestrictions r)
    (prepTime r) (cuisine r) (calories r) (servings r) (ingredients r) (instructions r) v
    (sugar r) (fiber r) (sodium r) (cholesterol r) (iron r) (zinc r) (calcium r)
    (magnesium r) (protein r) (fats r) (carbs r) (percentProtein r) (percentFats r)
    (percentCarbs r) (percentDVProtein r) (percentDVFats r) (percentDVCarbs r)
    (numMissingIngredients r) (origin r).
Definition set_sugar (v : jsval) (r : t) : t :=
  Build (title r) (image r) (id r) (isBookmarked r) (mealType r) (dietaryRestrictions r)
    (prepTime r) (cuisine r) (calories r) (servings r) (ingredients r) (instructions r)
    (saturatedFat r) v (fiber r) (sodium r) (cholesterol r) (iron r) (zinc r) (calcium r)
    (magnesium r) (protein r) (fats r) (carbs r) (percentProtein r) (percentFats r)
    (percentCarbs r) (percentDVProtein r) (percentDVFats r) (percentDVCarbs r)
    (numMissingIngredients r) (origin r).
Definition set_fiber (v : jsval) (r : t) : t :=
  Build (title r) (image r) (id r) (isBookmarked r) (mealType r) (dietaryRestrictions r)
    (prepTime r) (cuisine r) (calories r) (servings r) (ingredients r) (instructions r)
    (saturatedFat r) (sugar r) v (sodium r) (cholesterol r) (iron r) (zinc r) (calcium r)
    (magnesium r) (protein r) (fats r) (carbs r) (percentProtein r) (percentFats r)
    (percentCarbs r) (percentDVProtein r) (percentDVFats r) (percentDVCarbs r)
    (numMissingIngredients r) (origin r).
Definition set_sodium (v : jsval) (r : t) : t :=
  Build (title r) (image r) (id r) (isBookmarked r) (mealType r) (dietaryRestrictions r)
    (prepTime r) (cuisine r) (calories r) (servings r) (ingredients r) (instructions r)
    (saturatedFat r) (sugar r) (fiber r) v (cholesterol r) (iron r) (zinc r) (calcium r)
    (magnesium r) (protein r) (fats r) (carbs r) (percentProtein r) (percentFats r)
    (percentCarbs r) (percentDVProtein r) (percentDVFats r) (percentDVCarbs r)
    (numMissingIngredients r) (origin r).
Definition set_cholesterol (v : jsval) (r : t) : t :=
  Build (title r) (image r) (id r) (isBookmarked r) (mealType r) (dietaryRestrictions r)
    (prepTime r) (cuisine r) (calories r) (servings r) (ingredients r) (instructions r)
    (saturatedFat r) (sugar r) (fiber r) (sodium r) v (iron r) (zinc r) (calcium r)
    (magnesium r) (protein r) (fats r) (carbs r) (percentProtein r) (percentFats r)
    (percentCarbs r) (percentDVProtein r) (percentDVFats r) (percentDVCarbs r)
    (numMissingIngredients r) (origin r).
Definition set_iron (v : jsval) (r : t) : t :=
  Build (title r) (image r) (id r) (isBookmarked r) (mealType r) (dietaryRestrictions r)
    (prepTime r) (cuisine r) (calories r) (servings r) (ingredients r) (instructions r)
    (saturatedFat r) (sugar r) (fiber r) (sodium r) (cholesterol r) v (zinc r) (calcium r)
    (magnesium r) (protein r) (fats r) (carbs r) (percentProtein r) (percentFats r)
    (percentCarbs r) (percentDVProtein r) (percentDVFats r) (percentDVCarbs r)
    (numMissingIngredients r) (origin r).
Definition set_zinc (v : jsval) (r : t) : t :=
  Build (title r) (image r) (id r) (isBookmarked r) (mealType r) (dietaryRestrictions r)
    (prepTime r) (cuisine r) (calories r) (servings r) (ingredients r) (instructions r)
    (saturatedFat r) (sugar r) (fiber r) (sodium r) (cholesterol r) (iron r) v (calcium r)
    (magnesium r) (protein r) (fats r) (carbs r) (percentProtein r) (percentFats r)
    (percentCarbs r) (percentDVProtein r) (percentDVFats r) (percentDVCarbs r)
    (numMissingIngredients r) (origin r).
Definition set_calcium (v : jsval) (r : t) : t :=
  Build (title r) (image r) (id r) (isBookmarked r) (mealType r) (dietaryRestrictions r)
    (prepTime r) (cuisine r) (calories r) (servings r) (ingredients r) (instructions r)
    (saturatedFat r) (sugar r) (fiber r) (sodium r) (cholesterol r) (iron r) (zinc r) v
    (magnesium r) (protein r) (fats r) (carbs r) (percentProtein r) (percentFats r)
    (percentCarbs r) (percentDVProtein r) (percentDVFats r) (percentDVCarbs r)
    (numMissingIngredients r) (origin r).
Definition set_magnesium (v : jsval) (r : t) : t :=
  Build (title r) (image r) (id r) (isBookmarked r) (mealType r) (dietaryRestrictions r)
    (prepTime r) (cuisine r) (calories r) (servings r) (ingredients r) (instructions r)
    (saturatedFat r) (sugar r) (fiber r) (sodium r) (cholesterol r) (iron r) (zinc r)
    (calcium r) v (protein r) (fats r) (carbs r) (percentProtein r) (percentFats r)
    (percentCarbs r) (percentDVProtein r) (percentDVFats r) (percentDVCarbs r)
    (numMissingIngredients r) (origin r).
Definition set_protein (v : jsval) (r : t) : t :=
  Build (title r) (image r) (id r) (isBookmarked r) (mealType r) (dietaryRestrictions r)
    (prepTime r) (cuisine r) (calories r) (servings r) (ingredients r) (instructions r)
    (saturatedFat r) (sugar r) (fiber r) (sodium r) (cholesterol r) (iron r) (zinc r)
    (calcium r) (magnesium r) v (fats r) (carbs r) (percentProtein r) (percentFats r)
    (percentCarbs r) (percentDVProtein r) (percentDVFats r) (percentDVCarbs r)
    (numMissingIngredients r) (origin r).
Definition set_carbs (v : jsval) (r : t) : t :=
  Build (title r) (image r) (id r) (isBookmarked r) (mealType r) (dietaryRestrictions r)
    (prepTime r) (cuisine r) (calories r) (servings r) (ingredients r) (instructions r)
    (saturatedFat r) (sugar r) (fiber r) (sodium r) (cholesterol r) (iron r) (zinc r)
    (calcium r) (magnesium r) (protein r) (fats r) v (percentProtein r) (percentFats r)
    (percentCarbs r) (percentDVProtein r) (percentDVFats r) (percentDVCarbs r)
    (numMissingIngredients r) (origin r).
Definition set_fats (v : jsval) (r : t) : t :=
  Build (title r) (image r) (id r) (isBookmarked r) (mealType r) (dietaryRestrictions r)
    (prepTime r) (cuisine r) (calories r) (servings r) (ingredients r) (instructions r)
    (saturatedFat r) (sugar r) (fiber r) (sodium r) (cholesterol r) (iron r) (zinc r)
    (calcium r) (magnesium r) (protein r) v (carbs r) (percentProtein r) (percentFats r)
    (percentCarbs r) (percentDVProtein r) (percentDVFats r) (percentDVCarbs r)
    (numMissingIngredients r) (origin r).

(** Dynamic access [recipe[key]] to the nutrient properties. Any other
    key reads as [undefined]; writing to it is left out of the model. *)
Definition get (key : string) (r : t) : jsval :=
  if String.eqb key "calories" then calories r else
  if String.eqb key "saturatedFat" then saturatedFat r else
  if String.eqb key "sugar" then sugar r else
  if String.eqb key "fiber" then fiber r else
  if String.eqb key "sodium" then sodium r else
  if String.eqb key "cholesterol" then cholesterol r else
  if String.eqb key "iron" then iron r else
  if String.eqb key "zinc" then zinc r else
  if String.eqb key "calcium" then calcium r else
  if String.eqb key "magnesium" then magnesium r else
  if String.eqb key "protein" then protein r else
  if String.eqb key "carbs" then carbs r else
  if String.eqb key "fats" then fats r else
  VUndef.
Definition set (key : string) (v : jsval) (r : t) : t :=
  if String.eqb key "calories" then set_calories v r else
  if String.eqb key "saturatedFat" then set_saturatedFat v r else
  if String.eqb key "sugar" then set_sugar v r else
  if String.eqb key "fiber" then set_fiber v r else
  if String.eqb key "sodium" then set_sodium v r else
  if String.eqb key "cholesterol" then set_cholesterol v r else
  if String.eqb key "iron" then set_iron v r else
  if String.eqb key "zinc" then set_zinc v r else
  if String.eqb key "calcium" then set_calcium v r else
  if String.eqb key "magnesium" then set_magnesium v r else
  if String.eqb key "protein" then set_protein v r else
  if String.eqb key "carbs" then set_carbs v r else
  if String.eqb key "fats" then set_fats v r else
  r.

(** [deepCopy] of a recipe, a round trip through JSON. *)
Definition deepCopy (r : t) : t :=
  Build (title r) (image r) (id r) (isBookmarked r)
    (mealType r) (dietaryRestrictions r) (json_val (prepTime r)) (cuisine r)
    (json_val (calories r)) (json_val (servings r)) (orStr_map (List.map Ingredient.deepCopy) (ingredients r)) (instructions r)
    (json_val (saturatedFat r)) (json_val (sugar r)) (json_val (fiber r)) (json_val (sodium r))
    (json_val (cholesterol r)) (json_val (iron r)) (json_val (zinc r)) (json_val (calcium r))
    (json_val (magnesium r)) (json_val (protein r)) (json_val (fats r)) (json_val (carbs r))
    (json_val (percentProtein r)) (json_val (percentFats r)) (json_val (percentCarbs r)) (json_val (percentDVProtein r))
    (json_val (percentDVFats r)) (json_val (percentDVCarbs r)) (json_val (numMissingIngredients r)) (origin r).
End Recipe.

(** ** The meal plan and the application state *)

Inductive MealSlot : Type :=
  | breakfast
  | lunch
  | snacks
  | dinner.

Module Meals.
Record t : Type := Build {
  breakfast : list Recipe.t;
  lunch : list Recipe.t;
  snacks : list Recipe.t;
  dinner : list Recipe.t
}.
End Meals.

(** [meals[mealTime]] and the assignment [meals[mealTime] = l]. *)
Definition meals_get (m : MealSlot) (ms : Meals.t) : list Recipe.t :=
  match m with
  | breakfast => Meals.breakfast ms
  | lunch => Meals.lunch ms
  | snacks => Meals.snacks ms
  | dinner => Meals.dinner ms
  end.

Definition meals_set (m : MealSlot) (l : list Recipe.t) (ms : Meals.t) : Meals.t :=
  match m with
  | breakfast => Meals.Build l (Meals.lunch ms) (Meals.snacks ms) (Meals.dinner ms)
  | lunch => Meals.Build (Meals.breakfast ms) l (Meals.snacks ms) (Meals.dinner ms)
  | snacks => Meals.Build (Meals.breakfast ms) (Meals.lunch ms) l (Meals.dinner ms)
  | dinner => Meals.Build (Meals.breakfast ms) (Meals.lunch ms) (Meals.snacks ms) l
  end.

(** The slots in the order in which [for (const mealType in meals)] visits them. *)
Definition mealSlots : list MealSlot := [breakfast; lunch; snacks; dinner].

Module Nutrition.
Record t : Type := Build {
  calories : jsval;
  protein : jsval;
  carbs : jsval;
  fats : jsval
}.
End Nutrition.

Record DayPlan : Type := {
  meals : Meals.t;
  nutrition : Nutrition.t
}.

Abbreviation WeekPlan := (gmap Z DayPlan).
Abbreviation MealPlan := (gmap Z (gmap Z DayPlan)).

(** The [state] singleton, extended with the two records of [localStorage];
    a stored JSON text is represented by the value it parses back to.
    [initializedViews] belongs to the views and is left out. *)
Record State : Type := {
  pantry : list string;
  ingredientSearchResults : list Recipe.t;
  browseSearchResults : list Recipe.t;
  recipeBook : list Recipe.t;
  mealCalendarWeek : Z;
  mealPlan : MealPlan;
  storedRecipeBook : option (list Recipe.t);
  storedMealPlan : option MealPlan
}.

Definition set_ingredientSearchResults (l : list Recipe.t) (st : State) : State :=
  {| pantry := pantry st; ingredientSearchResults := l;
     browseSearchResults := browseSearchResults st; recipeBook := recipeBook st;
     mealCalendarWeek := mealCalendarWeek st; mealPlan := mealPlan st;
     storedRecipeBook := storedRecipeBook st; storedMealPlan := storedMealPlan st |}.

Definition set_browseSearchResults (l : list Recipe.t) (st : State) : State :=
  {| pantry := pantry st; ingredientSearchResults := ingredientSearchResults st;
     browseSearchResults := l; recipeBook := recipeBook st;
     mealCalendarWeek := mealCalendarWeek st; mealPlan := mealPlan st;
     storedRecipeBook := storedRecipeBook st; storedMealPlan := storedMealPlan st |}.

Definition set_recipeBook (l : list Recipe.t) (st : State) : State :=
  {| pantry := pantry st; ingredientSearchResults := ingredientSearchResults st;
     browseSearchResults := browseSearchResults st; recipeBook := l;
     mealCalendarWeek := mealCalendarWeek st; mealPlan := mealPlan st;
     storedRecipeBook := storedRecipeBook st; storedMealPlan := storedMealPlan st |}.

Definition set_mealPlan (mp : MealPlan) (st : State) : State :=
  {| pantry := pantry st; ingredientSearchResults := ingredientSearchResults st;
     browseSearchResults := browseSearchResults st; recipeBook := recipeBook st;
     mealCalendarWeek := mealCalendarWeek st; mealPlan := mp;
     storedRecipeBook := storedRecipeBook st; storedMealPlan := storedMealPlan st |}.

Definition set_storedRecipeBook (s : option (list Recipe.t)) (st : State) : State :=
  {| pantry := pantry st; ingredientSearchResults := ingredientSearchResults st;
     browseSearchResults := browseSearchResults st; recipeBook := recipeBook st;
     mealCalendarWeek := mealCalendarWeek st; mealPlan := mealPlan st;
     storedRecipeBook := s; storedMealPlan := storedMealPlan st |}.

Definition set_storedMealPlan (s : option MealPlan) (st : State) : State :=
  {| pantry := pantry st; ingredientSearchResults := ingredientSearchResults st;
     browseSearchResults := browseSearchResults st; recipeBook := recipeBook st;
     mealCalendarWeek := mealCalendarWeek st; mealPlan := mealPlan st;
     storedRecipeBook := storedRecipeBook st; storedMealPlan := s |}.

(** The options object [{source, currentDate, currentMeal}]; [None] is [null]. *)
Record Options : Type := {
  source : string;
  currentDate : option Z;
  currentMeal : option MealSlot
}.

(** ** Array helpers *)

(** [Array.prototype.findIndex]: -1 when nothing satisfies the predicate. *)
Fixpoint findIndex {A : Type} (p : A -> bool) (l : list A) : Z :=
  match l with
  | [] => -1
  | x :: l' =>
      if p x then 0
      else let i := findIndex p l' in if i <? 0 then -1 else i + 1
  end.

(** [Array.prototype.splice(start, deleteCount)] without inserted items: a
    negative [start] counts from the end of the array. *)
Definition splice {A : Type} (start deleteCount : Z) (l : list A) : list A :=
  let len := Z.of_nat (length l) in
  let actualStart := if start <? 0 then Z.max (len + start) 0 else Z.min start len in
  let actualDeleteCount := Z.min (Z.max deleteCount 0) (len - actualStart) in
  (take (Z.to_nat actualStart) l ++ drop (Z.to_nat (actualStart + actualDeleteCount)) l)%list.

Definition has_id (recipeId : Z) (r : Recipe.t) : bool := Z.eqb (Recipe.id r) recipeId.

(** The object found by [find] is mutated in place: the first element that
    satisfies [p] is replaced by its new value. *)
Fixpoint replace_first {A : Type} (p : A -> bool) (y : A) (l : list A) : list A :=
  match l with
  | [] => []
  | x :: l' => if p x then y :: l' else x :: replace_first p y l'
  end.

(** [l.forEach(r => { if (r.id === recipeId) f(r) })]. *)
Definition update_matching (recipeId : Z) (f : Recipe.t -> Recipe.t) (l : list Recipe.t)
  : list Recipe.t :=
  List.map (fun r => if has_id recipeId r then f r else r) l.

(** ** modelUtils.js *)

(** [Date.prototype.getDay]: 0 is Sunday; day 0 is a Thursday. *)
Definition getDay (d : Z) : Z := (d + 4) mod 7.

Definition getMondayOfTheWeek (selectedDate : Z) : Z :=
  selectedDate - getDay selectedDate + 1.

(** [getDayMealPlan]; [None] when the week or the day is not resident, in
    which case the source, or the first use of its result, raises. *)
Definition getDayMealPlan (dayDateString : Z) (st : State) : option (Z * DayPlan) :=
  let weekKey := getMondayOfTheWeek dayDateString in
  weekPlan ← mealPlan st !! weekKey;
  dayMealPlan ← weekPlan !! dayDateString;
  Some (weekKey, dayMealPlan).

(** In-place mutation of the day object that [getDayMealPlan] returns. *)
Definition modifyDay (dayDateString : Z) (f : DayPlan -> DayPlan) (st : State) : State :=
  set_mealPlan (alter (alter f dayDateString) (getMondayOfTheWeek dayDateString) (mealPlan st)) st.

Definition modifySlot (dayDateString : Z) (mealTime : MealSlot)
    (f : list Recipe.t -> list Recipe.t) (st : State) : State :=
  modifyDay dayDateString
    (fun dp => {| meals := meals_set mealTime (f (meals_get mealTime (meals dp))) (meals dp);
                  nutrition := nutrition dp |}) st.

Definition getSourceArray (src : string) (st : State) : option (list Recipe.t) :=
  if String.eqb src "ingredientSearch" then Some (ingredientSearchResults st)
  else if String.eqb src "browseRecipeSearch" then Some (browseSearchResults st)
  else if String.eqb src "recipeBook" then Some (recipeBook st)
  else None.

(** Assignment through the reference that [getSourceArray] returns. *)
Definition modifySourceArray (src : string) (f : list Recipe.t -> list Recipe.t)
    (st : State) : State :=
  if String.eqb src "ingredientSearch" then set_ingredientSearchResults (f (ingredientSearchResults st)) st
  else if String.eqb src "browseRecipeSearch" then set_browseSearchResults (f (browseSearchResults st)) st
  else if String.eqb src "recipeBook" then set_recipeBook (f (recipeBook st)) st
  else st.

(** [None]: the source is unknown ([null.find] raises) or no recipe has the
    id ([null] is returned; the callers raise on it, except
    [addRecipeToRecipeBookById], see there). *)
Definition getRecipeFromBrowse (recipeId : Z) (src : string) (st : State) : option Recipe.t :=
  recipes ← getSourceArray src st;
  List.find (has_id recipeId) recipes.

Definition getRecipeFromMealPlan (recipeId dayDateString : Z) (mealTime : MealSlot)
    (st : State) : option Recipe.t :=
  '(_, dayMealPlan) ← getDayMealPlan dayDateString st;
  List.find (has_id recipeId) (meals_get mealTime (meals dayMealPlan)).

Definition getRecipe (recipeId : Z) (opts : Options) (st : State) : option Recipe.t :=
  match currentDate opts, currentMeal opts with
  | Some d, Some m =>
      if String.eqb (source opts) "mealPlan" then getRecipeFromMealPlan recipeId d m st
      else getRecipeFromBrowse recipeId (source opts) st
  | _, _ => getRecipeFromBrowse recipeId (source opts) st
  end.

(** The recipe returned by [getRecipe] is a reference into the state; this
    stores the mutated object where [getRecipe] found it. *)
Definition putRecipe (recipeId : Z) (opts : Options) (r : Recipe.t) (st : State) : State :=
  match currentDate opts, currentMeal opts with
  | Some d, Some m =>
      if String.eqb (source opts) "mealPlan"
      then modifySlot d m (replace_first (has_id recipeId) r) st
      else modifySourceArray (source opts) (replace_first (has_id recipeId) r) st
  | _, _ => modifySourceArray (source opts) (replace_first (has_id recipeId) r) st
  end.

(** ** config.js *)

Definition RECOMMENDED_PROTEIN_DV : jsval := num_lit 50.
Definition RECOMMENDED_FATS_DV : jsval := num_lit 275.
Definition RECOMMENDED_CARBS_DV : jsval := num_lit 78.

Definition RECIPE_NUTRIENTS : list string :=
  ["calories"; "saturatedFat"; "sugar"; "fiber"; "sodium"; "cholesterol"; "iron";
   "zinc"; "calcium"; "magnesium"; "protein"; "carbs"; "fats"].

Definition COMMON_PANTRY_ITEMS : list string :=
  ["salt"; "table salt"; "pepper"; "salt and pepper"; "salt & pepper"; "salt&pepper";
   "black pepper"; "ground pepper"; "water"; "flour"; "oil"].

Definition INGREDIENT_SYNONYMS : list (string * list string) :=
  [("cheese", ["parmesan"; "mozzarella"; "cheddar"; "feta"; "brie"; "provolone"; "gruyere";
               "gorgonzola"; "fontina"; "gouda"; "burrata"; "monterey jack"; "graviera"]);
   ("bread", ["focaccia"; "ciabatta"; "sourdough"; "baguette"; "brioche"]);
   ("pasta", ["spaghetti"; "fettuccine"; "penne"; "rigatoni"; "macaroni"; "lasagna";
              "ramen"; "udon"; "soba"; "rice noodle"]);
   ("onion", ["shallot"]);
   ("butter", ["margarine"]);
   ("milk", ["soy milk"; "almond milk"])].

Section Model.
Context `{JSConversions}.

(** ** servingsUtils.js *)

Definition calculateUpdatedServings (currentServings : jsval) (operation : option string)
    (newServings : option jsval) : jsval :=
  match newServings with
  | Some v => js_plus v
  | None =>
      match operation with
      | Some "increaseServings" => js_add currentServings (num_lit 1)
      | _ => js_sub currentServings (num_lit 1)
      end
  end.

Definition isValidServings (servings : jsval) : bool :=
  if js_lt servings (num_lit 1) || js_gt servings (num_lit 50) then false else true.

(** [ingredients.forEach] raises when the property is not an array. *)
Definition updateIngredientQuantities (ingredients : orStr (list Ingredient.t))
    (servingsRatio : jsval) : option (orStr (list Ingredient.t)) :=
  match ingredients with
  | Is l =>
      Some (Is (List.map (fun ingredient =>
        Ingredient.set_quantity (js_mul (Ingredient.quantity ingredient) servingsRatio) ingredient) l))
  | Str _ => None
  end.

Definition updateNutrientQuantities (recipe : Recipe.t) (servingsRatio : jsval) : Recipe.t :=
  fold_left (fun r nutrient =>
    if Number_isFinite (Recipe.get nutrient r)
    then Recipe.set nutrient (js_mul (Recipe.get nutrient r) servingsRatio) r
    else r) RECIPE_NUTRIENTS recipe.

Definition updatePercentDV (recipe : Recipe.t) : Recipe.t :=
  let r1 := Recipe.set_percentDVProtein
              (js_mul (js_div (Recipe.protein recipe) RECOMMENDED_PROTEIN_DV) (num_lit 100)) recipe in
  let r2 := Recipe.set_percentDVFats
              (js_mul (js_div (Recipe.fats r1) RECOMMENDED_FATS_DV) (num_lit 100)) r1 in
  Recipe.set_percentDVCarbs
    (js_mul (js_div (Recipe.carbs r2) RECOMMENDED_CARBS_DV) (num_lit 100)) r2.

Definition updateProperties (recipe updatedRecipe : Recipe.t) : Recipe.t :=
  let r1 := Recipe.set_servings (Recipe.servings updatedRecipe) recipe in
  let r2 := Recipe.set_ingredients
              (orStr_map (List.map Ingredient.deepCopy) (Recipe.ingredients updatedRecipe)) r1 in
  fold_left (fun r nutrient => Recipe.set nutrient (Recipe.get nutrient updatedRecipe) r)
    RECIPE_NUTRIENTS r2.

(** The three passes read [updatedRecipe] through a reference that one of
    them also writes (the adjusted object is itself in a browsing array).
    The self-update only replaces the ingredient list by its own deep copy,
    and copying twice is copying once ([updateProperties_self] below), so
    every pass sees the same source value. *)
Definition synchronizeRecipeInstances (updatedRecipe : Recipe.t) (st : State) : State :=
  let recipeId := Recipe.id updatedRecipe in
  let sync := update_matching recipeId (fun recipe => updateProperties recipe updatedRecipe) in
  set_recipeBook (sync (recipeBook st))
    (set_browseSearchResults (sync (browseSearchResults st))
      (set_ingredientSearchResults (sync (ingredientSearchResults st)) st)).

(** The mutations that [adjustServings] applies to the recipe it found, once
    the new serving count is accepted. *)
Definition rescale (recipe : Recipe.t) (updatedServings : jsval) : option Recipe.t :=
  let servingsRatio := js_div updatedServings (Recipe.servings recipe) in
  ingredients ← updateIngredientQuantities (Recipe.ingredients recipe) servingsRatio;
  let r1 := Recipe.set_ingredients ingredients recipe in
  let r2 := updateNutrientQuantities r1 servingsRatio in
  let r3 := updatePercentDV r2 in
  Some (Recipe.set_servings updatedServings r3).

Definition adjustServings (recipeId : Z) (operation : option string) (opts : Options)
    (newServings : option jsval) (st : State) : option State :=
  recipe ← getRecipe recipeId opts st;
  let updatedServings := calculateUpdatedServings (Recipe.servings recipe) operation newServings in
  if negb (isValidServings updatedServings) then Some st
  else
    recipe' ← rescale recipe updatedServings;
    let st' := putRecipe recipeId opts recipe' st in
    Some (if negb (String.eqb (source opts) "mealPlan")
          then synchronizeRecipeInstances recipe' st' else st').

(** ** mealPlanner.js *)

Record UserInputs : Type := {
  date : Z;
  meal : MealSlot;
  operation : string;
  numServings : jsval
}.

Definition deepCopy_day (dp : DayPlan) : DayPlan :=
  let ms := meals dp in
  let n := nutrition dp in
  {| meals := Meals.Build (List.map Recipe.deepCopy (Meals.breakfast ms))
                (List.map Recipe.deepCopy (Meals.lunch ms))
                (List.map Recipe.deepCopy (Meals.snacks ms))
                (List.map Recipe.deepCopy (Meals.dinner ms));
     nutrition := Nutrition.Build (json_val (Nutrition.calories n)) (json_val (Nutrition.protein n))
                    (json_val (Nutrition.carbs n)) (json_val (Nutrition.fats n)) |}.

Definition deepCopy_mealPlan (mp : MealPlan) : MealPlan :=
  fmap (M := gmap Z) (fmap (M := gmap Z) deepCopy_day) mp.

Definition saveMealPlan (st : State) : State :=
  set_storedMealPlan (Some (deepCopy_mealPlan (mealPlan st))) st.

(** The recipes of a day in the order in which the two nested loops of
    [updateNutritionForDay] visit them. *)
Definition recipesOfDay (ms : Meals.t) : list Recipe.t :=
  concat (List.map (fun mealType => meals_get mealType ms) mealSlots).

Definition addRecipeNutrition (n : Nutrition.t) (recipe : Recipe.t) : Nutrition.t :=
  Nutrition.Build (js_add (Nutrition.calories n) (Recipe.calories recipe))
    (js_add (Nutrition.protein n) (Recipe.protein recipe))
    (js_add (Nutrition.carbs n) (Recipe.carbs recipe))
    (js_add (Nutrition.fats n) (Recipe.fats recipe)).

Definition zeroNutrition : Nutrition.t :=
  Nutrition.Build (num_lit 0) (num_lit 0) (num_lit 0) (num_lit 0).

Definition recomputeNutrition (dp : DayPlan) : DayPlan :=
  {| meals := meals dp;
     nutrition := fold_left addRecipeNutrition (recipesOfDay (meals dp)) zeroNutrition |}.

Definition updateNutritionForDay (dayDateString : Z) (st : State) : option State :=
  '(_, _) ← getDayMealPlan dayDateString st;
  Some (modifyDay dayDateString recomputeNutrition st).

(** [for (const day in weekPlan) updateNutritionForDay(day)]; nothing is
    visited when the week is not resident. *)
Definition updateNutritionForWeek (mondayOfWeekDateString : Z) (st : State) : option State :=
  match mealPlan st !! mondayOfWeekDateString with
  | None => Some st
  | Some weekPlan =>
      fold_left (fun acc day => st' ← acc; updateNutritionForDay day st')
        (List.map fst (map_to_list weekPlan)) (Some st)
  end.

Definition deleteRecipeFromMealPlan (recipeId dayDateString : Z) (mealTime : MealSlot)
    (st : State) : option State :=
  '(weekKey, dayMealPlan) ← getDayMealPlan dayDateString st;
  let recipeToDeleteIndex := findIndex (has_id recipeId) (meals_get mealTime (meals dayMealPlan)) in
  let st1 := modifySlot dayDateString mealTime (splice recipeToDeleteIndex 1) st in
  st2 ← updateNutritionForWeek weekKey st1;
  Some (saveMealPlan st2).

Definition addRecipeToMealPlan (recipeId : Z) (userInputs : UserInputs) (opts : Options)
    (st : State) : option State :=
  '(weekKey, dayMealPlan) ← getDayMealPlan (date userInputs) st;
  recipe ← getRecipe recipeId opts st;
  let recipeCopy := Recipe.deepCopy recipe in
  let st1 :=
    if String.eqb (operation userInputs) "replace"
    then modifySlot (date userInputs) (meal userInputs) (fun _ => []) st else st in
  let st2 := modifySlot (date userInputs) (meal userInputs) (fun l => (l ++ [recipeCopy])%list) st1 in
  st3 ← match Recipe.origin recipeCopy with
        | customMealEntry => Some st2
        | _ =>
            adjustServings (Recipe.id recipeCopy) None
              {| source := "mealPlan"; currentDate := Some (date userInputs);
                 currentMeal := Some (meal userInputs) |}
              (nullable (numServings userInputs)) st2
        end;
  st4 ← updateNutritionForWeek weekKey st3;
  let st5 := saveMealPlan st4 in
  if String.eqb (source opts) "mealPlan" then
    match currentDate opts, currentMeal opts with
    | Some d, Some m => deleteRecipeFromMealPlan recipeId d m st5
    | _, _ => None
    end
  else Some st5.

Record CustomEntryInputs : Type := {
  ce_date : Z;
  ce_meal : MealSlot;
  mealName : string;
  mealCalories : jsval;
  mealProtein : jsval;
  mealCarbs : jsval;
  mealFats : jsval
}.

(** [uniqueId] is the value that [generateUniqueId] draws from the clock and
    the random generator. *)
Definition createCustomRecipeObject (uniqueId : Z) (inputs : CustomEntryInputs) : Recipe.t :=
  let Unavailable := VStr "Unavailable" in
  Recipe.Build (mealName inputs) "images/custom-recipe-image.avif" uniqueId false
    "Unavailable" (Str "Unavailable") Unavailable "Unavailable"
    (js_plus (mealCalories inputs)) Unavailable (Str "Unavailable") (Str "Unavailable")
    Unavailable Unavailable Unavailable Unavailable Unavailable Unavailable Unavailable
    Unavailable Unavailable
    (js_plus (mealProtein inputs)) (js_plus (mealFats inputs)) (js_plus (mealCarbs inputs))
    Unavailable Unavailable Unavailable Unavailable Unavailable Unavailable
    (VStr "N/A") customMealEntry.

Definition createCustomMealEntry (uniqueId : Z) (inputs : CustomEntryInputs) (st : State)
  : option State :=
  '(weekKey, dayMealPlan) ← getDayMealPlan (ce_date inputs) st;
  let customEntryRecipe := createCustomRecipeObject uniqueId inputs in
  let st1 := modifySlot (ce_date inputs) (ce_meal inputs) (fun l => (l ++ [customEntryRecipe])%list) st in
  st2 ← updateNutritionForWeek weekKey st1;
  Some (saveMealPlan st2).

Definition mealsInMealSlot (dateString : Z) (mealTime : MealSlot) (st : State)
  : option (list Z) :=
  weekPlan ← mealPlan st !! getMondayOfTheWeek dateString;
  dayPlan ← weekPlan !! dateString;
  Some (List.map Recipe.id (meals_get mealTime (meals dayPlan))).

(** ** recipeBook.js *)

Definition saveRecipeBook (st : State) : State :=
  set_storedRecipeBook (Some (List.map Recipe.deepCopy (recipeBook st))) st.

(** [None] when [getRecipe] finds nothing. From the meal plan the code then
    raises ([JSON.parse(undefined)]); from a browsing source it stores [null]
    in the recipe book and saves, a recipe book that this model, whose
    entries are recipes, does not represent. The only caller,
    [toggleBookmarkStatus], comes here after [getBookmarkStatus] has found
    the recipe. *)
Definition addRecipeToRecipeBookById (recipeId : Z) (opts : Options) (st : State)
  : option State :=
  recipe ← getRecipe recipeId opts st;
  let recipeCopy := Recipe.deepCopy recipe in
  Some (saveRecipeBook (set_recipeBook (recipeBook st ++ [recipeCopy])%list st)).

Definition removeRecipeFromBook (recipeId : Z) (st : State) : State :=
  let index := findIndex (has_id recipeId) (recipeBook st) in
  saveRecipeBook (set_recipeBook (splice index 1 (recipeBook st)) st).

(** ** bookmarkUtils.js *)

Definition getBookmarkStatus (recipeId : Z) (opts : Options) (st : State) : option bool :=
  recipe ← getRecipe recipeId opts st;
  Some (Recipe.isBookmarked recipe).

Definition updateBookmarkStatus (recipeId : Z) (newBookmarkStatus : bool) (opts : Options)
    (st : State) : option State :=
  let viaBrowse :=
    recipe ← getRecipeFromBrowse recipeId (source opts) st;
    Some (modifySourceArray (source opts)
            (replace_first (has_id recipeId) (Recipe.set_isBookmarked newBookmarkStatus recipe))
            st) in
  match currentDate opts, currentMeal opts with
  | Some d, Some m =>
      if String.eqb (source opts) "mealPlan" then
        '(_, _) ← getDayMealPlan d st;
        Some (modifySlot d m
                (update_matching recipeId (Recipe.set_isBookmarked newBookmarkStatus)) st)
      else viaBrowse
  | _, _ => viaBrowse
  end.

Definition syncDayBookmarkStatus (recipeId : Z) (newBookmarkStatus : bool) (dp : DayPlan)
  : DayPlan :=
  let sync := update_matching recipeId (Recipe.set_isBookmarked newBookmarkStatus) in
  let ms := meals dp in
  {| meals := Meals.Build (sync (Meals.breakfast ms)) (sync (Meals.lunch ms))
                (sync (Meals.snacks ms)) (sync (Meals.dinner ms));
     nutrition := nutrition dp |}.

Definition syncMealPlannerBookmarkStatus (recipeId : Z) (newBookmarkStatus : bool)
    (st : State) : State :=
  set_mealPlan
    (fmap (M := gmap Z) (fmap (M := gmap Z) (syncDayBookmarkStatus recipeId newBookmarkStatus))
       (mealPlan st)) st.

Definition synchronizeBookmarkStatus (recipeId : Z) (newBookmarkStatus : bool) (st : State)
  : State :=
  let sync := update_matching recipeId (Recipe.set_isBookmarked newBookmarkStatus) in
  syncMealPlannerBookmarkStatus recipeId newBookmarkStatus
    (set_recipeBook (sync (recipeBook st))
      (set_browseSearchResults (sync (browseSearchResults st))
        (set_ingredientSearchResults (sync (ingredientSearchResults st)) st))).

(** ** Controllers: the bookmark toggle and the guarded addition to the plan.
    Calls into the views are left out. *)

Definition generateOptionsObject (src : string) (d : option Z) (m : option MealSlot) : Options :=
  match d, m with
  | Some _, Some _ =>
      if String.eqb src "mealPlan"
      then {| source := src; currentDate := d; currentMeal := m |}
      else {| source := src; currentDate := None; currentMeal := None |}
  | _, _ => {| source := src; currentDate := None; currentMeal := None |}
  end.

Definition toggleBookmarkStatus (recipeId : Z) (opts : Options) (st : State)
  : option (bool * State) :=
  isCurrentlyBookmarked ← getBookmarkStatus recipeId opts st;
  let isNowBookmarked := negb isCurrentlyBookmarked in
  st1 ← updateBookmarkStatus recipeId isNowBookmarked opts st;
  st2 ← (if isNowBookmarked then addRecipeToRecipeBookById recipeId opts st1
         else Some (removeRecipeFromBook recipeId st1));
  Some (isNowBookmarked, st2).

Definition synchronizeBookmarks (recipeId : Z) (isNowBookmarked : bool) (st : State) : State :=
  saveMealPlan (synchronizeBookmarkStatus recipeId isNowBookmarked st).

Definition controlBookmarks (recipeId : Z) (opts : Options) (st : State) : option State :=
  '(isNowBookmarked, st1) ← toggleBookmarkStatus recipeId opts st;
  Some (synchronizeBookmarks recipeId isNowBookmarked st1).

Definition isRecipeAlreadyInMealSlot (recipeId dateToBePlaced : Z) (mealToBePlaced : MealSlot)
    (op : string) (st : State) : option bool :=
  currentRecipes ← mealsInMealSlot dateToBePlaced mealToBePlaced st;
  Some (existsb (Z.eqb recipeId) currentRecipes && negb (String.eqb op "replace")).

(** What [controlAddRecipeToPlan] did: rendered the "recipe already exists in
    the meal slot" error, or added the recipe. *)
Inductive AddRecipeOutcome : Type :=
  | MealExistsErrorRendered
  | RecipeAdded.

Definition controlAddRecipeToPlan (recipeId : Z) (userInputs : UserInputs) (opts : Options)
    (st : State) : option (AddRecipeOutcome * State) :=
  alreadyThere ← isRecipeAlreadyInMealSlot recipeId (date userInputs) (meal userInputs)
                   (operation userInputs) st;
  if (alreadyThere : bool) then Some (MealExistsErrorRendered, st)
  else
    let options := generateOptionsObject (source opts) (currentDate opts) (currentMeal opts) in
    st' ← addRecipeToMealPlan recipeId userInputs options st;
    Some (RecipeAdded, st').

End Model.

(** ** sharedUtils.js: strings *)

(** [haystack.includes(needle)]. *)
Fixpoint includes (haystack needle : string) : bool :=
  if String.prefix needle haystack then true
  else match haystack with
       | EmptyString => false
       | String _ rest => includes rest needle
       end.

(** White space as [String.prototype.trim] sees it, within ASCII. *)
Definition is_space (c : ascii) : bool :=
  let n := nat_of_ascii c in
  (Nat.eqb n 32 || (Nat.leb 9 n && Nat.leb n 13))%bool.

Fixpoint trimStart (s : string) : string :=
  match s with
  | String c rest => if is_space c then trimStart rest else s
  | EmptyString => EmptyString
  end.

Definition rev_string (s : string) : string :=
  string_of_list_ascii (List.rev (list_ascii_of_string s)).

Definition trim (s : string) : string :=
  rev_string (trimStart (rev_string (trimStart s))).

(** [toLowerCase] and [toUpperCase] on the letters of ASCII; other
    characters are kept. *)
Definition lower_char (c : ascii) : ascii :=
  let n := nat_of_ascii c in
  if (Nat.leb 65 n && Nat.leb n 90)%bool then ascii_of_nat (n + 32) else c.

Definition upper_char (c : ascii) : ascii :=
  let n := nat_of_ascii c in
  if (Nat.leb 97 n && Nat.leb n 122)%bool then ascii_of_nat (n - 32) else c.

Fixpoint map_string (f : ascii -> ascii) (s : string) : string :=
  match s with
  | EmptyString => EmptyString
  | String c rest => String (f c) (map_string f rest)
  end.

Definition toLowerCase (s : string) : string := map_string lower_char s.

(** A string in a condition: the empty string is falsy. *)
Definition truthy_string (s : string) : bool := negb (String.eqb s "").

(** [a || b] on two results of [find]: [None] is [undefined]. *)
Definition or_found (a b : option string) : option string :=
  match a with
  | Some s => if truthy_string s then a else b
  | None => b
  end.

(** A value in a condition. *)
Definition truthy (v : jsval) : bool :=
  match v with
  | VUndef | VNull => false
  | VNum (Fin q) => negb (Qeq_bool q 0)
  | VNum NaN => false
  | VNum _ => true
  | VStr s => truthy_string s
  end.

(** What the application takes from its surroundings: the [singular]
    function of the pluralize package and the URL under which the bundler
    serves the default recipe image. *)
Class Environment : Type := {
  singular : string -> string;
  defaultRecipeImage : string
}.

Section Availability.
Context `{Environment}.

Definition normalizeIngredient (ingredient : string) : string :=
  singular (toLowerCase (trim ingredient)).

(** ** Ingredient availability (loadRecipeDetails.js) *)

Definition checkHouseholdItem (ingredient : string) : option Availability :=
  match List.find (fun commonItem => String.eqb ingredient commonItem) COMMON_PANTRY_ITEMS with
  | Some found =>
      if truthy_string found
      then Some {| availabilityState := householdItem; matchingPantryIngredient := Some found |}
      else None
  | None => None
  end.

Definition checkExactMatch (ingredient : string) (st : State) : option Availability :=
  if existsb (fun pantryItem => String.eqb pantryItem ingredient) (pantry st)
  then Some {| availabilityState := definitelyAvailable;
               matchingPantryIngredient := Some ingredient |}
  else None.

Definition checkPartialMatch (ingredient : string) (st : State) : option Availability :=
  let pantryMatch := List.find (fun pantryItem => includes pantryItem ingredient) (pantry st) in
  let ingredientMatch := List.find (fun pantryItem => includes ingredient pantryItem) (pantry st) in
  match or_found pantryMatch ingredientMatch with
  | Some found =>
      if truthy_string found
      then Some {| availabilityState := potentiallyAvailable;
                   matchingPantryIngredient := Some found |}
      else None
  | None => None
  end.

(** The body of the [for ... of] loop returns in its first iteration, so
    only the first entry of [INGREDIENT_SYNONYMS] is ever examined. *)
Definition checkSynonymMatch (ingredient : string) : option Availability :=
  match INGREDIENT_SYNONYMS with
  | (key, synonyms) :: _ =>
      match List.find (fun synonym => includes ingredient synonym) synonyms with
      | Some found =>
          if truthy_string found
          then Some {| availabilityState := potentiallyAvailable;
                       matchingPantryIngredient := Some key |}
          else None
      | None => None
      end
  | [] => None
  end.

Definition getIngredientAvailability (apiIngredientName : string) (st : State) : Availability :=
  let normalizedApiIngredient := normalizeIngredient apiIngredientName in
  match checkHouseholdItem normalizedApiIngredient with
  | Some householdMatch => householdMatch
  | None =>
  match checkExactMatch normalizedApiIngredient st with
  | Some exactMatch => exactMatch
  | None =>
  match checkPartialMatch normalizedApiIngredient st with
  | Some partialMatch => partialMatch
  | None =>
  match checkSynonymMatch normalizedApiIngredient with
  | Some synonymMatch => synonymMatch
  | None => {| availabilityState := unavailable; matchingPantryIngredient := None |}
  end end end end.

Definition calculateMissingIngredients (ingredients : list Ingredient.t) (st : State) : nat :=
  length (List.filter
    (fun ing => match availabilityState (getIngredientAvailability (Ingredient.name ing) st) with
                | unavailable => true
                | _ => false
                end) ingredients).

End Availability.

(** The availability rules as the specification words them, for comparison
    with [getIngredientAvailability]: the fourth rule looks for a synonym
    group that contains the ingredient and has a synonym matching a pantry
    entry by substring, in either direction. *)
Definition spec_synonymRule (ingredient : string) (pantryItems : list string) : bool :=
  existsb (fun '(_, synonyms) =>
    (existsb (String.eqb ingredient) synonyms &&
     existsb (fun synonym =>
       existsb (fun pantryItem => includes pantryItem synonym || includes synonym pantryItem)
         pantryItems) synonyms)%bool) INGREDIENT_SYNONYMS.

Definition spec_availabilityState (ingredient : string) (pantryItems : list string)
  : AvailabilityState :=
  if existsb (String.eqb ingredient) COMMON_PANTRY_ITEMS then householdItem
  else if existsb (String.eqb ingredient) pantryItems then definitelyAvailable
  else if existsb (fun pantryItem =>
            includes pantryItem ingredient || includes ingredient pantryItem) pantryItems
       then potentiallyAvailable
  else if spec_synonymRule ingredient pantryItems then potentiallyAvailable
  else unavailable.

(** [toTitleCase]: every word of the lower-cased string is capitalised except
    "and" and "with" ([/\b\w+/g]), then a lower-case letter that follows a
    hyphen is capitalised ([/-([a-z])/g]). *)
Definition is_word_char (c : ascii) : bool :=
  let n := nat_of_ascii c in
  ((Nat.leb 48 n && Nat.leb n 57) || (Nat.leb 65 n && Nat.leb n 90) ||
   (Nat.leb 97 n && Nat.leb n 122) || Nat.eqb n 95)%bool.

Definition is_lower_letter (c : ascii) : bool :=
  let n := nat_of_ascii c in (Nat.leb 97 n && Nat.leb n 122)%bool.

Definition capitalizeWord (word : list ascii) : list ascii :=
  let w := string_of_list_ascii word in
  if (String.eqb w "and" || String.eqb w "with")%bool then word
  else match word with
       | [] => []
       | c :: rest => upper_char c :: rest
       end.

(** [word] is the word being read, most recent character first. *)
Fixpoint titleWords (s : list ascii) (word : list ascii) : list ascii :=
  match s with
  | [] => capitalizeWord (List.rev word)
  | c :: rest =>
      if is_word_char c then titleWords rest (c :: word)
      else (capitalizeWord (List.rev word) ++ c :: titleWords rest [])%list
  end.

Fixpoint upperAfterHyphen (s : list ascii) : list ascii :=
  match s with
  | [] => []
  | c :: tl =>
      if Ascii.eqb c "-"%char then
        match tl with
        | letter :: rest =>
            if is_lower_letter letter then c :: upper_char letter :: upperAfterHyphen rest
            else c :: upperAfterHyphen tl
        | [] => [c]
        end
      else c :: upperAfterHyphen tl
  end.

Definition toTitleCase (str : string) : string :=
  string_of_list_ascii
    (upperAfterHyphen (titleWords (list_ascii_of_string (toLowerCase str)) [])).

(** ** The provider's answer to a bulk detail request

    Only the properties that the application reads are kept. A property
    that the code dereferences is an [option], [None] standing for a
    property that is absent, so that reading through it raises a
    [TypeError]; an identifier is [Some] of an integer or, for anything that
    is not a finite number, [None]. *)

Module RawNutrient.
Record t : Type := Build {
  name : string;
  amount : jsval
}.
End RawNutrient.

Module RawMeasure.
(** The object under [measures.us]. *)
Record t : Type := Build {
  amount : jsval;
  unitShort : string
}.
End RawMeasure.

Module RawIngredient.
Record t : Type := Build {
  original : string;
  measures_us : option RawMeasure.t;
  name : option string;
  aisle : string
}.
End RawIngredient.

Module RawBreakdown.
(** The object under [nutrition.caloricBreakdown]. *)
Record t : Type := Build {
  percentProtein : jsval;
  percentFat : jsval;
  percentCarbs : jsval
}.
End RawBreakdown.

Module RawNutrition.
Record t : Type := Build {
  nutrients : option (list RawNutrient.t);
  caloricBreakdown : option RawBreakdown.t
}.
End RawNutrition.

Module RawRecipe.
(** An element of [analyzedInstructions] is reduced to its [steps], each
    step to its text. *)
Record t : Type := Build {
  title : option string;
  image : option string;
  id : option Z;
  dishTypes : option (list string);
  diets : list string;
  readyInMinutes : jsval;
  cuisines : option (list string);
  servings : jsval;
  analyzedInstructions : option (list (option (list string)));
  extendedIngredients : option (list RawIngredient.t);
  nutrition : option RawNutrition.t
}.
End RawRecipe.

(** What [loadRecipeDetails] resolves to: [{ noResults: true }], or nothing. *)
Inductive LoadResult : Type :=
  | NoResults
  | Loaded.

Section Retrieval.
Context `{JSConversions} `{Environment}.

(** [nutrients.find(obj => obj.name === nutrientName)?.amount]. *)
Definition nutrientAmount (nutrients : list RawNutrient.t) (nutrientName : string) : jsval :=
  match List.find (fun obj => String.eqb (RawNutrient.name obj) nutrientName) nutrients with
  | Some nutrient => RawNutrient.amount nutrient
  | None => VUndef
  end.

(** [recipe.analyzedInstructions?.[0]?.steps]. *)
Definition firstSteps (recipe : RawRecipe.t) : option (list string) :=
  match RawRecipe.analyzedInstructions recipe with
  | Some (Some steps :: _) => Some steps
  | _ => None
  end.

(** The conjunction is evaluated from left to right and stops at the first
    falsy operand. [None] is a [TypeError]: [recipe.title.trim()] on an absent
    title, [nutrition.nutrients.find] on an absent nutrient list,
    [nutrition.caloricBreakdown.percentProtein] on an absent breakdown. An
    array, empty or not, is truthy. *)
Definition isValidRecipe (recipe : RawRecipe.t) : option bool :=
  title ← RawRecipe.title recipe;
  if negb (truthy_string (trim title) &&
           bool_decide (is_Some (RawRecipe.id recipe)) &&
           Number_isFinite (RawRecipe.servings recipe) &&
           bool_decide (is_Some (firstSteps recipe)) &&
           bool_decide (is_Some (RawRecipe.extendedIngredients recipe)))
  then Some false
  else
    match RawRecipe.nutrition recipe with
    | None => Some false
    | Some nutrition =>
        nutrients ← RawNutrition.nutrients nutrition;
        if negb (Number_isFinite (nutrientAmount nutrients "Protein") &&
                 Number_isFinite (nutrientAmount nutrients "Fat") &&
                 Number_isFinite (nutrientAmount nutrients "Carbohydrates"))
        then Some false
        else
          caloricBreakdown ← RawNutrition.caloricBreakdown nutrition;
          Some (Number_isFinite (RawBreakdown.percentProtein caloricBreakdown) &&
                Number_isFinite (RawBreakdown.percentFat caloricBreakdown) &&
                Number_isFinite (RawBreakdown.percentCarbs caloricBreakdown))
    end.

(** [recipe.nutrition?.nutrients.find(...)]: an absent [nutrition] gives "-",
    an absent nutrient list under a present [nutrition] raises. *)
Definition getNutrientValue (recipe : RawRecipe.t) (nutrientName : string) : option jsval :=
  match RawRecipe.nutrition recipe with
  | None => Some (VStr "-")
  | Some nutrition =>
      nutrients ← RawNutrition.nutrients nutrition;
      let amount := nutrientAmount nutrients nutrientName in
      Some (if Number_isFinite amount then amount else VStr "-")
  end.

(** [None] is a [TypeError]: [ing.measures.us.amount] on an ingredient
    without [measures.us], [ing.name.trim()] (in [normalizeIngredient]) on an
    ingredient without name, [recipe.title.toLowerCase()], [recipe.dishTypes[0]],
    [recipe.cuisines[0]], [recipe.extendedIngredients.map] and
    [recipe.nutrition.caloricBreakdown] on an absent property. [None] also
    stands for a recipe whose identifier is not a number, which the integer
    identifiers of the model cannot hold and [isValidRecipe] excludes. *)
Definition createRecipeObject (recipe : RawRecipe.t) (mode : string) (st : State)
  : option Recipe.t :=
  recipeId ← RawRecipe.id recipe;
  let isBookmarked := existsb (Z.eqb recipeId) (List.map Recipe.id (recipeBook st)) in
  extendedIngredients ← RawRecipe.extendedIngredients recipe;
  ingredients ← mapM (fun ing =>
      us ← RawIngredient.measures_us ing;
      ingredientName ← RawIngredient.name ing;
      Some (Ingredient.Build (RawIngredient.original ing) (js_plus (RawMeasure.amount us))
              (RawMeasure.unitShort us) ingredientName (RawIngredient.aisle ing)
              (getIngredientAvailability ingredientName st))) extendedIngredients;
  let instructions := match firstSteps recipe with Some steps => steps | None => [] end in
  protein ← getNutrientValue recipe "Protein";
  fats ← getNutrientValue recipe "Fat";
  carbs ← getNutrientValue recipe "Carbohydrates";
  let missingIngredientsCount :=
    if String.eqb mode "ingredientSearch"
    then num_lit (Z.of_nat (calculateMissingIngredients ingredients st))
    else VStr "N/A" in
  let firstOr (l : list string) :=
    match l with
    | s :: _ => if truthy_string s then s else "Unavailable"
    | [] => "Unavailable"
    end in
  title ← RawRecipe.title recipe;
  dishTypes ← RawRecipe.dishTypes recipe;
  cuisines ← RawRecipe.cuisines recipe;
  calories ← getNutrientValue recipe "Calories";
  saturatedFat ← getNutrientValue recipe "Saturated Fat";
  sugar ← getNutrientValue recipe "Sugar";
  fiber ← getNutrientValue recipe "Fiber";
  sodium ← getNutrientValue recipe "Sodium";
  cholesterol ← getNutrientValue recipe "Cholesterol";
  iron ← getNutrientValue recipe "Iron";
  zinc ← getNutrientValue recipe "Zinc";
  calcium ← getNutrientValue recipe "Calcium";
  magnesium ← getNutrientValue recipe "Magnesium";
  nutrition ← RawRecipe.nutrition recipe;
  caloricBreakdown ← RawNutrition.caloricBreakdown nutrition;
  Some (Recipe.Build
    (toTitleCase title)
    (match RawRecipe.image recipe with
     | Some url => if truthy_string url then url else defaultRecipeImage
     | None => defaultRecipeImage
     end)
    recipeId
    isBookmarked
    (firstOr dishTypes)
    (Is (RawRecipe.diets recipe))
    (if truthy (RawRecipe.readyInMinutes recipe) then RawRecipe.readyInMinutes recipe
     else VStr "Unavailable")
    (firstOr cuisines)
    calories
    (RawRecipe.servings recipe)
    (Is ingredients)
    (Is instructions)
    saturatedFat sugar fiber sodium cholesterol iron zinc calcium magnesium
    protein
    fats
    carbs
    (RawBreakdown.percentProtein caloricBreakdown)
    (RawBreakdown.percentFat caloricBreakdown)
    (RawBreakdown.percentCarbs caloricBreakdown)
    (js_mul (js_div protein RECOMMENDED_PROTEIN_DV) (num_lit 100))
    (js_mul (js_div fats RECOMMENDED_FATS_DV) (num_lit 100))
    (js_mul (js_div carbs RECOMMENDED_CARBS_DV) (num_lit 100))
    missingIngredientsCount
    app).

Definition getOrCreateRecipeObject (recipe : RawRecipe.t) (mode : string) (st : State)
  : option Recipe.t :=
  match RawRecipe.id recipe with
  | None => createRecipeObject recipe mode st
  | Some recipeId =>
      match List.find (has_id recipeId) (recipeBook st) with
      | Some existingRecipe =>
          let recipeObj := Recipe.deepCopy existingRecipe in
          match Recipe.ingredients recipeObj with
          | Is l =>
              let ingredients :=
                List.map (fun ing =>
                  Ingredient.set_availability
                    (getIngredientAvailability (Ingredient.name ing) st) ing) l in
              let recipeObj := Recipe.set_ingredients (Is ingredients) recipeObj in
              Some (if String.eqb mode "ingredientSearch"
                    then Recipe.set_numMissingIngredients
                           (num_lit (Z.of_nat (calculateMissingIngredients ingredients st)))
                           recipeObj
                    else recipeObj)
          | Str _ => None
          end
      | None => createRecipeObject recipe mode st
      end
  end.

(** The comparator [(a, b) => a.numMissingIngredients - b.numMissingIngredients],
    as [Array.prototype.sort] reads it: true when [a] must come after [b]. *)
Definition sortsAfter (a b : Recipe.t) : bool :=
  num_ltb (Fin 0)
    (to_number (js_sub (Recipe.numMissingIngredients a) (Recipe.numMissingIngredients b))).

Fixpoint insertSorted (x : Recipe.t) (l : list Recipe.t) : list Recipe.t :=
  match l with
  | [] => [x]
  | y :: l' => if sortsAfter x y then y :: insertSorted x l' else x :: l
  end.

(** [Array.prototype.sort] is stable; the model is the stable insertion
    sort, which is what every implementation returns when the keys are
    numbers. *)
Definition sortByMissing (l : list Recipe.t) : list Recipe.t :=
  List.fold_right insertSorted [] l.

Definition populateSearchResults (recipeObj : Recipe.t) (mode : string) (st : State) : State :=
  if String.eqb mode "ingredientSearch"
  then set_ingredientSearchResults
         (sortByMissing (ingredientSearchResults st ++ [recipeObj])%list) st
  else set_browseSearchResults (browseSearchResults st ++ [recipeObj])%list st.

(** [data.filter((recipe) => isValidRecipe(recipe))]: a [TypeError] in the
    callback ends the filtering. *)
Fixpoint filterValid (data : list RawRecipe.t) : option (list RawRecipe.t) :=
  match data with
  | [] => Some []
  | recipe :: rest =>
      valid ← isValidRecipe recipe;
      validRest ← filterValid rest;
      Some (if (valid : bool) then recipe :: validRest else validRest)
  end.

(** [loadRecipeDetails] on [data], the body of a successful response. The
    [catch] block logs and rethrows: [None] is the rejected promise. *)
Definition loadRecipeDetails (data : list RawRecipe.t) (mode : string) (st : State)
  : option (LoadResult * State) :=
  validRecipes ← filterValid data;
  match validRecipes with
  | [] => Some (NoResults, st)
  | _ =>
      st' ← fold_left (fun acc recipe =>
               st1 ← acc;
               recipeObj ← getOrCreateRecipeObject recipe mode st1;
               Some (populateSearchResults recipeObj mode st1))
             validRecipes (Some st);
      Some (Loaded, st')
  end.

End Retrieval.

(** ** Week navigation (mealPlanner.js), the pantry (pantry.js) and
    start-up (initializeApp.js) *)

Definition set_pantry (l : list string) (st : State) : State :=
  {| pantry := l; ingredientSearchResults := ingredientSearchResults st;
     browseSearchResults := browseSearchResults st; recipeBook := recipeBook st;
     mealCalendarWeek := mealCalendarWeek st; mealPlan := mealPlan st;
     storedRecipeBook := storedRecipeBook st; storedMealPlan := storedMealPlan st |}.

Definition set_mealCalendarWeek (wk : Z) (st : State) : State :=
  {| pantry := pantry st; ingredientSearchResults := ingredientSearchResults st;
     browseSearchResults := browseSearchResults st; recipeBook := recipeBook st;
     mealCalendarWeek := wk; mealPlan := mealPlan st;
     storedRecipeBook := storedRecipeBook st; storedMealPlan := storedMealPlan st |}.

(** The keys of the plan in ascending order of date. *)
Definition createSortedDateStrArr (object : MealPlan) : list Z :=
  merge_sort Z.le (List.map fst (map_to_list object)).

Definition updateSliderWeek (direction : string) (st : State) : State :=
  let weekKeys := createSortedDateStrArr (mealPlan st) in
  let currentIndex := findIndex (Z.eqb (mealCalendarWeek st)) weekKeys in
  let directionModifier := if String.eqb direction "previousWeek" then -1 else 1 in
  let newIndex := currentIndex + directionModifier in
  if ((0 <=? newIndex) && (newIndex <? Z.of_nat (length weekKeys)))%bool
  then match weekKeys !! Z.to_nat newIndex with
       | Some wk => set_mealCalendarWeek wk st
       | None => st
       end
  else st.

Definition addIngredientToPantry (ingredient : string) (st : State) : State :=
  set_pantry (pantry st ++ [ingredient])%list st.

Definition removeIngredientFromPantry (ingredient : string) (st : State) : State :=
  let index := findIndex (fun pantryItem => String.eqb pantryItem ingredient) (pantry st) in
  set_pantry (splice index 1 (pantry st)) st.

Definition isPantryFull (st : State) : bool := (24 <? Z.of_nat (length (pantry st))).

Definition isIngredientInPantry (ingredient : string) (st : State) : bool :=
  existsb (String.eqb ingredient) (pantry st).

Definition initializeRecipeBook (st : State) : State :=
  set_recipeBook (match storedRecipeBook st with
                  | Some savedRecipeBook => savedRecipeBook
                  | None => []
                  end) st.

Definition createEmptyMealObj : DayPlan :=
  {| meals := Meals.Build [] [] [] [];
     nutrition := Nutrition.Build (num_lit 0) (num_lit 0) (num_lit 0) (num_lit 0) |}.

Definition createWeeklyMealPlan (mondayOfWeek : Z) : gmap Z DayPlan :=
  fold_left (fun dayMeals i => <[mondayOfWeek + i := createEmptyMealObj]> dayMeals)
    [0; 1; 2; 3; 4] ∅.

(** [today] is the day on which the application starts. *)
Definition initializeMealPlan (today : Z) (st : State) : State :=
  let mondayOfCurrentWeek := getMondayOfTheWeek today in
  let savedMealPlan : MealPlan :=
    match storedMealPlan st with Some saved => saved | None => ∅ end in
  let weeksRange := List.map (fun i => mondayOfCurrentWeek + (i - 4) * 7)
                      [0; 1; 2; 3; 4; 5; 6; 7; 8] in
  set_mealPlan
    (fold_left (fun mp week =>
       <[week := match savedMealPlan !! week with
                 | Some w => w
                 | None => createWeeklyMealPlan week
                 end]> mp) weeksRange (mealPlan st))
    (set_mealCalendarWeek mondayOfCurrentWeek st).

(** * Vocabulary of the statements *)

#[global] Instance MealSlot_eq_dec : EqDecision MealSlot.
Proof. solve_decision. Defined.

(** The day object that [getDayMealPlan] reaches, and one of its slots. *)
Definition dayOf (d : Z) (st : State) : option DayPlan :=
  w ← mealPlan st !! getMondayOfTheWeek d; w !! d.

Definition slotOf (d : Z) (m : MealSlot) (st : State) : option (list Recipe.t) :=
  dp ← dayOf d st; Some (meals_get m (meals dp)).

(** A slot of the plan addressed by its keys, without going through the
    Monday computation. *)
Definition planSlot (wk d : Z) (m : MealSlot) (mp : MealPlan) : option (list Recipe.t) :=
  w ← mp !! wk; dp ← w !! d; Some (meals_get m (meals dp)).

(** Every day is filed under the Monday of its own week, as in the plans
    that [initializeMealPlan] builds. *)
Definition wf_mealPlan (mp : MealPlan) : Prop :=
  map_Forall (fun wk (w : gmap Z DayPlan) =>
    map_Forall (fun d (_ : DayPlan) => getMondayOfTheWeek d = wk) w) mp.

#[global] Instance wf_mealPlan_dec mp : Decision (wf_mealPlan mp).
Proof. unfold wf_mealPlan. apply _. Defined.

(** The nine week keys around [today]: the range of [initializeMealPlan]. *)
Definition weeksAround (today : Z) : list Z :=
  List.map (fun i => getMondayOfTheWeek today + (i - 4) * 7) [0; 1; 2; 3; 4; 5; 6; 7; 8].

(** The four fields that the day's nutrition adds up hold numbers. *)
Definition numericMacros (r : Recipe.t) : Prop :=
  exists c p cb f, Recipe.calories r = VNum c /\ Recipe.protein r = VNum p /\
    Recipe.carbs r = VNum cb /\ Recipe.fats r = VNum f.

(** The synonyms that [checkSynonymMatch] reads: those of the first group. *)
Definition firstSynonymGroup : list string :=
  match INGREDIENT_SYNONYMS with
  | (_, synonyms) :: _ => synonyms
  | [] => []
  end.

(** Both recipes carry a finite count of missing ingredients, and the first
    count is not above the second. *)
Definition missingAtMost (a b : Recipe.t) : Prop :=
  exists x y : Q, Recipe.numMissingIngredients a = VNum (Fin x) /\
    Recipe.numMissingIngredients b = VNum (Fin y) /\ (x <= y)%Q.

(** The recipes that stay in the target slot of [addRecipeToMealPlan]: none
    under "replace". *)
Definition keptInSlot (op : string) (l : list Recipe.t) : list Recipe.t :=
  if String.eqb op "replace" then [] else l.

(** The meal-plan slot that an options object designates, if any: the
    condition under which [getRecipe] looks into the meal plan. *)
Definition planContext (opts : Options) : option (Z * MealSlot) :=
  match currentDate opts, currentMeal opts with
  | Some d, Some m => if String.eqb (source opts) "mealPlan" then Some (d, m) else None
  | _, _ => None
  end.

(** A number inside the interval from 1 to 50. *)
Definition in_range (n : num) : Prop :=
  match n with
  | Fin q => (1 <= q /\ q <= 50)%Q
  | _ => False
  end.

(** [i'] is [i] with its finite quantity multiplied by [c]. *)
Definition scaledBy (c : Q) (i i' : Ingredient.t) : Prop :=
  exists q q', Ingredient.quantity i = VNum (Fin q) /\
    i' = Ingredient.set_quantity (VNum (Fin q')) i /\ (q' == q * c)%Q.

(** [v'] is [v] multiplied by [c] when [v] is a finite number, and [v]
    itself otherwise. *)
Definition scaledVal (c : Q) (v v' : jsval) : Prop :=
  match v with
  | VNum (Fin q) => exists q', v' = VNum (Fin q') /\ (q' == q * c)%Q
  | _ => v' = v
  end.

Section Vocabulary.
Context `{JSConversions}.

(** The effect of [updateNutritionForWeek] on a well-formed plan. *)
Definition recomputeWeek (wk : Z) (st : State) : State :=
  set_mealPlan (alter (fmap (M := gmap Z) recomputeNutrition) wk (mealPlan st)) st.

Definition scale_if_finite (servingsRatio v : jsval) : jsval :=
  if Number_isFinite v then js_mul v servingsRatio else v.

Definition scaleIngredients (servingsRatio : jsval) (l : list Ingredient.t) : list Ingredient.t :=
  List.map (fun i => Ingredient.set_quantity (js_mul (Ingredient.quantity i) servingsRatio) i) l.

(** The day's aggregate when every term is a number: the plain sum. *)
Definition sumOf (f : Recipe.t -> jsval) (l : list Recipe.t) : num :=
  fold_left (fun acc r => num_add acc (to_number (f r))) l (Fin 0).

Definition sumNutrition (l : list Recipe.t) : Nutrition.t :=
  Nutrition.Build (VNum (sumOf Recipe.calories l)) (VNum (sumOf Recipe.protein l))
    (VNum (sumOf Recipe.carbs l)) (VNum (sumOf Recipe.fats l)).

(** The nutrition of a day is what [updateNutritionForDay] computes from
    its slots. *)
Definition consistentDay (dp : DayPlan) : Prop :=
  nutrition dp = nutrition (recomputeNutrition dp).

(** What the servings step of [addRecipeToMealPlan] makes of the copy [c]
    that was just pushed to the slot: a custom meal entry is left alone, and
    so is a copy whose new serving count is rejected. The new count is the
    requested one or, when none was given ([null] or [undefined]), one less
    than the count of the copy. *)
Definition adjustedCopy (c : Recipe.t) (ns : jsval) (c' : Recipe.t) : Prop :=
  match Recipe.origin c with
  | customMealEntry => c' = c
  | _ =>
      let updatedServings := calculateUpdatedServings (Recipe.servings c) None (nullable ns) in
      if isValidServings updatedServings then rescale c updatedServings = Some c' else c' = c
  end.
End Vocabulary.

(** The search results that a retrieval in the given mode fills. *)
Definition resultsOf (mode : string) (st : State) : list Recipe.t :=
  if String.eqb mode "ingredientSearch" then ingredientSearchResults st
  else browseSearchResults st.

(** The first entry of the nutrient list with the given name has a finite
    amount. *)
Definition finiteNutrient (nutrients : list RawNutrient.t) (nutrientName : string) : Prop :=
  exists before entry after q,
    nutrients = (before ++ entry :: after)%list /\
    Forall (fun e => RawNutrient.name e <> nutrientName) before /\
    RawNutrient.name entry = nutrientName /\
    RawNutrient.amount entry = VNum (Fin q).

(** What [isValidRecipe] asks of an answer of the provider: the lists of
    steps and of ingredients are there, possibly empty. *)
Definition accepted (recipe : RawRecipe.t) : Prop :=
  (exists title, RawRecipe.title recipe = Some title /\ trim title <> "") /\
  (exists recipeId, RawRecipe.id recipe = Some recipeId) /\
  (exists q, RawRecipe.servings recipe = VNum (Fin q)) /\
  (exists steps others,
     RawRecipe.analyzedInstructions recipe = Some (Some steps :: others)) /\
  (exists ingredients, RawRecipe.extendedIngredients recipe = Some ingredients) /\
  exists n nutrients breakdown,
    RawRecipe.nutrition recipe = Some n /\
    RawNutrition.nutrients n = Some nutrients /\
    finiteNutrient nutrients "Protein" /\ finiteNutrient nutrients "Fat" /\
    finiteNutrient nutrients "Carbohydrates" /\
    RawNutrition.caloricBreakdown n = Some breakdown /\
    (exists q, RawBreakdown.percentProtein breakdown = VNum (Fin q)) /\
    (exists q, RawBreakdown.percentFat breakdown = VNum (Fin q)) /\
    (exists q, RawBreakdown.percentCarbs breakdown = VNum (Fin q)).

(** The properties that [createRecipeObject] dereferences and
    [isValidRecipe] does not look at. *)
Definition completeShape (recipe : RawRecipe.t) : Prop :=
  is_Some (RawRecipe.dishTypes recipe) /\
  is_Some (RawRecipe.cuisines recipe) /\
  forall ingredients, RawRecipe.extendedIngredients recipe = Some ingredients ->
    Forall (fun ing => is_Some (RawIngredient.measures_us ing) /\
                       is_Some (RawIngredient.name ing)) ingredients.

(** The validity check as the specification words it, for comparison with
    [isValidRecipe]: a non-empty title, a finite id and serving count, at
    least one instruction step, at least one ingredient, finite protein, fat
    and carbohydrate amounts and percentages; a recipe that lacks one of
    these fails the check. *)
Definition spec_isValidRecipe (recipe : RawRecipe.t) : bool :=
  match RawRecipe.title recipe with
  | Some title => truthy_string (trim title)
  | None => false
  end &&
  bool_decide (is_Some (RawRecipe.id recipe)) &&
  Number_isFinite (RawRecipe.servings recipe) &&
  match RawRecipe.analyzedInstructions recipe with
  | Some (Some (_ :: _) :: _) => true
  | _ => false
  end &&
  match RawRecipe.extendedIngredients recipe with
  | Some (_ :: _) => true
  | _ => false
  end &&
  match RawRecipe.nutrition recipe with
  | Some n =>
      match RawNutrition.nutrients n with
      | Some nutrients =>
          Number_isFinite (nutrientAmount nutrients "Protein") &&
          Number_isFinite (nutrientAmount nutrients "Fat") &&
          Number_isFinite (nutrientAmount nutrients "Carbohydrates")
      | None => false
      end &&
      match RawNutrition.caloricBreakdown n with
      | Some breakdown =>
          Number_isFinite (RawBreakdown.percentProtein breakdown) &&
          Number_isFinite (RawBreakdown.percentFat breakdown) &&
          Number_isFinite (RawBreakdown.percentCarbs breakdown)
      | None => false
      end
  | None => false
  end.

(** A number that is zero or whose magnitude lies between 10^-300 and
    10^300. Multiplied or divided by a ratio of two serving counts of the
    interval from 1 to 50, such a double stays a normal double: there the
    exact product of this model and the product that the code computes
    differ by rounding only, with no overflow to an infinity and no
    underflow to zero. *)
Definition safeMagnitude (q : Q) : Prop :=
  q == 0 \/
  (1 <= Qabs q * inject_Z (10 ^ 300) /\ Qabs q <= inject_Z (10 ^ 300))%Q.

(** * Example data *)

(** The two conversions on decimal integers; every number and string
    converted in the examples below is one. *)
Definition decimalStringToNumber (s : string) : num :=
  if String.eqb s "" then Fin 0
  else match NilZero.int_of_string s with
       | Some i => Fin (inject_Z (Z.of_int i))
       | None => NaN
       end.

Definition decimalNumberToString (n : num) : string :=
  match n with
  | Fin q => NilZero.string_of_int (Z.to_int (Qnum q / Zpos (Qden q)))
  | PInf => "Infinity"
  | NInf => "-Infinity"
  | NaN => "NaN"
  end.

#[global] Instance DecimalConversions : JSConversions :=
  {| StringToNumber := decimalStringToNumber; NumberToString := decimalNumberToString |}.

(** The names of the examples are already singular. *)
#[global] Instance ExampleEnvironment : Environment :=
  {| singular := fun s => s; defaultRecipeImage := "images/custom-recipe-image.avif" |}.

Definition exampleIngredient (ingredientName : string) (qty : Z) : Ingredient.t :=
  Ingredient.Build (String.append ingredientName " (chopped)") (num_lit qty) "cup"
    ingredientName "Produce"
    {| availabilityState := unavailable; matchingPantryIngredient := None |}.

Definition exampleIngredients : list Ingredient.t :=
  [exampleIngredient "carrot" 6; exampleIngredient "onion" 2].

(** A recipe as [createRecipeObject] builds it, with [calories] and
    [servings] left open. *)
Definition exampleRecipe (recipeId : Z) (calories servings : jsval) : Recipe.t :=
  Recipe.Build "Carrot Soup" "soup.jpg" recipeId false "lunch" (Is ["vegan"]) (num_lit 30)
    "French" calories servings
    (Is exampleIngredients)
    (Is ["Chop."; "Boil."])
    (VStr "-") (num_lit 4) (num_lit 3) (num_lit 200) (VStr "-") (num_lit 1) (VStr "-")
    (num_lit 40) (num_lit 20)
    (num_lit 10) (num_lit 5) (num_lit 30)
    (num_lit 20) (num_lit 25) (num_lit 55)
    (num_lit 20) (num_lit 2) (num_lit 38)
    (VStr "N/A") app.

(** Monday 20 January 2025 and the following Tuesday. *)
Definition mon20jan2025 : Z := 20108.
Definition tue21jan2025 : Z := 20109.

Definition dayWith (m : MealSlot) (l : list Recipe.t) : DayPlan :=
  {| meals := meals_set m l (meals createEmptyMealObj);
     nutrition := nutrition createEmptyMealObj |}.

(** Recipe 42 (two servings) is scheduled for lunch on Monday and for dinner
    on Tuesday, and is in the browse results and in the recipe book. *)
Definition exampleState : State :=
  {| pantry := ["spaghetti"];
     ingredientSearchResults := [];
     browseSearchResults := [exampleRecipe 42 (num_lit 300) (num_lit 2)];
     recipeBook := [Recipe.set_isBookmarked true (exampleRecipe 7 (num_lit 100) (num_lit 4));
                    exampleRecipe 42 (num_lit 300) (num_lit 2)];
     mealCalendarWeek := mon20jan2025;
     mealPlan :=
       {[ mon20jan2025 :=
            <[mon20jan2025 := dayWith lunch [exampleRecipe 42 (num_lit 300) (num_lit 2)]]>
            (<[tue21jan2025 := dayWith dinner [exampleRecipe 42 (num_lit 300) (num_lit 2)]]>
             (createWeeklyMealPlan mon20jan2025)) ]};
     storedRecipeBook := None;
     storedMealPlan := None |}.

Definition browseOptions : Options :=
  {| source := "browseRecipeSearch"; currentDate := None; currentMeal := None |}.

Definition mondayLunch : Options :=
  {| source := "mealPlan"; currentDate := Some mon20jan2025; currentMeal := Some lunch |}.

(** A recipe for sixty-four servings in the browse results. *)
Definition bigBatchState : State :=
  set_browseSearchResults [exampleRecipe 9 (num_lit 640) (num_lit 64)] exampleState.

(** A recipe for which the provider reported no calories. *)
Definition noCaloriesState : State :=
  set_browseSearchResults [exampleRecipe 5 (VStr "-") (num_lit 2)] exampleState.

(** Nutrition data with the three macronutrients and the three percentages. *)
Definition plainNutrition : RawNutrition.t :=
  RawNutrition.Build
    (Some [RawNutrient.Build "Protein" (num_lit 0); RawNutrient.Build "Fat" (num_lit 0);
           RawNutrient.Build "Carbohydrates" (num_lit 0)])
    (Some (RawBreakdown.Build (num_lit 0) (num_lit 0) (num_lit 0))).

(** A well-formed answer of the provider with an empty ingredient list and
    an instruction block without steps. *)
Definition bareRawRecipe : RawRecipe.t :=
  RawRecipe.Build (Some "Plain Water") None (Some 11) (Some []) [] (num_lit 1) (Some [])
    (num_lit 1) (Some [Some []]) (Some []) (Some plainNutrition).

(** The same answer without its title, and a complete answer with one step
    and one ingredient. *)
Definition untitledRawRecipe : RawRecipe.t :=
  RawRecipe.Build None None (Some 12) (Some []) [] (num_lit 1) (Some [])
    (num_lit 1) (Some [Some []]) (Some []) (Some plainNutrition).

Definition teaRawRecipe : RawRecipe.t :=
  RawRecipe.Build (Some "green tea") None (Some 13) (Some ["drink"]) [] (num_lit 5)
    (Some ["Chinese"]) (num_lit 1) (Some [Some ["Steep."]])
    (Some [RawIngredient.Build "1 tsp tea leaves"
             (Some (RawMeasure.Build (num_lit 1) "tsp")) (Some "tea leaves") "Tea"])
    (Some plainNutrition).

(** An answer that passes [isValidRecipe] and has no [dishTypes]. *)
Definition untypedRawRecipe : RawRecipe.t :=
  RawRecipe.Build (Some "green tea") None (Some 14) None [] (num_lit 5)
    (Some ["Chinese"]) (num_lit 1) (Some [Some ["Steep."]]) (Some []) (Some plainNutrition).

(** The example state before [initializeMealPlan] has run. *)
Definition emptyPlanState : State := set_mealPlan ∅ exampleState.

(** The example state with the nine weeks around Monday 20 January 2025. *)
Definition nineWeeksState : State := initializeMealPlan mon20jan2025 emptyPlanState.

(** The application restarted after the example plan was saved. *)
Definition restartState : State := set_mealPlan ∅ (saveMealPlan exampleState).

(** The displayed week is not one of the resident weeks. *)
Definition strayWeekState : State := set_mealCalendarWeek 0 exampleState.

Definition tuesdayLunch : UserInputs :=
  {| date := tue21jan2025; meal := lunch; operation := "add"; numServings := num_lit 3 |}.

(** The same request without a serving count. *)
Definition tuesdayLunchNoCount : UserInputs :=
  {| date := tue21jan2025; meal := lunch; operation := "add"; numServings := VNull |}.

Definition leftovers : CustomEntryInputs :=
  {| ce_date := mon20jan2025; ce_meal := dinner; mealName := "Leftovers";
     mealCalories := VStr "450"; mealProtein := VStr "20"; mealCarbs := VStr "50";
     mealFats := VStr "15" |}.

(** Ingredient search results that hold one recipe with two missing
    ingredients. *)
Definition searchState : State :=
  set_ingredientSearchResults
    [Recipe.set_numMissingIngredients (num_lit 2) (exampleRecipe 8 (num_lit 250) (num_lit 2))]
    exampleState.

(** Two answers of the provider for the recipe 42 of the recipe book. *)
Definition rawSoup : RawRecipe.t :=
  RawRecipe.Build (Some "carrot soup") None (Some 42) (Some []) [] (num_lit 30) (Some [])
    (num_lit 6) (Some [Some ["Chop."]]) (Some []) None.

Definition rawSoupRenamed : RawRecipe.t :=
  RawRecipe.Build (Some "soup of carrots") None (Some 42) (Some []) [] (num_lit 45)
    (Some []) (num_lit 1) (Some [Some []]) (Some []) None.

(** * Properties *)

Section ListFacts.
Context {A : Type}.
Implicit Types (p : A -> bool) (l : list A).

Lemma findIndex_lower p l : -1 <= findIndex p l.
Proof.
  induction l as [|x l IH]; simpl; [lia|].
  destruct (p x); [lia|]. destruct (Z.ltb_spec (findIndex p l) 0); lia.
Qed.

Lemma findIndex_absent p l :
  Forall (fun x => p x = false) l -> findIndex p l = -1.
Proof.
  induction 1 as [|x l Hx _ IH]; simpl; [done|].
  by rewrite Hx, IH.
Qed.

(** [findIndex] either finds nothing or points at the first match. *)
Lemma findIndex_spec p l :
  (findIndex p l = -1 /\ Forall (fun x => p x = false) l) \/
  (exists l1 x l2, l = (l1 ++ x :: l2)%list /\ Forall (fun y => p y = false) l1 /\
     p x = true /\ findIndex p l = Z.of_nat (length l1)).
Proof.
  induction l as [|x l IH]; simpl.
  - left. by split.
  - destruct (p x) eqn:Hx.
    + right. exists [], x, l. by repeat split.
    + destruct IH as [[Hi Hall]|(l1 & y & l2 & -> & Hl1 & Hy & Hi)].
      * left. rewrite Hi. simpl. split; [done|]. by constructor.
      * right. exists (x :: l1), y, l2. rewrite Hi.
        destruct (Z.ltb_spec (Z.of_nat (length l1)) 0); [lia|].
        repeat split; [by constructor|done|simpl length; lia].
Qed.

Lemma splice_nil start deleteCount : splice start deleteCount (@nil A) = [].
Proof. unfold splice. by rewrite take_nil, drop_nil. Qed.

Lemma splice_at l1 x l2 :
  splice (Z.of_nat (length l1)) 1 (l1 ++ x :: l2)%list = (l1 ++ l2)%list.
Proof.
  unfold splice. rewrite length_app. simpl length.
  destruct (Z.ltb_spec (Z.of_nat (length l1)) 0); [lia|].
  replace (Z.min _ _) with (Z.of_nat (length l1)) by lia.
  replace (Z.min (Z.max 1 0) _) with 1 by lia.
  rewrite Nat2Z.id.
  replace (Z.to_nat (Z.of_nat (length l1) + 1)) with (S (length l1)) by lia.
  rewrite take_app_length.
  change (x :: l2) with ([x] ++ l2)%list. rewrite app_assoc.
  rewrite drop_app_length'; [done|]. rewrite length_app. simpl. lia.
Qed.

(** The not-found index -1, handed to [splice], removes the last element. *)
Lemma splice_minus_one l : splice (-1) 1 l = removelast l.
Proof.
  destruct (decide (l = [])) as [->|Hne]; [by rewrite splice_nil|].
  destruct (exists_last Hne) as (l' & x & ->).
  rewrite removelast_last. unfold splice. rewrite length_app. simpl length.
  change (-1 <? 0) with true. cbv iota.
  replace (Z.max _ 0) with (Z.of_nat (length l')) by lia.
  replace (Z.min (Z.max 1 0) _) with 1 by lia.
  rewrite Nat2Z.id.
  replace (Z.to_nat (Z.of_nat (length l') + 1)) with (length (l' ++ [x])%list)
    by (rewrite length_app; simpl; lia).
  by rewrite take_app_length, drop_all, app_nil_r.
Qed.
End ListFacts.

Section PlanFacts.
Context `{JSConversions}.

Lemma wf_lookup (mp : MealPlan) wk w d dp :
  wf_mealPlan mp -> mp !! wk = Some w -> w !! d = Some dp -> getMondayOfTheWeek d = wk.
Proof. intros Hwf Hw Hd. exact (Hwf wk w Hw d dp Hd). Qed.

Lemma set_mealPlan_id st : set_mealPlan (mealPlan st) st = st.
Proof. by destruct st. Qed.

Lemma getDayMealPlan_dayOf d st :
  getDayMealPlan d st = (fun dp => (getMondayOfTheWeek d, dp)) <$> dayOf d st.
Proof.
  unfold getDayMealPlan, dayOf.
  destruct (mealPlan st !! getMondayOfTheWeek d) as [w|]; simpl; [|done].
  by destruct (w !! d).
Qed.

Lemma dayOf_modifyDay d d' f st :
  dayOf d' (modifyDay d f st) =
  if decide (d = d') then f <$> dayOf d st else dayOf d' st.
Proof.
  unfold dayOf, modifyDay. simpl.
  case_decide as Hd.
  - subst d'. rewrite lookup_alter_eq.
    destruct (mealPlan st !! getMondayOfTheWeek d) as [w|]; simpl; [|done].
    by rewrite lookup_alter_eq.
  - rewrite lookup_alter. case_decide as Hw.
    + rewrite <- Hw.
      destruct (mealPlan st !! getMondayOfTheWeek d) as [w|]; simpl; [|done].
      by rewrite lookup_alter_ne.
    + done.
Qed.

Lemma updateNutritionForDay_Some d st :
  is_Some (dayOf d st) ->
  updateNutritionForDay d st = Some (modifyDay d recomputeNutrition st).
Proof.
  intros [dp Hdp]. unfold updateNutritionForDay.
  by rewrite getDayMealPlan_dayOf, Hdp.
Qed.

Lemma updateNutritionForDays_Some ds st :
  Forall (fun d => is_Some (dayOf d st)) ds ->
  fold_left (fun acc day => st' ← acc; updateNutritionForDay day st') ds (Some st) =
  Some (fold_left (fun s d => modifyDay d recomputeNutrition s) ds st).
Proof.
  revert st. induction ds as [|d ds IH]; intros st Hall; simpl; [done|].
  inversion Hall as [|? ? Hd Hds]; subst.
  rewrite updateNutritionForDay_Some by done.
  apply IH. eapply Forall_impl; [exact Hds|].
  intros d' Hd'. simpl in Hd'. rewrite dayOf_modifyDay.
  case_decide; [subst; by apply fmap_is_Some|done].
Qed.

Lemma fold_modifyDay_week wk (f : DayPlan -> DayPlan) ds st :
  Forall (fun d => getMondayOfTheWeek d = wk) ds ->
  fold_left (fun s d => modifyDay d f s) ds st =
  set_mealPlan (alter (fun w => fold_left (fun w d => alter f d w) ds w) wk (mealPlan st)) st.
Proof.
  revert st. induction ds as [|d ds IH]; intros st Hall; simpl.
  - rewrite alter_id by done. by rewrite set_mealPlan_id.
  - inversion Hall as [|? ? Hd Hds]; subst.
    rewrite IH by done. unfold modifyDay. simpl.
    rewrite alter_alter_eq. by destruct st.
Qed.

Lemma lookup_fold_alter (f : DayPlan -> DayPlan) ds (w : gmap Z DayPlan) k :
  NoDup ds ->
  fold_left (fun w d => alter f d w) ds w !! k =
  if decide (k ∈ ds) then f <$> w !! k else w !! k.
Proof.
  revert w. induction ds as [|d ds IH]; intros w Hnd; cbn [fold_left].
  - destruct (decide (k ∈ [])) as [Hin|_]; [by apply elem_of_nil in Hin|done].
  - apply NoDup_cons in Hnd as [Hd Hds]. rewrite IH by done.
    destruct (decide (k ∈ ds)) as [Hin|Hin].
    + assert (d <> k) by (intros ->; done).
      rewrite lookup_alter_ne by done.
      rewrite decide_True; [done|]. by apply elem_of_cons; right.
    + destruct (decide (k ∈ d :: ds)) as [Hin'|Hin'].
      * apply elem_of_cons in Hin' as [->|?]; [|done].
        by rewrite lookup_alter_eq.
      * rewrite lookup_alter_ne; [done|]. intros ->. apply Hin'. by left.
Qed.

Lemma fold_alter_all (f : DayPlan -> DayPlan) (w : gmap Z DayPlan) :
  fold_left (fun w d => alter f d w) (List.map fst (map_to_list w)) w = f <$> w.
Proof.
  apply map_eq. intros k.
  rewrite lookup_fold_alter by apply NoDup_fst_map_to_list.
  rewrite lookup_fmap. case_decide as Hin; [done|].
  destruct (w !! k) as [dp|] eqn:Hk; [|done].
  exfalso. apply Hin. apply list_elem_of_fmap. exists (k, dp).
  split; [done|]. by apply elem_of_map_to_list.
Qed.

(** On a well-formed plan the week loop succeeds and recomputes every day
    of the week. *)
Lemma updateNutritionForWeek_wf wk st :
  wf_mealPlan (mealPlan st) ->
  updateNutritionForWeek wk st = Some (recomputeWeek wk st).
Proof.
  intros Hwf. unfold updateNutritionForWeek, recomputeWeek.
  destruct (mealPlan st !! wk) as [w|] eqn:Hw.
  - assert (Hkeys : Forall (fun d => getMondayOfTheWeek d = wk /\ is_Some (w !! d))
                      (List.map fst (map_to_list w))).
    { apply Forall_forall. intros d Hd. apply list_elem_of_fmap in Hd as [[d' dp] [-> Hin]].
      apply elem_of_map_to_list in Hin. simpl. split; [by eapply wf_lookup|by eexists]. }
    rewrite updateNutritionForDays_Some.
    + f_equal. rewrite (fold_modifyDay_week wk).
      * f_equal. apply alter_ext. intros w' Hw'. rewrite Hw in Hw'. injection Hw' as <-.
        apply fold_alter_all.
      * eapply Forall_impl; [exact Hkeys|]. by intros d [? _].
    + eapply Forall_impl; [exact Hkeys|]. intros d [Hm [dp Hdp]].
      simpl. unfold dayOf. rewrite Hm, Hw. simpl. by eexists.
  - rewrite alter_id'; [by rewrite set_mealPlan_id|]. by rewrite Hw.
Qed.
End PlanFacts.

Section PlanFacts2.
Context `{JSConversions}.

Lemma meals_get_set m m' l ms :
  meals_get m' (meals_set m l ms) = if decide (m = m') then l else meals_get m' ms.
Proof. by destruct m, m'. Qed.

Lemma slotOf_planSlot d m st :
  slotOf d m st = planSlot (getMondayOfTheWeek d) d m (mealPlan st).
Proof.
  unfold slotOf, dayOf, planSlot.
  by destruct (mealPlan st !! getMondayOfTheWeek d).
Qed.

Lemma planSlot_modifySlot wk' d' m' d m f st :
  planSlot wk' d' m' (mealPlan (modifySlot d m f st)) =
  if decide (wk' = getMondayOfTheWeek d /\ d' = d /\ m' = m)
  then f <$> planSlot wk' d' m' (mealPlan st)
  else planSlot wk' d' m' (mealPlan st).
Proof.
  unfold planSlot, modifySlot, modifyDay. simpl.
  rewrite lookup_alter.
  destruct (decide (getMondayOfTheWeek d = wk')) as [<-|Hwk].
  - destruct (mealPlan st !! getMondayOfTheWeek d) as [w|]; simpl.
    + rewrite lookup_alter.
      destruct (decide (d = d')) as [<-|Hd].
      * destruct (w !! d) as [dp|]; simpl.
        -- rewrite meals_get_set.
           destruct (decide (m = m')) as [<-|Hm].
           ++ by rewrite decide_True.
           ++ rewrite decide_False; [done|]. intros (_ & _ & ?). by apply Hm.
        -- by destruct (decide _).
      * rewrite decide_False; [done|]. intros (_ & ? & _). by apply Hd.
    + by destruct (decide _).
  - rewrite decide_False; [done|]. intros (? & _ & _). by apply Hwk.
Qed.

Lemma slotOf_modifySlot d' m' d m f st :
  slotOf d' m' (modifySlot d m f st) =
  if decide (d' = d /\ m' = m) then f <$> slotOf d m st else slotOf d' m' st.
Proof.
  rewrite !slotOf_planSlot, planSlot_modifySlot.
  destruct (decide (d' = d /\ m' = m)) as [[-> ->]|Hne].
  - by rewrite decide_True.
  - rewrite decide_False; [done|]. intros (_ & ? & ?). by apply Hne.
Qed.

Lemma planSlot_recomputeWeek wk' d' m' wk st :
  planSlot wk' d' m' (mealPlan (recomputeWeek wk st)) = planSlot wk' d' m' (mealPlan st).
Proof.
  unfold planSlot, recomputeWeek. simpl. rewrite lookup_alter.
  destruct (decide (wk = wk')) as [<-|]; [|done].
  destruct (mealPlan st !! wk) as [w|]; simpl; [|done].
  rewrite lookup_fmap. by destruct (w !! d').
Qed.

Lemma slotOf_recomputeWeek d m wk st :
  slotOf d m (recomputeWeek wk st) = slotOf d m st.
Proof. by rewrite !slotOf_planSlot, planSlot_recomputeWeek. Qed.

Lemma slotOf_saveMealPlan d m st : slotOf d m (saveMealPlan st) = slotOf d m st.
Proof. reflexivity. Qed.

Lemma dayOf_recomputeWeek d wk st :
  dayOf d (recomputeWeek wk st) =
  if decide (wk = getMondayOfTheWeek d) then recomputeNutrition <$> dayOf d st
  else dayOf d st.
Proof.
  unfold dayOf, recomputeWeek. simpl. rewrite lookup_alter.
  destruct (decide (wk = getMondayOfTheWeek d)) as [->|]; [|done].
  destruct (mealPlan st !! getMondayOfTheWeek d) as [w|]; simpl; [|done].
  by rewrite lookup_fmap.
Qed.

Lemma wf_alter (g : gmap Z DayPlan -> gmap Z DayPlan) wk (mp : MealPlan) :
  (forall w d, is_Some (g w !! d) -> is_Some (w !! d)) ->
  wf_mealPlan mp -> wf_mealPlan (alter g wk mp).
Proof.
  intros Hg Hwf wk' w' Hw' d dp Hd.
  rewrite lookup_alter in Hw'.
  destruct (decide (wk = wk')) as [<-|]; [|by eapply wf_lookup].
  destruct (mp !! wk) as [w|] eqn:Hw; simpl in Hw'; [|done].
  injection Hw' as <-.
  destruct (Hg w d) as [dp' Hdp']; [by eexists|]. by eapply wf_lookup.
Qed.

Lemma wf_modifyDay d f st :
  wf_mealPlan (mealPlan st) -> wf_mealPlan (mealPlan (modifyDay d f st)).
Proof.
  intros Hwf. unfold modifyDay. simpl. apply wf_alter; [|done].
  intros w d'. rewrite lookup_alter. destruct (decide (d = d')) as [->|]; [|done].
  by rewrite fmap_is_Some.
Qed.

Lemma wf_recomputeWeek wk st :
  wf_mealPlan (mealPlan st) -> wf_mealPlan (mealPlan (recomputeWeek wk st)).
Proof.
  intros Hwf. unfold recomputeWeek. simpl. apply wf_alter; [|done].
  intros w d. rewrite lookup_fmap. by rewrite fmap_is_Some.
Qed.

Lemma dayOf_wf wk w d dp st :
  wf_mealPlan (mealPlan st) -> mealPlan st !! wk = Some w -> w !! d = Some dp ->
  dayOf d st = Some dp.
Proof.
  intros Hwf Hw Hd. unfold dayOf. rewrite (wf_lookup _ _ _ _ _ Hwf Hw Hd), Hw. simpl. done.
Qed.

(** [deleteRecipeFromMealPlan] on a resident day of a well-formed plan. *)
Lemma deleteRecipeFromMealPlan_wf recipeId d m dp st :
  wf_mealPlan (mealPlan st) -> dayOf d st = Some dp ->
  deleteRecipeFromMealPlan recipeId d m st =
  Some (saveMealPlan (recomputeWeek (getMondayOfTheWeek d)
          (modifySlot d m (splice (findIndex (has_id recipeId) (meals_get m (meals dp))) 1) st))).
Proof.
  intros Hwf Hd. unfold deleteRecipeFromMealPlan.
  rewrite getDayMealPlan_dayOf, Hd. simpl.
  rewrite updateNutritionForWeek_wf by (by apply wf_modifyDay). done.
Qed.

Lemma removelast_shorter {A} (l : list A) : l <> [] -> removelast l <> l.
Proof.
  intros Hne Heq. destruct (exists_last Hne) as (l' & x & ->).
  rewrite removelast_last in Heq.
  apply (f_equal length) in Heq. rewrite length_app in Heq. simpl in Heq. lia.
Qed.

(** C9. When no recipe of the slot has the id, [deleteRecipeFromMealPlan] removes
    the last recipe of the slot; when no recipe of the recipe book has the
    id, [removeRecipeFromBook] removes the last recipe of the book: the index
    -1 reaches [splice]. Each half holds under its own condition alone. A
    non-empty list therefore changes, and an empty one stays empty. *)
Theorem C9_splice_not_found recipeId st :
  (forall d m dp,
     wf_mealPlan (mealPlan st) ->
     dayOf d st = Some dp ->
     Forall (fun r => has_id recipeId r = false) (meals_get m (meals dp)) ->
     exists st', deleteRecipeFromMealPlan recipeId d m st = Some st' /\
       slotOf d m st' = Some (removelast (meals_get m (meals dp)))) /\
  (Forall (fun r => has_id recipeId r = false) (recipeBook st) ->
     recipeBook (removeRecipeFromBook recipeId st) = removelast (recipeBook st)) /\
  (forall l : list Recipe.t, l <> [] -> removelast l <> l) /\
  removelast (@nil Recipe.t) = [].
Proof.
  split; [|split; [|split; [|done]]].
  - intros d m dp Hwf Hd Hslot.
    eexists. split; [by apply deleteRecipeFromMealPlan_wf|].
    rewrite slotOf_saveMealPlan, slotOf_recomputeWeek, slotOf_modifySlot.
    rewrite decide_True by done.
    unfold slotOf. rewrite Hd. simpl.
    by rewrite findIndex_absent, splice_minus_one.
  - intros Hbook. unfold removeRecipeFromBook. simpl.
    by rewrite findIndex_absent, splice_minus_one.
  - intros l. apply removelast_shorter.
Qed.
End PlanFacts2.

Ltac unfold_set :=
  unfold Recipe.set; repeat (match goal with |- context [String.eqb ?a ?b] =>
    destruct (String.eqb a b) end); try reflexivity.

Section RecipeFacts.
Context `{JSConversions}.

Lemma fold_left_preserve {A B C} (P : A -> C) (step : A -> B -> A) l a :
  (forall a b, P (step a b) = P a) -> P (fold_left step l a) = P a.
Proof.
  intros Hstep. revert a. induction l as [|b l IH]; intros a; simpl; [done|].
  by rewrite IH, Hstep.
Qed.

Lemma id_set k v r : Recipe.id (Recipe.set k v r) = Recipe.id r.
Proof. unfold_set. Qed.
Lemma servings_set k v r : Recipe.servings (Recipe.set k v r) = Recipe.servings r.
Proof. unfold_set. Qed.
Lemma ingredients_set k v r : Recipe.ingredients (Recipe.set k v r) = Recipe.ingredients r.
Proof. unfold_set. Qed.
Lemma isBookmarked_set k v r : Recipe.isBookmarked (Recipe.set k v r) = Recipe.isBookmarked r.
Proof. unfold_set. Qed.
Lemma origin_set k v r : Recipe.origin (Recipe.set k v r) = Recipe.origin r.
Proof. unfold_set. Qed.

Lemma get_set_same k v r :
  In k RECIPE_NUTRIENTS -> Recipe.get k (Recipe.set k v r) = v.
Proof. simpl. intros Hk. repeat (destruct Hk as [<-|Hk]; [reflexivity|]). done. Qed.

Lemma get_set_other k k' v r :
  In k RECIPE_NUTRIENTS -> In k' RECIPE_NUTRIENTS -> k <> k' ->
  Recipe.get k (Recipe.set k' v r) = Recipe.get k r.
Proof.
  simpl. intros Hk Hk' Hne.
  repeat (destruct Hk as [<-|Hk]; [
    repeat (destruct Hk' as [<-|Hk']; [first [reflexivity | by destruct Hne]|]); done |]).
  done.
Qed.

Lemma NoDup_RECIPE_NUTRIENTS : NoDup RECIPE_NUTRIENTS.
Proof. apply (bool_decide_unpack _). by vm_compute. Qed.

(** A pass over the nutrient names that rewrites each property from its
    name and its own previous value. *)
Lemma get_fold_nutrients (G : string -> jsval -> jsval) k l r :
  In k RECIPE_NUTRIENTS -> Forall (fun n => In n RECIPE_NUTRIENTS) l -> NoDup l ->
  Recipe.get k (fold_left (fun r n => Recipe.set n (G n (Recipe.get n r)) r) l r) =
  if decide (k ∈ l) then G k (Recipe.get k r) else Recipe.get k r.
Proof.
  intros Hk. revert r. induction l as [|n l IH]; intros r Hl Hnd; cbn [fold_left].
  - destruct (decide (k ∈ [])) as [Hin|]; [by apply elem_of_nil in Hin|done].
  - apply NoDup_cons in Hnd as [Hn Hnd]. inversion Hl as [|? ? Hn' Hl']; subst.
    rewrite IH by done.
    destruct (decide (k ∈ l)) as [Hin|Hin].
    + rewrite decide_True by (by apply elem_of_cons; right).
      rewrite get_set_other; [done..|]. intros ->. done.
    + destruct (decide (k ∈ n :: l)) as [Hin'|Hin'].
      * apply elem_of_cons in Hin' as [->|?]; [|done]. by rewrite get_set_same.
      * rewrite get_set_other; [done..|]. intros ->. apply Hin'. by left.
Qed.

Lemma get_fold_all (G : string -> jsval -> jsval) k r :
  In k RECIPE_NUTRIENTS ->
  Recipe.get k (fold_left (fun r n => Recipe.set n (G n (Recipe.get n r)) r) RECIPE_NUTRIENTS r) =
  G k (Recipe.get k r).
Proof.
  intros Hk. rewrite get_fold_nutrients; [|done| |apply NoDup_RECIPE_NUTRIENTS].
  - rewrite decide_True; [done|]. by apply list_elem_of_In.
  - apply Forall_forall. intros x Hx. by apply list_elem_of_In.
Qed.

Lemma set_get_id k r : Recipe.set k (Recipe.get k r) r = r.
Proof.
  unfold Recipe.set, Recipe.get.
  repeat (match goal with |- context [String.eqb ?a ?b] =>
    destruct (String.eqb a b); [by destruct r|] end). done.
Qed.

Lemma updateNutrientQuantities_alt recipe servingsRatio :
  updateNutrientQuantities recipe servingsRatio =
  fold_left (fun r n => Recipe.set n (scale_if_finite servingsRatio (Recipe.get n r)) r)
    RECIPE_NUTRIENTS recipe.
Proof.
  unfold updateNutrientQuantities. generalize RECIPE_NUTRIENTS. intros l. revert recipe.
  induction l as [|n l IH]; intros r; simpl; [done|].
  rewrite IH. f_equal. unfold scale_if_finite.
  destruct (Number_isFinite (Recipe.get n r)); [done|]. by rewrite set_get_id.
Qed.

Lemma get_updateNutrientQuantities k recipe servingsRatio :
  In k RECIPE_NUTRIENTS ->
  Recipe.get k (updateNutrientQuantities recipe servingsRatio) =
  scale_if_finite servingsRatio (Recipe.get k recipe).
Proof.
  intros Hk. rewrite updateNutrientQuantities_alt.
  by rewrite (get_fold_all (fun _ => scale_if_finite servingsRatio)).
Qed.

Lemma updateNutrientQuantities_proj {C} (P : Recipe.t -> C) recipe servingsRatio :
  (forall k v r, P (Recipe.set k v r) = P r) ->
  P (updateNutrientQuantities recipe servingsRatio) = P recipe.
Proof.
  intros HP. unfold updateNutrientQuantities. apply fold_left_preserve.
  intros r n. by destruct (Number_isFinite _).
Qed.

Lemma get_updatePercentDV k r : Recipe.get k (updatePercentDV r) = Recipe.get k r.
Proof. reflexivity. Qed.

Lemma get_set_servings k v r : Recipe.get k (Recipe.set_servings v r) = Recipe.get k r.
Proof. reflexivity. Qed.

Lemma get_set_ingredients k v r : Recipe.get k (Recipe.set_ingredients v r) = Recipe.get k r.
Proof. reflexivity. Qed.

Lemma rescale_eq recipe updatedServings l :
  Recipe.ingredients recipe = Is l ->
  rescale recipe updatedServings =
  Some (Recipe.set_servings updatedServings
          (updatePercentDV
             (updateNutrientQuantities
                (Recipe.set_ingredients
                   (Is (scaleIngredients (js_div updatedServings (Recipe.servings recipe)) l)) recipe)
                (js_div updatedServings (Recipe.servings recipe))))).
Proof. intros Hl. unfold rescale. rewrite Hl. reflexivity. Qed.

Lemma rescale_None recipe updatedServings s :
  Recipe.ingredients recipe = Str s -> rescale recipe updatedServings = None.
Proof. intros Hs. unfold rescale. by rewrite Hs. Qed.

Lemma id_outer v r : Recipe.id (Recipe.set_servings v (updatePercentDV r)) = Recipe.id r.
Proof. reflexivity. Qed.
Lemma isBookmarked_outer v r :
  Recipe.isBookmarked (Recipe.set_servings v (updatePercentDV r)) = Recipe.isBookmarked r.
Proof. reflexivity. Qed.
Lemma origin_outer v r :
  Recipe.origin (Recipe.set_servings v (updatePercentDV r)) = Recipe.origin r.
Proof. reflexivity. Qed.
Lemma ingredients_outer v r :
  Recipe.ingredients (Recipe.set_servings v (updatePercentDV r)) = Recipe.ingredients r.
Proof. reflexivity. Qed.
Lemma get_outer k v r :
  Recipe.get k (Recipe.set_servings v (updatePercentDV r)) = Recipe.get k r.
Proof. reflexivity. Qed.

(** What [rescale] produces, property by property. *)
Lemma rescale_Some recipe updatedServings l :
  Recipe.ingredients recipe = Is l ->
  exists r', rescale recipe updatedServings = Some r' /\
    Recipe.id r' = Recipe.id recipe /\
    Recipe.servings r' = updatedServings /\
    Recipe.isBookmarked r' = Recipe.isBookmarked recipe /\
    Recipe.origin r' = Recipe.origin recipe /\
    Recipe.ingredients r' =
      Is (scaleIngredients (js_div updatedServings (Recipe.servings recipe)) l) /\
    forall k, In k RECIPE_NUTRIENTS ->
      Recipe.get k r' =
      scale_if_finite (js_div updatedServings (Recipe.servings recipe)) (Recipe.get k recipe).
Proof.
  intros Hl. eexists. split; [by apply rescale_eq|].
  split; [|split; [|split; [|split; [|split]]]].
  - rewrite id_outer. by rewrite (updateNutrientQuantities_proj Recipe.id) by apply id_set.
  - reflexivity.
  - rewrite isBookmarked_outer.
    by rewrite (updateNutrientQuantities_proj Recipe.isBookmarked) by apply isBookmarked_set.
  - rewrite origin_outer.
    by rewrite (updateNutrientQuantities_proj Recipe.origin) by apply origin_set.
  - rewrite ingredients_outer.
    by rewrite (updateNutrientQuantities_proj Recipe.ingredients) by apply ingredients_set.
  - intros k Hk. rewrite get_outer. by rewrite get_updateNutrientQuantities.
Qed.

Lemma rescale_id recipe u r' : rescale recipe u = Some r' -> Recipe.id r' = Recipe.id recipe.
Proof.
  destruct (Recipe.ingredients recipe) as [l|s] eqn:Hi.
  - destruct (rescale_Some recipe u l Hi) as (r0 & -> & Hid & _). by intros [= <-].
  - by rewrite (rescale_None _ _ s).
Qed.

Lemma rescale_servings recipe u r' : rescale recipe u = Some r' -> Recipe.servings r' = u.
Proof.
  destruct (Recipe.ingredients recipe) as [l|s] eqn:Hi.
  - destruct (rescale_Some recipe u l Hi) as (r0 & -> & _ & Hs & _). by intros [= <-].
  - by rewrite (rescale_None _ _ s).
Qed.
Lemma updateProperties_proj {C} (P : Recipe.t -> C) recipe updatedRecipe :
  (forall k v r, P (Recipe.set k v r) = P r) ->
  P (updateProperties recipe updatedRecipe) =
  P (Recipe.set_ingredients
       (orStr_map (List.map Ingredient.deepCopy) (Recipe.ingredients updatedRecipe))
       (Recipe.set_servings (Recipe.servings updatedRecipe) recipe)).
Proof. intros HP. unfold updateProperties. by apply fold_left_preserve. Qed.

Lemma id_updateProperties r u : Recipe.id (updateProperties r u) = Recipe.id r.
Proof. by rewrite (updateProperties_proj Recipe.id) by apply id_set. Qed.

Lemma isBookmarked_updateProperties r u :
  Recipe.isBookmarked (updateProperties r u) = Recipe.isBookmarked r.
Proof. by rewrite (updateProperties_proj Recipe.isBookmarked) by apply isBookmarked_set. Qed.

Lemma servings_updateProperties r u :
  Recipe.servings (updateProperties r u) = Recipe.servings u.
Proof. by rewrite (updateProperties_proj Recipe.servings) by apply servings_set. Qed.

Lemma ingredients_updateProperties r u :
  Recipe.ingredients (updateProperties r u) =
  orStr_map (List.map Ingredient.deepCopy) (Recipe.ingredients u).
Proof. by rewrite (updateProperties_proj Recipe.ingredients) by apply ingredients_set. Qed.

Lemma get_updateProperties k r u :
  In k RECIPE_NUTRIENTS -> Recipe.get k (updateProperties r u) = Recipe.get k u.
Proof.
  intros Hk. unfold updateProperties.
  by rewrite (get_fold_all (fun n _ => Recipe.get n u)).
Qed.

Lemma json_val_idem v : json_val (json_val v) = json_val v.
Proof. by destruct v as [| |[]|]. Qed.

Lemma Ingredient_deepCopy_idem i :
  Ingredient.deepCopy (Ingredient.deepCopy i) = Ingredient.deepCopy i.
Proof. unfold Ingredient.deepCopy. simpl. by rewrite json_val_idem. Qed.

(** Copying the ingredient list twice is copying it once: reading the
    adjusted recipe before or after its own update gives the same result. *)
Lemma updateProperties_self r u :
  updateProperties r (updateProperties u u) = updateProperties r u.
Proof.
  unfold updateProperties at 1 3.
  rewrite servings_updateProperties, ingredients_updateProperties.
  assert (Hing : orStr_map (List.map Ingredient.deepCopy)
                   (orStr_map (List.map Ingredient.deepCopy) (Recipe.ingredients u)) =
                 orStr_map (List.map Ingredient.deepCopy) (Recipe.ingredients u)).
  { destruct (Recipe.ingredients u) as [l|]; simpl; [|done]. f_equal.
    rewrite List.map_map. apply List.map_ext. apply Ingredient_deepCopy_idem. }
  rewrite Hing.
  assert (Hall : Forall (fun n => In n RECIPE_NUTRIENTS) RECIPE_NUTRIENTS).
  { apply Forall_forall. intros x Hx. by apply list_elem_of_In. }
  revert Hall. generalize RECIPE_NUTRIENTS at 2 3 4.
  intros l. generalize (Recipe.set_ingredients
       (orStr_map (List.map Ingredient.deepCopy) (Recipe.ingredients u))
       (Recipe.set_servings (Recipe.servings u) r)).
  induction l as [|n l IH]; intros r0 Hall; simpl; [done|].
  inversion Hall; subst. rewrite get_updateProperties by done. by apply IH.
Qed.
End RecipeFacts.

Section FindFacts.
Context {A : Type}.
Implicit Types (p : A -> bool) (l : list A).

Lemma find_split p l x :
  List.find p l = Some x ->
  exists l1 l2, l = (l1 ++ x :: l2)%list /\ Forall (fun y => p y = false) l1 /\ p x = true.
Proof.
  induction l as [|y l IH]; simpl; [done|].
  destruct (p y) eqn:Hy.
  - intros [= ->]. exists [], l. by repeat split.
  - intros Hf. destruct (IH Hf) as (l1 & l2 & -> & Hl1 & Hx).
    exists (y :: l1), l2. repeat split; [by constructor|done].
Qed.

Lemma find_app_first p l1 x l2 :
  Forall (fun y => p y = false) l1 -> p x = true ->
  List.find p (l1 ++ x :: l2) = Some x.
Proof.
  induction 1 as [|y l1 Hy _ IH]; intros Hx; simpl.
  - by rewrite Hx.
  - rewrite Hy. by apply IH.
Qed.

Lemma replace_first_app p y l1 x l2 :
  Forall (fun z => p z = false) l1 -> p x = true ->
  replace_first p y (l1 ++ x :: l2) = (l1 ++ y :: l2)%list.
Proof.
  induction 1 as [|z l1 Hz _ IH]; intros Hx; simpl.
  - by rewrite Hx.
  - rewrite Hz. f_equal. by apply IH.
Qed.

Lemma replace_first_absent p y l :
  Forall (fun z => p z = false) l -> replace_first p y l = l.
Proof.
  induction 1 as [|z l Hz _ IH]; simpl; [done|]. by rewrite Hz, IH.
Qed.

Lemma find_none_Forall p l :
  List.find p l = None -> Forall (fun y => p y = false) l.
Proof.
  induction l as [|y l IH]; simpl; [by constructor|].
  destruct (p y) eqn:Hy; [done|]. intros Hf. constructor; [done|by apply IH].
Qed.

Lemma find_replace_first p y l x :
  List.find p l = Some x -> p y = true -> List.find p (replace_first p y l) = Some y.
Proof.
  intros Hf Hy. destruct (find_split _ _ _ Hf) as (l1 & l2 & -> & Hl1 & Hx).
  rewrite replace_first_app by done. by apply find_app_first.
Qed.
End FindFacts.

Section LocateFacts.
Context `{JSConversions}.

Lemma has_id_id r : has_id (Recipe.id r) r = true.
Proof. apply Z.eqb_refl. Qed.

Lemma has_id_eq X r : has_id X r = true <-> Recipe.id r = X.
Proof. apply Z.eqb_eq. Qed.

Lemma has_id_same_id X r r' : Recipe.id r' = Recipe.id r -> has_id X r' = has_id X r.
Proof. unfold has_id. by intros ->. Qed.

Lemma find_update_matching X f l :
  (forall r, Recipe.id (f r) = Recipe.id r) ->
  List.find (has_id X) (update_matching X f l) = f <$> List.find (has_id X) l.
Proof.
  intros Hf. induction l as [|r l IH]; simpl; [done|].
  destruct (has_id X r) eqn:Hr.
  - by rewrite (has_id_same_id _ r), Hr by apply Hf.
  - by rewrite Hr.
Qed.

Lemma update_matching_In X f l c :
  In c (update_matching X f l) ->
  exists c0, In c0 l /\ c = if has_id X c0 then f c0 else c0.
Proof.
  unfold update_matching. rewrite in_map_iff. intros (c0 & <- & Hin). by exists c0.
Qed.

Lemma getRecipeFromMealPlan_slotOf X d m st :
  getRecipeFromMealPlan X d m st = l ← slotOf d m st; List.find (has_id X) l.
Proof.
  unfold getRecipeFromMealPlan, slotOf. rewrite getDayMealPlan_dayOf.
  by destruct (dayOf d st).
Qed.

Lemma getRecipe_plan X opts d m st :
  planContext opts = Some (d, m) ->
  getRecipe X opts st = l ← slotOf d m st; List.find (has_id X) l.
Proof.
  unfold planContext, getRecipe. intros Hc.
  destruct (currentDate opts) as [d'|], (currentMeal opts) as [m'|]; try done.
  destruct (String.eqb (source opts) "mealPlan"); [|done].
  injection Hc as -> ->. apply getRecipeFromMealPlan_slotOf.
Qed.

Lemma putRecipe_plan X opts d m r st :
  planContext opts = Some (d, m) ->
  putRecipe X opts r st = modifySlot d m (replace_first (has_id X) r) st.
Proof.
  unfold planContext, putRecipe. intros Hc.
  destruct (currentDate opts) as [d'|], (currentMeal opts) as [m'|]; try done.
  destruct (String.eqb (source opts) "mealPlan"); [|done].
  by injection Hc as -> ->.
Qed.

Lemma getRecipe_browse X opts st :
  planContext opts = None ->
  getRecipe X opts st = l ← getSourceArray (source opts) st; List.find (has_id X) l.
Proof.
  unfold planContext, getRecipe, getRecipeFromBrowse. intros Hc.
  destruct (currentDate opts) as [d'|], (currentMeal opts) as [m'|]; try done.
  by destruct (String.eqb (source opts) "mealPlan").
Qed.

Lemma putRecipe_browse X opts r st :
  planContext opts = None ->
  putRecipe X opts r st = modifySourceArray (source opts) (replace_first (has_id X) r) st.
Proof.
  unfold planContext, putRecipe. intros Hc.
  destruct (currentDate opts) as [d'|], (currentMeal opts) as [m'|]; try done.
  by destruct (String.eqb (source opts) "mealPlan").
Qed.

Lemma planContext_source opts d m :
  planContext opts = Some (d, m) -> source opts = "mealPlan".
Proof.
  unfold planContext.
  destruct (currentDate opts), (currentMeal opts); try done.
  destruct (String.eqb_spec (source opts) "mealPlan"); done.
Qed.

Lemma getSourceArray_not_plan src st l :
  getSourceArray src st = Some l -> String.eqb src "mealPlan" = false.
Proof.
  unfold getSourceArray.
  destruct (String.eqb_spec src "ingredientSearch") as [->|]; [done|].
  destruct (String.eqb_spec src "browseRecipeSearch") as [->|]; [done|].
  destruct (String.eqb_spec src "recipeBook") as [->|]; done.
Qed.

Lemma getSourceArray_modify src f st :
  getSourceArray src (modifySourceArray src f st) = f <$> getSourceArray src st.
Proof.
  unfold getSourceArray, modifySourceArray.
  destruct (String.eqb src "ingredientSearch"); [done|].
  destruct (String.eqb src "browseRecipeSearch"); [done|].
  by destruct (String.eqb src "recipeBook").
Qed.

Lemma getSourceArray_sync src u st :
  getSourceArray src (synchronizeRecipeInstances u st) =
  update_matching (Recipe.id u) (fun recipe => updateProperties recipe u) <$>
    getSourceArray src st.
Proof.
  unfold getSourceArray, synchronizeRecipeInstances.
  destruct (String.eqb src "ingredientSearch"); [done|].
  destruct (String.eqb src "browseRecipeSearch"); [done|].
  by destruct (String.eqb src "recipeBook").
Qed.

Lemma mealPlan_modifySourceArray src f st :
  mealPlan (modifySourceArray src f st) = mealPlan st.
Proof.
  unfold modifySourceArray.
  destruct (String.eqb src "ingredientSearch"); [done|].
  destruct (String.eqb src "browseRecipeSearch"); [done|].
  by destruct (String.eqb src "recipeBook").
Qed.

(** ** [adjustServings], case by case *)

Lemma adjustServings_rejected X operation opts newServings r st :
  getRecipe X opts st = Some r ->
  isValidServings (calculateUpdatedServings (Recipe.servings r) operation newServings) = false ->
  adjustServings X operation opts newServings st = Some st.
Proof. intros Hr Hv. unfold adjustServings. rewrite Hr. simpl. by rewrite Hv. Qed.

Lemma adjustServings_plan X operation opts newServings d m r r' st :
  planContext opts = Some (d, m) ->
  getRecipe X opts st = Some r ->
  isValidServings (calculateUpdatedServings (Recipe.servings r) operation newServings) = true ->
  rescale r (calculateUpdatedServings (Recipe.servings r) operation newServings) = Some r' ->
  adjustServings X operation opts newServings st =
  Some (modifySlot d m (replace_first (has_id X) r') st).
Proof.
  intros Hc Hr Hv Hs. unfold adjustServings. rewrite Hr. simpl. rewrite Hv. simpl.
  rewrite Hs. simpl. rewrite (planContext_source _ _ _ Hc). simpl.
  by rewrite (putRecipe_plan _ _ d m).
Qed.

Lemma adjustServings_browse X operation opts newServings r r' st :
  planContext opts = None ->
  getRecipe X opts st = Some r ->
  isValidServings (calculateUpdatedServings (Recipe.servings r) operation newServings) = true ->
  rescale r (calculateUpdatedServings (Recipe.servings r) operation newServings) = Some r' ->
  adjustServings X operation opts newServings st =
  Some (synchronizeRecipeInstances r'
          (modifySourceArray (source opts) (replace_first (has_id X) r') st)).
Proof.
  intros Hc Hr Hv Hs. unfold adjustServings. rewrite Hr. simpl. rewrite Hv. simpl.
  rewrite Hs. simpl.
  rewrite getRecipe_browse in Hr by done.
  destruct (getSourceArray (source opts) st) as [l|] eqn:Hl; [|done].
  rewrite (getSourceArray_not_plan _ _ _ Hl). simpl.
  by rewrite putRecipe_browse.
Qed.

(** After an accepted adjustment the recipe found at the same place is the
    rescaled one; in a browsing context its ingredient list went through
    the copy of [updateProperties]. *)
Lemma adjustServings_accepted X operation opts newServings r r' st :
  getRecipe X opts st = Some r ->
  isValidServings (calculateUpdatedServings (Recipe.servings r) operation newServings) = true ->
  rescale r (calculateUpdatedServings (Recipe.servings r) operation newServings) = Some r' ->
  exists st' r'',
    adjustServings X operation opts newServings st = Some st' /\
    getRecipe X opts st' = Some r'' /\
    Recipe.id r'' = Recipe.id r /\
    Recipe.servings r'' = Recipe.servings r' /\
    (Recipe.ingredients r'' = Recipe.ingredients r' \/
     Recipe.ingredients r'' = orStr_map (List.map Ingredient.deepCopy) (Recipe.ingredients r')) /\
    (forall k, In k RECIPE_NUTRIENTS -> Recipe.get k r'' = Recipe.get k r').
Proof.
  intros Hr Hv Hs.
  assert (Hid' : Recipe.id r' = Recipe.id r) by (by eapply rescale_id).
  destruct (planContext opts) as [[d m]|] eqn:Hc.
  - exists (modifySlot d m (replace_first (has_id X) r') st), r'.
    split; [by eapply adjustServings_plan|].
    rewrite (getRecipe_plan _ _ d m) in Hr |- * by done.
    rewrite slotOf_modifySlot, decide_True by done.
    destruct (slotOf d m st) as [l|]; simpl in *; [|done].
    assert (has_id X r' = true).
    { rewrite (has_id_same_id _ r) by done. by destruct (find_split _ _ _ Hr) as (? & ? & _ & _ & ?). }
    split; [by eapply find_replace_first|]. by repeat split; try left.
  - exists (synchronizeRecipeInstances r'
              (modifySourceArray (source opts) (replace_first (has_id X) r') st)),
           (updateProperties r' r').
    split; [by eapply adjustServings_browse|].
    rewrite getRecipe_browse in Hr |- * by done.
    rewrite getSourceArray_sync, getSourceArray_modify.
    destruct (getSourceArray (source opts) st) as [l|];
      cbn [mbind option_bind fmap option_fmap option_map] in *; [|done].
    assert (HX : has_id X r' = true).
    { rewrite (has_id_same_id _ r) by done. by destruct (find_split _ _ _ Hr) as (? & ? & _ & _ & ?). }
    apply has_id_eq in HX as HX'. rewrite HX'.
    rewrite find_update_matching by (intros; apply id_updateProperties).
    rewrite (find_replace_first _ _ _ _ Hr HX). cbn [fmap option_fmap option_map].
    split; [done|]. rewrite id_updateProperties, servings_updateProperties,
      ingredients_updateProperties.
    split; [done|]. split; [done|]. split; [by right|].
    intros k Hk. by apply get_updateProperties.
Qed.
End LocateFacts.

Section NumFacts.
Context `{JSConversions}.

Lemma Qlt_bool_iff x y : Qlt_bool x y = true <-> (x < y)%Q.
Proof.
  unfold Qlt_bool. rewrite negb_true_iff. split.
  - intros Hb. apply Qnot_le_lt. intros Hle. apply Qle_bool_iff in Hle. congruence.
  - intros Hlt. destruct (Qle_bool y x) eqn:Hb; [|done].
    apply Qle_bool_iff in Hb. by apply Qlt_not_le in Hlt.
Qed.

Lemma Qlt_bool_false x y : Qlt_bool x y = false <-> (y <= x)%Q.
Proof.
  unfold Qlt_bool. rewrite negb_false_iff. apply Qle_bool_iff.
Qed.

Lemma isValidServings_VNum n :
  n <> NaN -> (isValidServings (VNum n) = true <-> in_range n).
Proof.
  intros Hn. unfold isValidServings, js_gt, js_lt, num_lit. simpl.
  destruct n as [q| | |]; simpl; try done.
  - destruct (Qlt_bool q (inject_Z 1)) eqn:H1; simpl.
    + apply Qlt_bool_iff in H1. split; [done|]. intros [Hl _]. by apply Qlt_not_le in H1.
    + apply Qlt_bool_false in H1.
      destruct (Qlt_bool (inject_Z 50) q) eqn:H2.
      * apply Qlt_bool_iff in H2. split; [done|]. intros [_ Hu]. by apply Qlt_not_le in H2.
      * apply Qlt_bool_false in H2. done.
Qed.

Lemma isValidServings_rejects n :
  n <> NaN -> ~ in_range n -> isValidServings (VNum n) = false.
Proof.
  intros Hn Hr. destruct (isValidServings (VNum n)) eqn:Hv; [|done].
  by apply isValidServings_VNum in Hv.
Qed.

Lemma num_equiv_refl n : num_equiv n n.
Proof. by destruct n. Qed.

Lemma jsval_equiv_refl v : jsval_equiv v v.
Proof. destruct v; simpl; try done. apply num_equiv_refl. Qed.
End NumFacts.

Section ServingsClaims.
Context `{JSConversions}.

Lemma adjustServings_Some_rescale X operation opts newServings r st st' :
  getRecipe X opts st = Some r ->
  isValidServings (calculateUpdatedServings (Recipe.servings r) operation newServings) = true ->
  adjustServings X operation opts newServings st = Some st' ->
  exists r', rescale r (calculateUpdatedServings (Recipe.servings r) operation newServings) = Some r'.
Proof.
  intros Hr Hv. unfold adjustServings. rewrite Hr. cbn [mbind option_bind].
  rewrite Hv. cbn [negb].
  destruct (rescale r _) as [r'|]; [by eexists|done].
Qed.

(** Away from NaN the validation does what it is meant to do: a computed
    count outside the interval from 1 to 50 leaves the state unchanged, and
    one inside it is the count stored in the recipe. *)
Lemma adjustServings_bounds X operation opts newServings r n st :
  getRecipe X opts st = Some r ->
  calculateUpdatedServings (Recipe.servings r) operation newServings = VNum n ->
  n <> NaN ->
  (~ in_range n -> adjustServings X operation opts newServings st = Some st) /\
  (in_range n ->
     (forall l, Recipe.ingredients r = Is l ->
        exists st', adjustServings X operation opts newServings st = Some st') /\
     (forall st', adjustServings X operation opts newServings st = Some st' ->
        exists r', getRecipe X opts st' = Some r' /\ Recipe.servings r' = VNum n)).
Proof.
  intros Hr Hu Hn. split.
  - intros Hout. eapply adjustServings_rejected; [done|].
    rewrite Hu. by apply isValidServings_rejects.
  - intros Hin.
    assert (Hv : isValidServings (calculateUpdatedServings (Recipe.servings r) operation newServings) = true).
    { rewrite Hu. by apply isValidServings_VNum. }
    split.
    + intros l Hl.
      destruct (rescale_Some r (VNum n) l Hl) as (r' & Hs & _).
      rewrite <- Hu in Hs.
      destruct (adjustServings_accepted X operation opts newServings r r' st Hr Hv Hs)
        as (st' & _ & Hst' & _). by exists st'.
    + intros st' Hst'.
      destruct (adjustServings_Some_rescale _ _ _ _ _ _ _ Hr Hv Hst') as [r' Hs].
      destruct (adjustServings_accepted X operation opts newServings r r' st Hr Hv Hs)
        as (st1 & r'' & Hst1 & Hget & _ & Hserv & _).
      rewrite Hst1 in Hst'. injection Hst' as <-.
      exists r''. split; [done|]. rewrite Hserv.
      rewrite <- Hu. by eapply rescale_servings.
Qed.

(** C2 (violated by the code). A requested count that converts to NaN, such as
    the text "abc", makes the computed serving count NaN. NaN is outside the
    interval from 1 to 50, yet it passes both comparisons of
    [isValidServings]: [adjustServings] goes on, stores NaN as the serving
    count of the recipe and turns every numeric nutrient value into NaN. *)
Theorem C2_NaN_servings_accepted X operation opts v r l st :
  getRecipe X opts st = Some r ->
  Recipe.ingredients r = Is l ->
  nullable v = Some v ->
  to_number v = NaN ->
  calculateUpdatedServings (Recipe.servings r) operation (nullable v) = VNum NaN /\
  ~ in_range NaN /\
  exists st' r',
    adjustServings X operation opts (nullable v) st = Some st' /\
    getRecipe X opts st' = Some r' /\
    Recipe.servings r' = VNum NaN /\
    forall k q, In k RECIPE_NUTRIENTS -> Recipe.get k r = VNum (Fin q) ->
      Recipe.get k r' = VNum NaN.
Proof.
  intros Hr Hl -> Hv.
  assert (Hu : calculateUpdatedServings (Recipe.servings r) operation (Some v) = VNum NaN).
  { unfold calculateUpdatedServings, js_plus. by rewrite Hv. }
  split; [done|]. split; [by intros []|].
  assert (Hvalid : isValidServings
            (calculateUpdatedServings (Recipe.servings r) operation (Some v)) = true).
  { rewrite Hu. reflexivity. }
  destruct (rescale_Some r (VNum NaN) l Hl) as (r1 & Hs & _ & Hserv & _ & _ & _ & Hnut).
  rewrite <- Hu in Hs.
  destruct (adjustServings_accepted X operation opts (Some v) r r1 st Hr Hvalid Hs)
    as (st' & r' & Hst' & Hget & _ & Hserv' & _ & Hnut').
  exists st', r'. split; [done|]. split; [done|]. split; [congruence|].
  intros k q Hk Hq. rewrite Hnut', Hnut by done. rewrite Hq. reflexivity.
Qed.

(** C3. An adjustment of a recipe with an ingredient list succeeds. In the
    meal-plan context it changes at most the first recipe with that id in the
    designated slot: the three browsing collections and every other slot of
    every day of every week are as before. In a browsing context, once the new
    serving count is accepted, the meal plan is as before and every copy with
    that id in the ingredient search results, the browse results and the
    recipe book carries the servings, the ingredient list and the thirteen
    nutrient values of the adjusted recipe. *)
Theorem C3_servings_propagation X operation opts newServings r l st :
  getRecipe X opts st = Some r ->
  Recipe.ingredients r = Is l ->
  exists st',
    adjustServings X operation opts newServings st = Some st' /\
    (forall d m, planContext opts = Some (d, m) ->
       ingredientSearchResults st' = ingredientSearchResults st /\
       browseSearchResults st' = browseSearchResults st /\
       recipeBook st' = recipeBook st /\
       (forall wk' d' m', ~ (wk' = getMondayOfTheWeek d /\ d' = d /\ m' = m) ->
          planSlot wk' d' m' (mealPlan st') = planSlot wk' d' m' (mealPlan st)) /\
       exists l1 l2 r', slotOf d m st = Some (l1 ++ r :: l2)%list /\
         Forall (fun c => has_id X c = false) l1 /\
         (slotOf d m st' = Some (l1 ++ r' :: l2)%list \/ st' = st)) /\
    (planContext opts = None ->
       isValidServings
         (calculateUpdatedServings (Recipe.servings r) operation newServings) = true ->
       mealPlan st' = mealPlan st /\
       exists rX, getRecipe X opts st' = Some rX /\
         Recipe.servings rX =
           calculateUpdatedServings (Recipe.servings r) operation newServings /\
         forall c,
           In c (ingredientSearchResults st' ++ browseSearchResults st' ++ recipeBook st')%list ->
           has_id X c = true ->
           Recipe.servings c = Recipe.servings rX /\
           Recipe.ingredients c = Recipe.ingredients rX /\
           forall k, In k RECIPE_NUTRIENTS -> Recipe.get k c = Recipe.get k rX).
Proof.
  intros Hr Hl.
  set (u := calculateUpdatedServings (Recipe.servings r) operation newServings).
  destruct (rescale_Some r u l Hl) as (r' & Hs & Hid & Hserv & _).
  destruct (isValidServings u) eqn:Hv.
  - destruct (planContext opts) as [[d m]|] eqn:Hc.
    + exists (modifySlot d m (replace_first (has_id X) r') st).
      split; [by eapply adjustServings_plan|]. split; [|done].
      intros d0 m0 [= <- <-]. repeat split.
      * intros wk' d' m' Hne. rewrite planSlot_modifySlot. by rewrite decide_False.
      * rewrite (getRecipe_plan _ _ d m) in Hr by done.
        destruct (slotOf d m st) as [l0|] eqn:Hslot; [|done]. simpl in Hr.
        destruct (find_split _ _ _ Hr) as (l1 & l2 & -> & Hl1 & HX).
        exists l1, l2, r'. split; [done|]. split; [done|]. left.
        rewrite slotOf_modifySlot, decide_True by done. rewrite Hslot. simpl.
        by rewrite replace_first_app.
    + exists (synchronizeRecipeInstances r'
                (modifySourceArray (source opts) (replace_first (has_id X) r') st)).
      split; [by eapply adjustServings_browse|]. split; [done|].
      intros _ _. split.
      { unfold synchronizeRecipeInstances. simpl. apply mealPlan_modifySourceArray. }
      exists (updateProperties r' r').
      assert (HX : has_id X r' = true).
      { rewrite (has_id_same_id _ r) by done. rewrite getRecipe_browse in Hr by done.
        destruct (getSourceArray (source opts) st); [|done]. simpl in Hr.
        by destruct (find_split _ _ _ Hr) as (? & ? & _ & _ & ?). }
      apply has_id_eq in HX as HX'.
      split.
      { rewrite getRecipe_browse in Hr |- * by done.
        rewrite getSourceArray_sync, getSourceArray_modify.
        destruct (getSourceArray (source opts) st) as [l0|];
          cbn [mbind option_bind fmap option_fmap option_map] in *; [|done].
        rewrite HX'.
        rewrite find_update_matching by (intros; apply id_updateProperties).
        by rewrite (find_replace_first _ _ _ _ Hr HX). }
      split; [by rewrite servings_updateProperties|].
      intros c Hc' HcX.
      assert (Hform : exists c0, c = updateProperties c0 r').
      { unfold synchronizeRecipeInstances in Hc'. cbn [ingredientSearchResults
          browseSearchResults recipeBook set_recipeBook set_browseSearchResults
          set_ingredientSearchResults] in Hc'.
        rewrite HX' in Hc'.
        rewrite !in_app_iff in Hc'.
        destruct Hc' as [Hc'|[Hc'|Hc']];
          apply update_matching_In in Hc' as (c0 & _ & ->);
          (destruct (has_id X c0) eqn:H0; [by exists c0|congruence]). }
      destruct Hform as [c0 ->].
      rewrite !servings_updateProperties, !ingredients_updateProperties.
      split; [done|]. split; [done|].
      intros k Hk. by rewrite !get_updateProperties.
  - exists st. split; [by eapply adjustServings_rejected|]. split; [|done].
    intros d m Hc. repeat split.
    rewrite (getRecipe_plan _ _ d m) in Hr by done.
    destruct (slotOf d m st) as [l0|] eqn:Hslot; [|done]. simpl in Hr.
    destruct (find_split _ _ _ Hr) as (l1 & l2 & -> & Hl1 & HX).
    exists l1, l2, r. split; [done|]. split; [done|]. by right.
Qed.
End ServingsClaims.

Section RoundTrip.
Context `{JSConversions}.

Lemma js_div_fin a b :
  ~ (b == 0)%Q -> js_div (VNum (Fin a)) (VNum (Fin b)) = VNum (Fin (a / b)).
Proof.
  intros Hb. unfold js_div. simpl.
  destruct (Qeq_bool b 0) eqn:Hz; [|done]. by apply Qeq_bool_iff in Hz.
Qed.

Lemma scaleIngredients_scaledBy c l :
  Forall (fun i => exists q, Ingredient.quantity i = VNum (Fin q)) l ->
  Forall2 (scaledBy c) l (scaleIngredients (VNum (Fin c)) l).
Proof.
  induction 1 as [|i l [q Hq] _ IH]; simpl; constructor; [|done].
  exists q, (q * c)%Q. rewrite Hq. by repeat split.
Qed.

Lemma scaledBy_deepCopy c i i' : scaledBy c i i' -> scaledBy c i (Ingredient.deepCopy i').
Proof.
  intros (q & q' & Hq & -> & Heq). exists q, q'. by repeat split.
Qed.

Lemma Forall2_scaledBy_deepCopy c l l' :
  Forall2 (scaledBy c) l l' -> Forall2 (scaledBy c) l (List.map Ingredient.deepCopy l').
Proof.
  induction 1; simpl; constructor; [by apply scaledBy_deepCopy|done].
Qed.

Lemma scaledBy_finite c l l' :
  Forall2 (scaledBy c) l l' ->
  Forall (fun i => exists q, Ingredient.quantity i = VNum (Fin q)) l'.
Proof.
  induction 1 as [|i i' l l' (q & q' & _ & -> & _) _ IH]; constructor; [|done].
  by exists q'.
Qed.

Lemma scaledBy_trans c1 c2 l l1 l2 :
  Forall2 (scaledBy c1) l l1 -> Forall2 (scaledBy c2) l1 l2 ->
  Forall2 (scaledBy (c1 * c2)) l l2.
Proof.
  intros H1. revert l2. induction H1 as [|i i1 l l1 (q & q1 & Hq & -> & Hq1) _ IH];
    intros l2 H2; inversion H2 as [|? i2 ? l2' (q1' & q2 & Hq1' & -> & Hq2) H2']; subst;
    constructor; [|by apply IH].
  simpl in Hq1'. injection Hq1' as <-.
  exists q, q2. split; [done|]. split; [by destruct i|].
  rewrite Hq2, Hq1. ring.
Qed.

Lemma scale_if_finite_scaledVal c v : scaledVal c v (scale_if_finite (VNum (Fin c)) v).
Proof.
  unfold scale_if_finite. destruct v as [| |[q| | |]|]; simpl; try done.
  by exists (q * c)%Q.
Qed.

Lemma scaledVal_round c1 c2 v v1 v2 :
  (c1 * c2 == 1)%Q -> scaledVal c1 v v1 -> scaledVal c2 v1 v2 -> jsval_equiv v2 v.
Proof.
  intros Hc. destruct v as [| |[q| | |]|]; simpl;
    try (intros -> ->; done).
  intros (q1 & -> & Hq1). simpl. intros (q2 & -> & Hq2). simpl.
  rewrite Hq2, Hq1. rewrite <- Qmult_assoc, Hc. ring.
Qed.

(** One accepted adjustment of a recipe with a finite, non-zero serving
    count and finite quantities, from [a] to [b] servings. *)
Lemma adjustServings_scales X opts r a b l st :
  getRecipe X opts st = Some r ->
  Recipe.servings r = VNum (Fin a) -> ~ (a == 0)%Q -> in_range (Fin b) ->
  Recipe.ingredients r = Is l ->
  Forall (fun i => exists q, Ingredient.quantity i = VNum (Fin q)) l ->
  exists st' r' l',
    adjustServings X None opts (Some (VNum (Fin b))) st = Some st' /\
    getRecipe X opts st' = Some r' /\
    Recipe.servings r' = VNum (Fin b) /\
    Recipe.ingredients r' = Is l' /\
    Forall2 (scaledBy (b / a)) l l' /\
    forall k, In k RECIPE_NUTRIENTS -> scaledVal (b / a) (Recipe.get k r) (Recipe.get k r').
Proof.
  intros Hr Ha Ha0 Hb Hl Hfin.
  assert (Hu : calculateUpdatedServings (Recipe.servings r) None (Some (VNum (Fin b))) =
               VNum (Fin b)) by done.
  assert (Hv : isValidServings (calculateUpdatedServings (Recipe.servings r) None
                 (Some (VNum (Fin b)))) = true).
  { rewrite Hu. by apply isValidServings_VNum. }
  destruct (rescale_Some r (VNum (Fin b)) l Hl) as (r1 & Hs & _ & Hserv & _ & _ & Hing & Hget).
  rewrite Ha, js_div_fin in Hing, Hget by done.
  rewrite <- Hu in Hs.
  destruct (adjustServings_accepted X None opts _ r r1 st Hr Hv Hs)
    as (st' & r' & Hst' & Hget' & _ & Hserv' & Hing' & Hnut').
  rewrite Hing in Hing'.
  assert (Hsc := scaleIngredients_scaledBy (b / a) l Hfin).
  destruct Hing' as [Hing'|Hing'].
  - exists st', r', (scaleIngredients (VNum (Fin (b / a))) l).
    repeat split; try done; [congruence|].
    intros k Hk. rewrite Hnut', Hget by done. apply scale_if_finite_scaledVal.
  - exists st', r', (List.map Ingredient.deepCopy (scaleIngredients (VNum (Fin (b / a))) l)).
    repeat split; try done; [congruence|by apply Forall2_scaledBy_deepCopy|].
    intros k Hk. rewrite Hnut', Hget by done. apply scale_if_finite_scaledVal.
Qed.

(** C5 (as amended). For a recipe whose serving count [s] and the target [s'] both
    lie in the interval from 1 to 50, and whose ingredient quantities and
    numeric nutrient values are zero or of a magnitude between 10^-300 and
    10^300 (so that no product or quotient of the code overflows to an
    infinity or underflows to zero): adjusting from [s] to [s'] and back to
    [s] succeeds twice and gives back the serving count, every ingredient
    quantity and every nutrient value, the numbers being equal as rationals
    (the exact counterpart of equality up to floating-point rounding). *)
Theorem C5_round_trip X opts r s s' l st :
  getRecipe X opts st = Some r ->
  Recipe.servings r = VNum (Fin s) ->
  in_range (Fin s) -> in_range (Fin s') ->
  Recipe.ingredients r = Is l ->
  Forall (fun i => exists q, Ingredient.quantity i = VNum (Fin q) /\ safeMagnitude q) l ->
  (forall k q, In k RECIPE_NUTRIENTS -> Recipe.get k r = VNum (Fin q) -> safeMagnitude q) ->
  exists st1 st2 r2 l2,
    adjustServings X None opts (Some (VNum (Fin s'))) st = Some st1 /\
    adjustServings X None opts (Some (VNum (Fin s))) st1 = Some st2 /\
    getRecipe X opts st2 = Some r2 /\
    Recipe.servings r2 = VNum (Fin s) /\
    Recipe.ingredients r2 = Is l2 /\
    Forall2 (fun i i2 => exists v, i2 = Ingredient.set_quantity v i /\
                           jsval_equiv v (Ingredient.quantity i)) l l2 /\
    forall k, In k RECIPE_NUTRIENTS -> jsval_equiv (Recipe.get k r2) (Recipe.get k r).
Proof.
  intros Hr Hs Hrs Hrs' Hl Hsafe _.
  assert (Hfin : Forall (fun i => exists q, Ingredient.quantity i = VNum (Fin q)) l).
  { eapply Forall_impl; [exact Hsafe|]. intros i (q & Hq & _). by exists q. }
  assert (Hs0 : ~ (s == 0)%Q).
  { destruct Hrs as [H1 _]. intros H0. rewrite H0 in H1. by apply Qle_not_lt in H1. }
  assert (Hs0' : ~ (s' == 0)%Q).
  { destruct Hrs' as [H1 _]. intros H0. rewrite H0 in H1. by apply Qle_not_lt in H1. }
  destruct (adjustServings_scales X opts r s s' l st Hr Hs Hs0 Hrs' Hl Hfin)
    as (st1 & r1 & l1 & Hst1 & Hr1 & Hserv1 & Hl1 & Hsc1 & Hn1).
  destruct (adjustServings_scales X opts r1 s' s l1 st1 Hr1 Hserv1 Hs0' Hrs Hl1
              (scaledBy_finite _ _ _ Hsc1))
    as (st2 & r2 & l2 & Hst2 & Hr2 & Hserv2 & Hl2 & Hsc2 & Hn2).
  assert (Hc : (s' / s * (s / s') == 1)%Q) by (field; done).
  exists st1, st2, r2, l2. repeat split; try done.
  - assert (Hsc := scaledBy_trans _ _ _ _ _ Hsc1 Hsc2).
    eapply Forall2_impl; [exact Hsc|].
    intros i i2 (q & q2 & Hq & -> & Heq). exists (VNum (Fin q2)). split; [done|].
    rewrite Hq. simpl. rewrite Heq, Hc. ring.
  - intros k Hk. eapply scaledVal_round; [exact Hc|by apply Hn1|by apply Hn2].
Qed.
End RoundTrip.

Section MoveClaims.
Context `{JSConversions}.

Lemma dayOf_slotOf d m dp st :
  dayOf d st = Some dp -> slotOf d m st = Some (meals_get m (meals dp)).
Proof. intros Hd. unfold slotOf. by rewrite Hd. Qed.

Lemma slotOf_is_Some_dayOf d m l st : slotOf d m st = Some l -> is_Some (dayOf d st).
Proof. unfold slotOf. destruct (dayOf d st); [by eexists|done]. Qed.

Lemma wf_modifySlot d m f st :
  wf_mealPlan (mealPlan st) -> wf_mealPlan (mealPlan (modifySlot d m f st)).
Proof. apply wf_modifyDay. Qed.

(** The servings step of [addRecipeToMealPlan] on a slot that holds only the
    fresh copy: the slot still holds exactly one recipe with the same id, and
    nothing else in the plan moves. *)
Lemma adjust_fresh_copy c ns d m st :
  slotOf d m st = Some [c] ->
  (Recipe.origin c = customMealEntry \/ exists l, Recipe.ingredients c = Is l) ->
  exists st3 c',
    match Recipe.origin c with
    | customMealEntry => Some st
    | _ => adjustServings (Recipe.id c) None
             {| source := "mealPlan"; currentDate := Some d; currentMeal := Some m |}
             (nullable ns) st
    end = Some st3 /\
    slotOf d m st3 = Some [c'] /\ Recipe.id c' = Recipe.id c /\
    (wf_mealPlan (mealPlan st) -> wf_mealPlan (mealPlan st3)) /\
    (forall wk' d' m', ~ (wk' = getMondayOfTheWeek d /\ d' = d /\ m' = m) ->
       planSlot wk' d' m' (mealPlan st3) = planSlot wk' d' m' (mealPlan st)).
Proof.
  intros Hslot Hshape.
  set (opts := {| source := "mealPlan"; currentDate := Some d; currentMeal := Some m |}).
  assert (Hstay : exists st3 c', Some st = Some st3 /\
    slotOf d m st3 = Some [c'] /\ Recipe.id c' = Recipe.id c /\
    (wf_mealPlan (mealPlan st) -> wf_mealPlan (mealPlan st3)) /\
    (forall wk' d' m', ~ (wk' = getMondayOfTheWeek d /\ d' = d /\ m' = m) ->
       planSlot wk' d' m' (mealPlan st3) = planSlot wk' d' m' (mealPlan st))).
  { by exists st, c. }
  assert (Hc : planContext opts = Some (d, m)) by done.
  assert (Hr : getRecipe (Recipe.id c) opts st = Some c).
  { rewrite (getRecipe_plan _ _ d m) by done. rewrite Hslot. simpl. by rewrite has_id_id. }
  assert (Hadj : (exists l, Recipe.ingredients c = Is l) ->
    exists st3 c', adjustServings (Recipe.id c) None opts (nullable ns) st = Some st3 /\
    slotOf d m st3 = Some [c'] /\ Recipe.id c' = Recipe.id c /\
    (wf_mealPlan (mealPlan st) -> wf_mealPlan (mealPlan st3)) /\
    (forall wk' d' m', ~ (wk' = getMondayOfTheWeek d /\ d' = d /\ m' = m) ->
       planSlot wk' d' m' (mealPlan st3) = planSlot wk' d' m' (mealPlan st))).
  { intros [l Hl].
    set (u := calculateUpdatedServings (Recipe.servings c) None (nullable ns)).
    destruct (isValidServings u) eqn:Hv.
    - destruct (rescale_Some c u l Hl) as (c' & Hs & Hid & _).
      exists (modifySlot d m (replace_first (has_id (Recipe.id c)) c') st), c'.
      split; [by eapply adjustServings_plan|].
      split.
      { rewrite slotOf_modifySlot, decide_True by done. rewrite Hslot. simpl.
        by rewrite has_id_id. }
      split; [done|]. split; [apply wf_modifySlot|].
      intros wk' d' m' Hne. rewrite planSlot_modifySlot. by rewrite decide_False.
    - exists st, c. split; [by eapply adjustServings_rejected|]. done. }
  destruct (Recipe.origin c) eqn:Ho; try done.
  - apply Hadj. by destruct Hshape.
  - apply Hadj. by destruct Hshape.
Qed.

Lemma deepCopy_id r : Recipe.id (Recipe.deepCopy r) = Recipe.id r.
Proof. reflexivity. Qed.

Lemma deepCopy_origin r : Recipe.origin (Recipe.deepCopy r) = Recipe.origin r.
Proof. reflexivity. Qed.

Lemma deepCopy_ingredients r :
  Recipe.ingredients (Recipe.deepCopy r) =
  orStr_map (List.map Ingredient.deepCopy) (Recipe.ingredients r).
Proof. reflexivity. Qed.

(** [addRecipeToMealPlan] once the target day and the source recipe are
    resolved. *)
Lemma addRecipeToMealPlan_eq X ui opts dp r st :
  dayOf (date ui) st = Some dp ->
  getRecipe X opts st = Some r ->
  addRecipeToMealPlan X ui opts st =
  (let recipeCopy := Recipe.deepCopy r in
   let st1 := if String.eqb (operation ui) "replace"
              then modifySlot (date ui) (meal ui) (fun _ => []) st else st in
   let st2 := modifySlot (date ui) (meal ui) (fun l => (l ++ [recipeCopy])%list) st1 in
   st3 ← match Recipe.origin recipeCopy with
         | customMealEntry => Some st2
         | _ => adjustServings (Recipe.id recipeCopy) None
                  {| source := "mealPlan"; currentDate := Some (date ui);
                     currentMeal := Some (meal ui) |}
                  (nullable (numServings ui)) st2
         end;
   st4 ← updateNutritionForWeek (getMondayOfTheWeek (date ui)) st3;
   if String.eqb (source opts) "mealPlan" then
     match currentDate opts, currentMeal opts with
     | Some d, Some m => deleteRecipeFromMealPlan X d m (saveMealPlan st4)
     | _, _ => None
     end
   else Some (saveMealPlan st4)).
Proof.
  intros Hd Hr. unfold addRecipeToMealPlan.
  rewrite getDayMealPlan_dayOf, Hd. cbn [fmap option_fmap option_map mbind option_bind].
  rewrite Hr. reflexivity.
Qed.

(** C10 (as amended). Moving a scheduled recipe onto its own slot with operation
    "replace" succeeds and leaves that slot empty; every other slot of the plan
    is as before, so the recipe is gone from the plan exactly when no other
    slot held a copy of it. *)
Theorem C10_move_onto_itself X d m ns r dp st :
  wf_mealPlan (mealPlan st) ->
  dayOf d st = Some dp ->
  List.find (has_id X) (meals_get m (meals dp)) = Some r ->
  (Recipe.origin r = customMealEntry \/ exists l, Recipe.ingredients r = Is l) ->
  exists st',
    addRecipeToMealPlan X
      {| date := d; meal := m; operation := "replace"; numServings := ns |}
      {| source := "mealPlan"; currentDate := Some d; currentMeal := Some m |} st = Some st' /\
    slotOf d m st' = Some [] /\
    forall wk' d' m', ~ (wk' = getMondayOfTheWeek d /\ d' = d /\ m' = m) ->
      planSlot wk' d' m' (mealPlan st') = planSlot wk' d' m' (mealPlan st).
Proof.
  intros Hwf Hd Hfind Hshape.
  set (opts := {| source := "mealPlan"; currentDate := Some d; currentMeal := Some m |}).
  assert (HrX : Recipe.id r = X).
  { apply has_id_eq. by destruct (find_split _ _ _ Hfind) as (? & ? & _ & _ & ?). }
  set (recipeCopy := Recipe.deepCopy r).
  set (st2 := modifySlot d m (fun l => (l ++ [recipeCopy])%list)
                (modifySlot d m (fun _ => []) st)).
  assert (Hslot2 : slotOf d m st2 = Some [recipeCopy]).
  { unfold st2. rewrite !slotOf_modifySlot, !decide_True by done.
    by rewrite (dayOf_slotOf _ _ dp). }
  assert (Hwf2 : wf_mealPlan (mealPlan st2)) by (by do 2 apply wf_modifySlot).
  assert (Hframe2 : forall wk' d' m', ~ (wk' = getMondayOfTheWeek d /\ d' = d /\ m' = m) ->
            planSlot wk' d' m' (mealPlan st2) = planSlot wk' d' m' (mealPlan st)).
  { intros wk' d' m' Hne. unfold st2. rewrite !planSlot_modifySlot. by rewrite !decide_False. }
  destruct (adjust_fresh_copy recipeCopy ns d m st2 Hslot2) as
    (st3 & c' & Hst3 & Hslot3 & Hid3 & Hwf3 & Hframe3).
  { destruct Hshape as [Ho|[l Hl]]; [by left|right].
    unfold recipeCopy. rewrite deepCopy_ingredients, Hl. by eexists. }
  specialize (Hwf3 Hwf2).
  set (st5 := saveMealPlan (recomputeWeek (getMondayOfTheWeek d) st3)).
  assert (Hslot5 : slotOf d m st5 = Some [c']).
  { unfold st5. by rewrite slotOf_saveMealPlan, slotOf_recomputeWeek. }
  assert (Hwf5 : wf_mealPlan (mealPlan st5)) by (by apply wf_recomputeWeek).
  destruct (slotOf_is_Some_dayOf _ _ _ _ Hslot5) as [dp5 Hdp5].
  assert (Hm5 : meals_get m (meals dp5) = [c']).
  { rewrite (dayOf_slotOf _ _ dp5) in Hslot5 by done. by injection Hslot5. }
  eexists. split; [|split].
  - assert (Hget : getRecipe X opts st = Some r).
    { rewrite (getRecipe_plan _ _ d m) by done. by rewrite (dayOf_slotOf _ _ dp). }
    rewrite (addRecipeToMealPlan_eq _ _ _ dp r) by done.
    cbn [date meal operation numServings source currentDate currentMeal].
    change (String.eqb "replace" "replace") with true.
    change (String.eqb "mealPlan" "mealPlan") with true. cbv zeta iota.
    change (Recipe.deepCopy r) with recipeCopy.
    change (modifySlot d m (fun l => (l ++ [recipeCopy])%list)
              (modifySlot d m (fun _ => []) st)) with st2.
    rewrite Hst3. cbn [mbind option_bind].
    rewrite updateNutritionForWeek_wf by done. cbn [mbind option_bind].
    fold st5. by apply deleteRecipeFromMealPlan_wf.
  - rewrite slotOf_saveMealPlan, slotOf_recomputeWeek, slotOf_modifySlot, decide_True by done.
    rewrite Hslot5, Hm5. simpl.
    assert (HX : has_id X c' = true).
    { apply has_id_eq. rewrite Hid3. by unfold recipeCopy. }
    by rewrite HX.
  - intros wk' d' m' Hne.
    change (mealPlan (saveMealPlan ?s)) with (mealPlan s).
    rewrite planSlot_recomputeWeek, planSlot_modifySlot, decide_False by done.
    unfold st5. change (mealPlan (saveMealPlan ?s)) with (mealPlan s).
    rewrite planSlot_recomputeWeek, Hframe3, Hframe2 by done. done.
Qed.

(** C8 *)
Lemma mealsInMealSlot_slotOf d m st :
  mealsInMealSlot d m st = List.map Recipe.id <$> slotOf d m st.
Proof.
  unfold mealsInMealSlot, slotOf, dayOf.
  destruct (mealPlan st !! getMondayOfTheWeek d) as [w|]; simpl; [|done].
  by destruct (w !! d).
Qed.

(** C8. When the target slot already holds a recipe with the id and the operation
    is "add", [controlAddRecipeToPlan] renders the recipe-already-exists error
    and returns the state, plan, nutrition and storage included, unchanged. *)
Theorem C8_duplicate_rejected X ui opts l st :
  slotOf (date ui) (meal ui) st = Some l ->
  In X (List.map Recipe.id l) ->
  operation ui = "add" ->
  controlAddRecipeToPlan X ui opts st = Some (MealExistsErrorRendered, st).
Proof.
  intros Hslot Hin Hop. unfold controlAddRecipeToPlan, isRecipeAlreadyInMealSlot.
  rewrite mealsInMealSlot_slotOf, Hslot, Hop. simpl.
  assert (Hex : existsb (Z.eqb X) (List.map Recipe.id l) = true).
  { apply existsb_exists. exists X. split; [done|apply Z.eqb_refl]. }
  by rewrite Hex.
Qed.
End MoveClaims.

Section BookmarkClaims.
Context `{JSConversions}.

Lemma planSlot_syncMealPlanner wk d m X b st :
  planSlot wk d m (mealPlan (syncMealPlannerBookmarkStatus X b st)) =
  update_matching X (Recipe.set_isBookmarked b) <$> planSlot wk d m (mealPlan st).
Proof.
  unfold planSlot, syncMealPlannerBookmarkStatus. simpl. rewrite lookup_fmap.
  destruct (mealPlan st !! wk) as [w|]; simpl; [|done].
  rewrite lookup_fmap. destruct (w !! d) as [dp|]; simpl; [|done].
  by destruct m.
Qed.

Lemma update_matching_flag X b l c :
  In c (update_matching X (Recipe.set_isBookmarked b) l) ->
  has_id X c = true -> Recipe.isBookmarked c = b.
Proof.
  intros Hin HX. apply update_matching_In in Hin as (c0 & _ & ->).
  destruct (has_id X c0) eqn:H0; [done|congruence].
Qed.

Lemma recipeBook_modifySourceArray src f st :
  recipeBook (modifySourceArray src f st) =
  if String.eqb src "recipeBook" then f (recipeBook st) else recipeBook st.
Proof.
  unfold modifySourceArray.
  destruct (String.eqb_spec src "ingredientSearch") as [->|]; [done|].
  destruct (String.eqb_spec src "browseRecipeSearch") as [->|]; [done|].
  by destruct (String.eqb src "recipeBook").
Qed.

(** The flag update on the copy the user clicked. *)
Lemma updateBookmarkStatus_Some X b opts r st :
  getRecipe X opts st = Some r ->
  exists st1,
    updateBookmarkStatus X b opts st = Some st1 /\
    getRecipe X opts st1 = Some (Recipe.set_isBookmarked b r) /\
    (forall l1 r0 l2, recipeBook st = (l1 ++ r0 :: l2)%list ->
       Forall (fun c => has_id X c = false) l1 -> has_id X r0 = true ->
       exists r0', recipeBook st1 = (l1 ++ r0' :: l2)%list /\ has_id X r0' = true).
Proof.
  intros Hr. unfold updateBookmarkStatus.
  destruct (planContext opts) as [[d m]|] eqn:Hc.
  - assert (Hc' := Hc). unfold planContext in Hc'.
    destruct (currentDate opts) as [d'|], (currentMeal opts) as [m'|]; try done.
    destruct (String.eqb (source opts) "mealPlan") eqn:Hsrc; [|done].
    injection Hc' as -> ->.
    rewrite (getRecipe_plan _ _ d m) in Hr by done.
    destruct (slotOf d m st) as [l|] eqn:Hslot; [|done]. simpl in Hr.
    destruct (slotOf_is_Some_dayOf _ _ _ _ Hslot) as [dp Hdp].
    rewrite getDayMealPlan_dayOf, Hdp. simpl.
    eexists. split; [done|]. split.
    + rewrite (getRecipe_plan _ _ d m) by done.
      rewrite slotOf_modifySlot, decide_True by done. rewrite Hslot. simpl.
      rewrite find_update_matching by done. by rewrite Hr.
    + intros l1 r0 l2 Hbook Hl1 Hr0. by exists r0.
  - assert (Hbrowse : getRecipeFromBrowse X (source opts) st = Some r).
    { by rewrite getRecipe_browse in Hr by done. }
    assert (Hgoal : exists st1,
      (recipe ← getRecipeFromBrowse X (source opts) st;
       Some (modifySourceArray (source opts)
               (replace_first (has_id X) (Recipe.set_isBookmarked b recipe)) st)) = Some st1 /\
      getRecipe X opts st1 = Some (Recipe.set_isBookmarked b r) /\
      (forall l1 r0 l2, recipeBook st = (l1 ++ r0 :: l2)%list ->
         Forall (fun c => has_id X c = false) l1 -> has_id X r0 = true ->
         exists r0', recipeBook st1 = (l1 ++ r0' :: l2)%list /\ has_id X r0' = true)).
    { rewrite Hbrowse. simpl. eexists. split; [done|].
      unfold getRecipeFromBrowse in Hbrowse.
      destruct (getSourceArray (source opts) st) as [l|] eqn:Hl; [|done]. simpl in Hbrowse.
      assert (HX : has_id X (Recipe.set_isBookmarked b r) = true).
      { by destruct (find_split _ _ _ Hbrowse) as (? & ? & _ & _ & ?). }
      split.
      - rewrite getRecipe_browse by done. rewrite getSourceArray_modify, Hl. simpl.
        by eapply find_replace_first.
      - intros l1 r0 l2 Hbook Hl1 Hr0. rewrite recipeBook_modifySourceArray.
        destruct (String.eqb (source opts) "recipeBook"); [|by exists r0].
        rewrite Hbook, replace_first_app by done. by eexists. }
    unfold planContext in Hc. cbv zeta.
    destruct (currentDate opts) as [d'|], (currentMeal opts) as [m'|]; try exact Hgoal.
    destruct (String.eqb (source opts) "mealPlan"); [done|exact Hgoal].
Qed.

Lemma findIndex_first (p : Recipe.t -> bool) l1 x l2 :
  Forall (fun y => p y = false) l1 -> p x = true ->
  findIndex p (l1 ++ x :: l2) = Z.of_nat (length l1).
Proof.
  induction 1 as [|y l1 Hy _ IH]; intros Hx; simpl.
  - by rewrite Hx.
  - rewrite Hy, IH by done.
    destruct (Z.ltb_spec (Z.of_nat (length l1)) 0); lia.
Qed.

(** C4. Toggling the bookmark of a recipe found at any place succeeds; afterwards
    every copy with that id, in the three browsing collections and in every
    slot of every day of every week of the plan, carries the new flag, the
    negation of the flag of the copy that was clicked. When the new flag is
    set, a copy of the whole recipe has been appended to the recipe book; when
    it is cleared, the first entry of the recipe book with that id has been
    removed. *)
Theorem C4_bookmark_broadcast X opts r st :
  getRecipe X opts st = Some r ->
  exists st',
    controlBookmarks X opts st = Some st' /\
    (forall c,
       In c (ingredientSearchResults st' ++ browseSearchResults st' ++ recipeBook st')%list ->
       has_id X c = true -> Recipe.isBookmarked c = negb (Recipe.isBookmarked r)) /\
    (forall wk d m l c,
       planSlot wk d m (mealPlan st') = Some l -> In c l ->
       has_id X c = true -> Recipe.isBookmarked c = negb (Recipe.isBookmarked r)) /\
    (Recipe.isBookmarked r = false ->
       exists book, recipeBook st' =
         (book ++ [Recipe.deepCopy (Recipe.set_isBookmarked true r)])%list) /\
    (Recipe.isBookmarked r = true ->
       forall l1 r0 l2, recipeBook st = (l1 ++ r0 :: l2)%list ->
         Forall (fun c => has_id X c = false) l1 -> has_id X r0 = true ->
         recipeBook st' = update_matching X (Recipe.set_isBookmarked false) (l1 ++ l2)).
Proof.
  intros Hr.
  set (b := negb (Recipe.isBookmarked r)).
  destruct (updateBookmarkStatus_Some X b opts r st Hr) as (st1 & Hst1 & Hr1 & Hbook1).
  assert (HX : has_id X r = true).
  { destruct (planContext opts) as [[d m]|] eqn:Hc.
    - rewrite (getRecipe_plan _ _ d m) in Hr by done.
      destruct (slotOf d m st); [|done]. simpl in Hr.
      by destruct (find_split _ _ _ Hr) as (? & ? & _ & _ & ?).
    - rewrite getRecipe_browse in Hr by done.
      destruct (getSourceArray (source opts) st); [|done]. simpl in Hr.
      by destruct (find_split _ _ _ Hr) as (? & ? & _ & _ & ?). }
  set (st2 := if b then saveRecipeBook
                          (set_recipeBook
                             (recipeBook st1 ++ [Recipe.deepCopy (Recipe.set_isBookmarked b r)])%list st1)
              else removeRecipeFromBook X st1).
  exists (synchronizeBookmarks X b st2).
  split.
  { unfold controlBookmarks, toggleBookmarkStatus, getBookmarkStatus.
    rewrite Hr. cbn [mbind option_bind]. fold b. rewrite Hst1. cbn [mbind option_bind].
    unfold st2. destruct b.
    - unfold addRecipeToRecipeBookById. rewrite Hr1. done.
    - done. }
  split.
  { intros c Hin HcX. unfold synchronizeBookmarks, synchronizeBookmarkStatus in Hin.
    cbn [ingredientSearchResults browseSearchResults recipeBook saveMealPlan
         set_storedMealPlan syncMealPlannerBookmarkStatus set_mealPlan set_recipeBook
         set_browseSearchResults set_ingredientSearchResults] in Hin.
    rewrite !in_app_iff in Hin.
    destruct Hin as [Hin|[Hin|Hin]]; by eapply update_matching_flag. }
  split.
  { intros wk d m l c Hl Hin HcX.
    change (mealPlan (synchronizeBookmarks X b st2)) with
      (mealPlan (syncMealPlannerBookmarkStatus X b
         (set_recipeBook (update_matching X (Recipe.set_isBookmarked b) (recipeBook st2))
           (set_browseSearchResults
              (update_matching X (Recipe.set_isBookmarked b) (browseSearchResults st2))
              (set_ingredientSearchResults
                 (update_matching X (Recipe.set_isBookmarked b) (ingredientSearchResults st2))
                 st2))))) in Hl.
    rewrite planSlot_syncMealPlanner in Hl.
    destruct (planSlot _ _ _ _) as [l0|]; [|done]. injection Hl as <-.
    by eapply update_matching_flag. }
  split.
  - intros Hb. assert (Hb' : b = true) by (unfold b; by rewrite Hb).
    unfold st2. rewrite Hb'.
    exists (update_matching X (Recipe.set_isBookmarked true) (recipeBook st1)).
    change (recipeBook (synchronizeBookmarks X true ?s)) with
      (update_matching X (Recipe.set_isBookmarked true) (recipeBook s)).
    cbn [recipeBook saveRecipeBook set_storedRecipeBook set_recipeBook].
    unfold update_matching. rewrite List.map_app. f_equal. simpl.
    change (has_id X (Recipe.deepCopy (Recipe.set_isBookmarked true r))) with (has_id X r).
    by rewrite HX.
  - intros Hb l1 r0 l2 Hbook Hl1 Hr0.
    assert (Hb' : b = false) by (unfold b; by rewrite Hb).
    unfold st2. rewrite Hb'.
    destruct (Hbook1 l1 r0 l2 Hbook Hl1 Hr0) as (r0' & Hb1 & Hr0').
    change (recipeBook (synchronizeBookmarks X false ?s)) with
      (update_matching X (Recipe.set_isBookmarked false) (recipeBook s)).
    unfold removeRecipeFromBook.
    cbn [recipeBook saveRecipeBook set_storedRecipeBook set_recipeBook].
    rewrite Hb1, findIndex_first, splice_at by done. done.
Qed.
End BookmarkClaims.

Section RetrievalFacts.
Context `{JSConversions} `{Environment}.

Lemma Number_isFinite_true v : Number_isFinite v = true <-> exists q, v = VNum (Fin q).
Proof.
  split.
  - destruct v as [| |[q| | |]|]; try done. by exists q.
  - by intros [q ->].
Qed.

Lemma truthy_string_true s : truthy_string s = true <-> s <> "".
Proof.
  unfold truthy_string. rewrite negb_true_iff.
  destruct (String.eqb_spec s ""); split; congruence.
Qed.

Lemma nutrientAmount_finite nutrients nutrientName :
  Number_isFinite (nutrientAmount nutrients nutrientName) = true <->
  finiteNutrient nutrients nutrientName.
Proof.
  unfold nutrientAmount, finiteNutrient. split.
  - destruct (List.find _ _) as [entry|] eqn:Hf; [|done].
    intros Hfin. apply Number_isFinite_true in Hfin as [q Hq].
    destruct (find_split _ _ _ Hf) as (l1 & l2 & Hl & Hl1 & He).
    exists l1, entry, l2, q. split; [done|]. split.
    + eapply Forall_impl; [exact Hl1|]. intros e He'. simpl in He'.
      by destruct (String.eqb_spec (RawNutrient.name e) nutrientName).
    + split; [|done]. by apply String.eqb_eq.
  - intros (l1 & entry & l2 & q & -> & Hl1 & He & Hq).
    rewrite find_app_first.
    + by rewrite Hq.
    + eapply Forall_impl; [exact Hl1|]. intros e He'. simpl.
      by destruct (String.eqb_spec (RawNutrient.name e) nutrientName).
    + by apply String.eqb_eq.
Qed.

Lemma firstSteps_Some recipe :
  is_Some (firstSteps recipe) <->
  exists steps others, RawRecipe.analyzedInstructions recipe = Some (Some steps :: others).
Proof.
  unfold firstSteps. split.
  - destruct (RawRecipe.analyzedInstructions recipe) as [[|[steps|] others]|];
      intros [x Hx]; try done. by exists steps, others.
  - intros (steps & others & ->). by eexists.
Qed.

(** [isValidRecipe] answers [true] exactly on the recipes described by
    [accepted]. *)
Lemma isValidRecipe_accepted recipe : isValidRecipe recipe = Some true <-> accepted recipe.
Proof.
  unfold isValidRecipe, accepted. split.
  - destruct (RawRecipe.title recipe) as [title|]; [|done]. cbn [mbind option_bind].
    destruct (_ && _ && _ && _ && _) eqn:Hfirst; cbn [negb]; [|done].
    rewrite !andb_true_iff, !bool_decide_eq_true, truthy_string_true,
      Number_isFinite_true, firstSteps_Some in Hfirst.
    destruct Hfirst as [[[[Ht Hid] Hs] Hst] Hing].
    destruct (RawRecipe.nutrition recipe) as [n|]; [|done].
    destruct (RawNutrition.nutrients n) as [nutrients|] eqn:Hns; [|done]. cbn [mbind option_bind].
    destruct (_ && _ && _) eqn:Hmacros; cbn [negb]; [|done].
    rewrite !andb_true_iff, !nutrientAmount_finite in Hmacros.
    destruct Hmacros as [[Hp Hf] Hc].
    destruct (RawNutrition.caloricBreakdown n) as [breakdown|] eqn:Hbd; [|done].
    cbn [mbind option_bind]. intros [= Hpct].
    rewrite !andb_true_iff, !Number_isFinite_true in Hpct. destruct Hpct as [[? ?] ?].
    destruct Hid as [x Hx], Hing as [ings Hings].
    split; [exists title; by split|]. split; [by exists x|].
    split; [done|]. split; [done|]. split; [by exists ings|].
    exists n, nutrients, breakdown.
    do 8 (split; [done|]). done.
  - intros ((title & -> & Ht) & [x Hid] & Hs & Hst & [l Hl] &
            n & nutrients & breakdown & -> & Hns & Hp & Hf & Hc & Hbd & Hpp & Hpf & Hpc).
    rewrite Hns, Hbd. cbn [mbind option_bind].
    assert (Hfirst : truthy_string (trim title) &&
                     bool_decide (is_Some (RawRecipe.id recipe)) &&
                     Number_isFinite (RawRecipe.servings recipe) &&
                     bool_decide (is_Some (firstSteps recipe)) &&
                     bool_decide (is_Some (RawRecipe.extendedIngredients recipe)) = true).
    { rewrite !andb_true_iff, !bool_decide_eq_true, truthy_string_true,
        Number_isFinite_true, firstSteps_Some, Hid, Hl. by repeat split. }
    rewrite Hfirst. cbn [negb].
    assert (Hmacros : Number_isFinite (nutrientAmount nutrients "Protein") &&
                      Number_isFinite (nutrientAmount nutrients "Fat") &&
                      Number_isFinite (nutrientAmount nutrients "Carbohydrates") = true).
    { rewrite !andb_true_iff, !nutrientAmount_finite. by repeat split. }
    rewrite Hmacros. cbn [negb]. f_equal.
    rewrite !andb_true_iff, !Number_isFinite_true. by repeat split.
Qed.

Lemma isValidRecipe_untitled recipe :
  RawRecipe.title recipe = None -> isValidRecipe recipe = None.
Proof. intros Ht. unfold isValidRecipe. by rewrite Ht. Qed.

(** What the specification asks for is accepted by the code. *)
Lemma spec_isValidRecipe_accepted recipe :
  spec_isValidRecipe recipe = true -> isValidRecipe recipe = Some true.
Proof.
  unfold spec_isValidRecipe. rewrite !andb_true_iff.
  intros [[[[[Ht Hid] Hs] Hst] Hing] Hn]. apply isValidRecipe_accepted.
  unfold accepted.
  destruct (RawRecipe.title recipe) as [title|]; [|done].
  split; [exists title; split; [done|by apply truthy_string_true]|].
  apply bool_decide_eq_true in Hid. split; [by destruct Hid as [x ->]; exists x|].
  split; [by apply Number_isFinite_true|].
  split.
  { destruct (RawRecipe.analyzedInstructions recipe) as [[|[steps|] others]|]; try done.
    by exists steps, others. }
  split.
  { destruct (RawRecipe.extendedIngredients recipe) as [ings|]; [|done]. by exists ings. }
  destruct (RawRecipe.nutrition recipe) as [n|]; [|done].
  apply andb_true_iff in Hn as [Hmacros Hpct].
  destruct (RawNutrition.nutrients n) as [nutrients|] eqn:Hns; [|done].
  destruct (RawNutrition.caloricBreakdown n) as [breakdown|] eqn:Hbd; [|done].
  rewrite !andb_true_iff, !nutrientAmount_finite in Hmacros.
  rewrite !andb_true_iff, !Number_isFinite_true in Hpct.
  destruct Hmacros as [[? ?] ?], Hpct as [[? ?] ?].
  exists n, nutrients, breakdown.
  do 8 (split; [done|]). done.
Qed.

Lemma insertSorted_Permutation x l : insertSorted x l ≡ₚ x :: l.
Proof.
  induction l as [|y l IH]; simpl; [done|].
  destruct (sortsAfter x y); [|done]. rewrite IH. apply Permutation_swap.
Qed.

Lemma sortByMissing_Permutation l : sortByMissing l ≡ₚ l.
Proof.
  unfold sortByMissing. induction l as [|x l IH]; simpl; [done|].
  by rewrite insertSorted_Permutation, IH.
Qed.

Lemma populateSearchResults_results recipeObj mode st :
  resultsOf mode (populateSearchResults recipeObj mode st) ≡ₚ
  (resultsOf mode st ++ [recipeObj])%list.
Proof.
  unfold resultsOf, populateSearchResults.
  destruct (String.eqb mode "ingredientSearch"); simpl; [|done].
  apply sortByMissing_Permutation.
Qed.

Lemma populateSearchResults_recipeBook recipeObj mode st :
  recipeBook (populateSearchResults recipeObj mode st) = recipeBook st.
Proof. unfold populateSearchResults. by destruct (String.eqb mode "ingredientSearch"). Qed.

Lemma getNutrientValue_Some recipe n nutrients nutrientName :
  RawRecipe.nutrition recipe = Some n -> RawNutrition.nutrients n = Some nutrients ->
  getNutrientValue recipe nutrientName =
  Some (if Number_isFinite (nutrientAmount nutrients nutrientName)
        then nutrientAmount nutrients nutrientName else VStr "-").
Proof. intros Hn Hns. unfold getNutrientValue. by rewrite Hn, Hns. Qed.

Lemma filterValid_false data :
  Forall (fun recipe => isValidRecipe recipe = Some false) data -> filterValid data = Some [].
Proof.
  induction 1 as [|recipe data Hr _ IH]; [done|].
  cbn [filterValid]. rewrite Hr, IH. done.
Qed.

Lemma filterValid_raises data :
  Exists (fun recipe => isValidRecipe recipe = None) data -> filterValid data = None.
Proof.
  induction 1 as [recipe data Hr|recipe data _ IH]; cbn [filterValid].
  - by rewrite Hr.
  - rewrite IH. by destruct (isValidRecipe recipe).
Qed.

(** When every candidate fails the check without raising, the caller gets
    [NoResults] and the state is untouched; a candidate on which the check
    raises makes the whole call fail. *)
Lemma loadRecipeDetails_noResults data mode st :
  Forall (fun recipe => isValidRecipe recipe = Some false) data ->
  loadRecipeDetails data mode st = Some (NoResults, st).
Proof. intros Hall. unfold loadRecipeDetails. by rewrite filterValid_false. Qed.

Lemma loadRecipeDetails_raises data mode st :
  Exists (fun recipe => isValidRecipe recipe = None) data ->
  loadRecipeDetails data mode st = None.
Proof. intros Hex. unfold loadRecipeDetails. by rewrite filterValid_raises. Qed.
End RetrievalFacts.

(** C1 (violated by the code). The day's aggregate should be the arithmetic sum of
    the calories of its recipes. A recipe for which the provider reported no
    calories carries the sentinel "-"; once it is added to Monday's breakfast,
    next to a 300-calorie lunch, [updateNutritionForDay] turns the aggregate
    into the string "0-300". *)
Theorem C1_sentinel_calories_concatenate :
  exists st dp,
    addRecipeToMealPlan 5
      {| date := mon20jan2025; meal := breakfast; operation := "add";
         numServings := VStr "2" |} browseOptions noCaloriesState = Some st /\
    dayOf mon20jan2025 st = Some dp /\
    List.map Recipe.calories (recipesOfDay (meals dp)) = [VStr "-"; num_lit 300] /\
    Nutrition.calories (nutrition dp) = VStr "0-300".
Proof. vm_compute. eexists _, _. repeat split. Qed.

(** C7 (violated by the code). The fourth rule should mark an ingredient as
    potentially available when a synonym of its group matches the pantry.
    [checkSynonymMatch] returns inside the first iteration of its loop and
    never reads the pantry: "penne" with "spaghetti" in the pantry comes out
    unavailable, and "cheddar" with an empty pantry potentially available. *)
Theorem C7_synonym_rule_divergence :
  availabilityState (getIngredientAvailability "penne" exampleState) = unavailable /\
  spec_availabilityState (normalizeIngredient "penne") (pantry exampleState) =
    potentiallyAvailable /\
  availabilityState (getIngredientAvailability "cheddar" (set_pantry [] exampleState)) =
    potentiallyAvailable /\
  spec_availabilityState (normalizeIngredient "cheddar") [] = unavailable.
Proof. by vm_compute. Qed.

Lemma wf_exampleState : wf_mealPlan (mealPlan exampleState).
Proof. apply (bool_decide_unpack _). by vm_compute. Qed.

Lemma C2_NaN_servings_accepted_witness :
  exists st' r',
    adjustServings 42 None browseOptions (Some (VStr "abc")) exampleState = Some st' /\
    getRecipe 42 browseOptions st' = Some r' /\
    Recipe.servings r' = VNum NaN /\
    Recipe.calories r' = VNum NaN.
Proof.
  destruct (C2_NaN_servings_accepted 42 None browseOptions (VStr "abc")
              (exampleRecipe 42 (num_lit 300) (num_lit 2)) exampleIngredients exampleState)
    as (_ & _ & st' & r' & Hst' & Hr' & Hs & Hn);
    [reflexivity|reflexivity|reflexivity|reflexivity|].
  exists st', r'. split; [exact Hst'|]. split; [exact Hr'|]. split; [exact Hs|].
  apply (Hn "calories" (inject_Z 300)); [by left|reflexivity].
Defined.

Lemma C3_servings_propagation_witness :
  exists st',
    adjustServings 42 (Some "increaseServings") mondayLunch None exampleState = Some st' /\
    recipeBook st' = recipeBook exampleState /\
    browseSearchResults st' = browseSearchResults exampleState /\
    planSlot mon20jan2025 tue21jan2025 dinner (mealPlan st') =
      planSlot mon20jan2025 tue21jan2025 dinner (mealPlan exampleState).
Proof.
  destruct (C3_servings_propagation 42 (Some "increaseServings") mondayLunch None
              (exampleRecipe 42 (num_lit 300) (num_lit 2)) exampleIngredients exampleState)
    as (st' & Hst' & Hplan & _); [reflexivity|reflexivity|].
  destruct (Hplan mon20jan2025 lunch eq_refl) as (_ & Hbrowse & Hbook & Hframe & _).
  exists st'. split; [exact Hst'|]. split; [exact Hbook|]. split; [exact Hbrowse|].
  apply Hframe. intros (_ & Hd & _). discriminate Hd.
Defined.

Lemma C4_bookmark_broadcast_witness :
  exists st',
    controlBookmarks 42 browseOptions exampleState = Some st' /\
    forall c, In c (recipeBook st') -> has_id 42 c = true -> Recipe.isBookmarked c = true.
Proof.
  destruct (C4_bookmark_broadcast 42 browseOptions
              (exampleRecipe 42 (num_lit 300) (num_lit 2)) exampleState)
    as (st' & Hst' & Hlists & _); [reflexivity|].
  exists st'. split; [done|]. intros c Hin Hc.
  apply Hlists; [|done]. rewrite !in_app_iff. by right; right.
Defined.

Lemma C5_counterexample :
  in_range (Fin 2) /\
  exists st1 st2 r2,
    adjustServings 9 None browseOptions (Some (num_lit 2)) bigBatchState = Some st1 /\
    adjustServings 9 None browseOptions (Some (num_lit 64)) st1 = Some st2 /\
    getRecipe 9 browseOptions st2 = Some r2 /\
    Recipe.servings r2 = num_lit 2 /\
    jsval_equiv (Recipe.calories r2) (num_lit 20) /\
    ~ jsval_equiv (Recipe.calories r2) (num_lit 640).
Proof.
  split; [by vm_compute|].
  eexists _, _, _. split; [vm_compute; reflexivity|].
  split; [vm_compute; reflexivity|]. split; [vm_compute; reflexivity|].
  split; [reflexivity|]. by vm_compute.
Qed.

Lemma safeMagnitude_small z : 1 <= z <= 1000 -> safeMagnitude (inject_Z z).
Proof.
  intros Hz. assert (Hpow : 1000 <= 10 ^ 300).
  { change 1000 with (10 ^ 3). apply Z.pow_le_mono_r; lia. }
  right. rewrite Qabs_pos by (change 0%Q with (inject_Z 0); rewrite <- Zle_Qle; lia).
  split.
  - rewrite <- inject_Z_mult. change 1%Q with (inject_Z 1). rewrite <- Zle_Qle. nia.
  - rewrite <- Zle_Qle. lia.
Qed.

Lemma exampleRecipe_safe recipeId servings k q :
  In k RECIPE_NUTRIENTS ->
  Recipe.get k (exampleRecipe recipeId (num_lit 300) servings) = VNum (Fin q) ->
  safeMagnitude q.
Proof.
  intros Hk. simpl in Hk.
  repeat (destruct Hk as [<-|Hk];
    [intros Hq; first [discriminate Hq | injection Hq as <-; apply safeMagnitude_small; lia]|]).
  done.
Qed.

Lemma C5_round_trip_witness :
  exists st1 st2 r2,
    adjustServings 42 None browseOptions (Some (num_lit 8)) exampleState = Some st1 /\
    adjustServings 42 None browseOptions (Some (num_lit 2)) st1 = Some st2 /\
    getRecipe 42 browseOptions st2 = Some r2 /\
    Recipe.servings r2 = num_lit 2 /\
    jsval_equiv (Recipe.calories r2) (num_lit 300).
Proof.
  destruct (C5_round_trip 42 browseOptions (exampleRecipe 42 (num_lit 300) (num_lit 2))
              (inject_Z 2) (inject_Z 8) exampleIngredients exampleState)
    as (st1 & st2 & r2 & l2 & H1 & H2 & Hr & Hs & _ & _ & Hn);
    [reflexivity|reflexivity|by vm_compute|by vm_compute|reflexivity| | |].
  { repeat constructor; eexists; (split; [reflexivity|]); apply safeMagnitude_small; lia. }
  { apply exampleRecipe_safe. }
  exists st1, st2, r2. split; [exact H1|]. split; [exact H2|]. split; [exact Hr|].
  split; [exact Hs|]. apply (Hn "calories"). by left.
Defined.

(** C6 (violated by the code). [spec_isValidRecipe] is the check as specified:
    at least one instruction step and at least one ingredient, and a recipe
    that lacks a field fails. Whatever passes it passes [isValidRecipe], but
    not conversely. A recipe whose lists of steps and of ingredients are both
    empty passes [isValidRecipe] (an empty array is truthy) and is stored in
    the results. A recipe without a title is not dropped: reading
    [title.trim()] raises, and the whole retrieval fails although another
    fetched recipe is valid. *)
Theorem C6_empty_lists_accepted :
  (forall recipe, spec_isValidRecipe recipe = true -> isValidRecipe recipe = Some true) /\
  spec_isValidRecipe bareRawRecipe = false /\
  isValidRecipe bareRawRecipe = Some true /\
  (exists st',
     loadRecipeDetails [bareRawRecipe] "browseRecipes" exampleState = Some (Loaded, st') /\
     List.map Recipe.id (browseSearchResults st') = [42; 11]) /\
  spec_isValidRecipe untitledRawRecipe = false /\
  isValidRecipe untitledRawRecipe = None /\
  spec_isValidRecipe teaRawRecipe = true /\
  loadRecipeDetails [teaRawRecipe; untitledRawRecipe] "browseRecipes" exampleState = None.
Proof.
  split; [apply spec_isValidRecipe_accepted|].
  vm_compute. repeat split. eexists. split; reflexivity.
Qed.

Lemma C8_duplicate_rejected_witness :
  controlAddRecipeToPlan 42
    {| date := mon20jan2025; meal := lunch; operation := "add"; numServings := VStr "1" |}
    browseOptions exampleState = Some (MealExistsErrorRendered, exampleState).
Proof.
  eapply C8_duplicate_rejected; [reflexivity| |reflexivity].
  vm_compute. by left.
Defined.

Lemma C9_splice_not_found_witness :
  (exists st',
     deleteRecipeFromMealPlan 7 mon20jan2025 lunch exampleState = Some st' /\
     slotOf mon20jan2025 lunch st' = Some []) /\
  List.map Recipe.id (recipeBook (removeRecipeFromBook 99 exampleState)) = [7].
Proof.
  split.
  - destruct (C9_splice_not_found 7 exampleState) as [Hdel _].
    apply (Hdel mon20jan2025 lunch
             (dayWith lunch [exampleRecipe 42 (num_lit 300) (num_lit 2)])).
    + exact wf_exampleState.
    + reflexivity.
    + by repeat constructor.
  - destruct (C9_splice_not_found 99 exampleState) as [_ [Hbook _]].
    rewrite Hbook; [reflexivity|]. by repeat constructor.
Defined.

Lemma C10_counterexample :
  exists st' l,
    addRecipeToMealPlan 42
      {| date := mon20jan2025; meal := lunch; operation := "replace";
         numServings := VStr "2" |} mondayLunch exampleState = Some st' /\
    slotOf mon20jan2025 lunch st' = Some [] /\
    slotOf tue21jan2025 dinner st' = Some l /\
    In 42 (List.map Recipe.id l).
Proof. vm_compute. eexists _, _. repeat split. by left. Qed.

Lemma C10_move_onto_itself_witness :
  exists st',
    addRecipeToMealPlan 42
      {| date := mon20jan2025; meal := lunch; operation := "replace";
         numServings := VStr "3" |} mondayLunch exampleState = Some st' /\
    slotOf mon20jan2025 lunch st' = Some [] /\
    planSlot mon20jan2025 tue21jan2025 dinner (mealPlan st') =
      planSlot mon20jan2025 tue21jan2025 dinner (mealPlan exampleState).
Proof.
  destruct (C10_move_onto_itself 42 mon20jan2025 lunch (VStr "3")
              (exampleRecipe 42 (num_lit 300) (num_lit 2))
              (dayWith lunch [exampleRecipe 42 (num_lit 300) (num_lit 2)]) exampleState)
    as (st' & Hst' & Hslot & Hframe).
  - apply (bool_decide_unpack _). by vm_compute.
  - reflexivity.
  - reflexivity.
  - right. by exists exampleIngredients.
  - exists st'. split; [exact Hst'|]. split; [exact Hslot|].
    apply Hframe. intros (_ & Hd & _). discriminate Hd.
Defined.

Section CalendarFacts.

Lemma getDay_range d : 0 <= getDay d < 7.
Proof. unfold getDay. apply Z.mod_pos_bound. lia. Qed.

Lemma getMondayOfTheWeek_spec_aux d :
  getDay (getMondayOfTheWeek d) = 1 /\
  d - 5 <= getMondayOfTheWeek d <= d + 1 /\
  (getDay d = 0 -> getMondayOfTheWeek d = d + 1) /\
  (getDay d <> 0 -> getMondayOfTheWeek d <= d).
Proof.
  pose proof (getDay_range d) as Hr. unfold getMondayOfTheWeek.
  split; [|lia].
  unfold getDay in *.
  pose proof (Z.div_mod (d + 4) 7 ltac:(lia)) as Hdm.
  replace (d - (d + 4) mod 7 + 1 + 4) with (1 + (d + 4) / 7 * 7) by lia.
  by rewrite Z_mod_plus_full.
Qed.

(** X1. For every date [d], [getMondayOfTheWeek d] is a Monday between [d - 5]
    and [d + 1]: the Monday after a Sunday, the Monday on or before any other
    day. *)
Theorem getMondayOfTheWeek_spec d :
  getDay (getMondayOfTheWeek d) = 1 /\
  d - 5 <= getMondayOfTheWeek d <= d + 1 /\
  (getDay d = 0 -> getMondayOfTheWeek d = d + 1) /\
  (getDay d <> 0 -> getMondayOfTheWeek d <= d).
Proof. exact (getMondayOfTheWeek_spec_aux d). Qed.

Lemma getMondayOfTheWeek_weekday monday i :
  getDay monday = 1 -> 0 <= i <= 5 -> getMondayOfTheWeek (monday + i) = monday.
Proof.
  unfold getMondayOfTheWeek, getDay. intros Hm Hi.
  pose proof (Z.div_mod (monday + 4) 7 ltac:(lia)) as Hdm.
  replace (monday + i + 4) with ((1 + i) + (monday + 4) / 7 * 7) by lia.
  rewrite Z_mod_plus_full, Z.mod_small by lia. lia.
Qed.

Lemma getDay_plus_week d k : getDay (d + k * 7) = getDay d.
Proof. unfold getDay. replace (d + k * 7 + 4) with (d + 4 + k * 7) by lia. apply Z_mod_plus_full. Qed.

Lemma lookup_createWeeklyMealPlan monday d :
  createWeeklyMealPlan monday !! d =
  if decide (monday <= d <= monday + 4) then Some createEmptyMealObj else None.
Proof.
  unfold createWeeklyMealPlan. cbn [fold_left].
  destruct (decide (monday <= d <= monday + 4)) as [Hin|Hout].
  - assert (Hcases : d = monday + 4 \/ d = monday + 3 \/ d = monday + 2 \/
                     d = monday + 1 \/ d = monday + 0) by lia.
    destruct Hcases as [->|[->|[->|[->| ->]]]];
      repeat (first [by rewrite lookup_insert_eq | rewrite lookup_insert_ne by lia]).
  - repeat (rewrite lookup_insert_ne by lia). apply lookup_empty.
Qed.

Lemma createWeeklyMealPlan_spec_aux monday :
  getDay monday = 1 ->
  (forall d, is_Some (createWeeklyMealPlan monday !! d) <-> monday <= d <= monday + 4) /\
  (forall d dp, createWeeklyMealPlan monday !! d = Some dp ->
     getMondayOfTheWeek d = monday /\ dp = createEmptyMealObj).
Proof.
  intros Hm. split.
  - intros d. rewrite lookup_createWeeklyMealPlan.
    destruct (decide _) as [Hin|Hout].
    + split; [done|by eexists].
    + split; [by intros [? ?]|done].
  - intros d dp. rewrite lookup_createWeeklyMealPlan.
    destruct (decide _) as [Hin|]; [|done]. intros [= <-]. split; [|done].
    replace d with (monday + (d - monday)) by lia.
    apply getMondayOfTheWeek_weekday; [done|lia].
Qed.

(** X2. The week built for a Monday holds exactly the five days from that Monday
    to the Friday, each the empty day object, and [getMondayOfTheWeek] sends
    each of them back to that Monday. *)
Theorem createWeeklyMealPlan_spec monday :
  getDay monday = 1 ->
  (forall d, is_Some (createWeeklyMealPlan monday !! d) <-> monday <= d <= monday + 4) /\
  (forall d dp, createWeeklyMealPlan monday !! d = Some dp ->
     getMondayOfTheWeek d = monday /\ dp = createEmptyMealObj).
Proof. exact (createWeeklyMealPlan_spec_aux monday). Qed.

Lemma lookup_fold_insert {V} (g : Z -> V) l (mp0 : gmap Z V) k :
  fold_left (fun mp wk => <[wk := g wk]> mp) l mp0 !! k =
  if decide (k ∈ l) then Some (g k) else mp0 !! k.
Proof.
  revert mp0. induction l as [|x l IH]; intros mp0; cbn [fold_left].
  - destruct (decide (k ∈ [])) as [Hin|]; [by apply elem_of_nil in Hin|done].
  - rewrite IH. destruct (decide (k ∈ l)) as [Hin|Hin].
    + rewrite decide_True; [done|]. by apply elem_of_cons; right.
    + destruct (decide (k ∈ x :: l)) as [Hin'|Hin'].
      * apply elem_of_cons in Hin' as [->|?]; [|done]. by rewrite lookup_insert_eq.
      * rewrite lookup_insert_ne; [done|]. intros ->. apply Hin'. by left.
Qed.

Lemma lookup_initializeMealPlan today st wk :
  mealPlan (initializeMealPlan today st) !! wk =
  if decide (wk ∈ weeksAround today)
  then Some (match (match storedMealPlan st with Some saved => saved | None => ∅ end) !! wk with
             | Some w => w
             | None => createWeeklyMealPlan wk
             end)
  else mealPlan st !! wk.
Proof.
  unfold initializeMealPlan. cbn [mealPlan set_mealPlan].
  by rewrite (lookup_fold_insert (fun week =>
    match (match storedMealPlan st with Some saved => saved | None => ∅ end) !! week with
    | Some w => w | None => createWeeklyMealPlan week end)).
Qed.

Lemma weeksAround_Monday today wk : wk ∈ weeksAround today -> getDay wk = 1.
Proof.
  unfold weeksAround. intros Hin. apply list_elem_of_fmap in Hin as (i & -> & _).
  rewrite getDay_plus_week. apply getMondayOfTheWeek_spec_aux.
Qed.

(** X3. From an empty plan, [initializeMealPlan] displays the Monday of today's
    week, makes exactly the nine weeks around it resident, takes a week from
    the saved plan whenever the saved plan has it, and files every day under
    the Monday of its own week, provided the saved plan did. *)
Theorem initializeMealPlan_spec today st :
  mealPlan st = ∅ ->
  (forall saved, storedMealPlan st = Some saved -> wf_mealPlan saved) ->
  let st' := initializeMealPlan today st in
  mealCalendarWeek st' = getMondayOfTheWeek today /\
  (forall wk, is_Some (mealPlan st' !! wk) <->
     exists k, -4 <= k <= 4 /\ wk = getMondayOfTheWeek today + k * 7) /\
  (forall wk saved w, storedMealPlan st = Some saved -> saved !! wk = Some w ->
     is_Some (mealPlan st' !! wk) -> mealPlan st' !! wk = Some w) /\
  wf_mealPlan (mealPlan st').
Proof.
  intros Hempty Hsaved st'.
  assert (Hrange : forall wk, wk ∈ weeksAround today <->
            exists k, -4 <= k <= 4 /\ wk = getMondayOfTheWeek today + k * 7).
  { intros wk. unfold weeksAround. rewrite list_elem_of_fmap. split.
    - intros (i & -> & Hi). exists (i - 4). split; [|done].
      rewrite !elem_of_cons, elem_of_nil in Hi. lia.
    - intros (k & Hk & ->). exists (k + 4). split; [f_equal; lia|].
      rewrite !elem_of_cons.
      assert (Hc : k + 4 = 0 \/ k + 4 = 1 \/ k + 4 = 2 \/ k + 4 = 3 \/ k + 4 = 4 \/
                   k + 4 = 5 \/ k + 4 = 6 \/ k + 4 = 7 \/ k + 4 = 8) by lia.
      tauto. }
  split; [done|]. split; [|split].
  - intros wk. unfold st'. rewrite lookup_initializeMealPlan, <- Hrange.
    destruct (decide (wk ∈ weeksAround today)); [by split; [|eexists]|].
    rewrite Hempty, lookup_empty. split; [by intros [? ?]|done].
  - intros wk saved w Hst Hw. unfold st'. rewrite lookup_initializeMealPlan.
    destruct (decide (wk ∈ weeksAround today)).
    + by rewrite Hst, Hw.
    + rewrite Hempty, lookup_empty. by intros [? ?].
  - intros wk w Hw d dp Hd. unfold st' in Hw. rewrite lookup_initializeMealPlan in Hw.
    destruct (decide (wk ∈ weeksAround today)) as [Hin|]; [|by rewrite Hempty in Hw].
    injection Hw as <-.
    destruct (storedMealPlan st) as [saved|] eqn:Hst.
    + destruct (saved !! wk) as [w|] eqn:Hw.
      * by eapply (wf_lookup saved); [apply Hsaved| |].
      * by apply (createWeeklyMealPlan_spec_aux wk (weeksAround_Monday _ _ Hin)) in Hd as [? _].
    + rewrite lookup_empty in Hd.
      by apply (createWeeklyMealPlan_spec_aux wk (weeksAround_Monday _ _ Hin)) in Hd as [? _].
Qed.
End CalendarFacts.

Section SliderFacts.

Lemma findIndex_at {A} (p : A -> bool) l1 x l2 :
  Forall (fun y => p y = false) l1 -> p x = true ->
  findIndex p (l1 ++ x :: l2) = Z.of_nat (length l1).
Proof.
  induction 1 as [|y l1 Hy _ IH]; intros Hx; simpl.
  - by rewrite Hx.
  - rewrite Hy, IH by done.
    destruct (Z.ltb_spec (Z.of_nat (length l1)) 0); lia.
Qed.

Lemma findIndex_NoDup (l : list Z) i x :
  NoDup l -> l !! i = Some x -> findIndex (Z.eqb x) l = Z.of_nat i.
Proof.
  intros Hnd Hi.
  rewrite <- (take_drop_middle l i x Hi) in Hnd |- *.
  assert (Hlen : length (take i l) = i).
  { rewrite length_take. apply lookup_lt_Some in Hi. lia. }
  rewrite findIndex_at; [by rewrite Hlen| |apply Z.eqb_refl].
  apply NoDup_app in Hnd as (_ & Hdisj & _).
  apply Forall_forall. intros y Hy. apply Z.eqb_neq. intros <-.
  apply (Hdisj x Hy). by left.
Qed.

Lemma findIndex_not_elem (l : list Z) x : x ∉ l -> findIndex (Z.eqb x) l = -1.
Proof.
  intros Hx. apply findIndex_absent. apply Forall_forall. intros y Hy.
  apply Z.eqb_neq. by intros <-.
Qed.

Lemma weekKeys_NoDup (mp : MealPlan) : NoDup (createSortedDateStrArr mp).
Proof.
  unfold createSortedDateStrArr. rewrite merge_sort_Permutation.
  apply NoDup_fst_map_to_list.
Qed.

Lemma weekKeys_elem (mp : MealPlan) wk :
  wk ∈ createSortedDateStrArr mp <-> is_Some (mp !! wk).
Proof.
  unfold createSortedDateStrArr. rewrite merge_sort_Permutation, list_elem_of_fmap. split.
  - intros ([k w] & -> & Hin). apply elem_of_map_to_list in Hin. by eexists.
  - intros [w Hw]. exists (wk, w). split; [done|]. by apply elem_of_map_to_list.
Qed.

Lemma weekKeys_increasing (mp : MealPlan) i j a b :
  createSortedDateStrArr mp !! i = Some a -> createSortedDateStrArr mp !! j = Some b ->
  (i < j)%nat -> a < b.
Proof.
  intros Hi Hj Hlt.
  assert (Hss : StronglySorted Z.le (createSortedDateStrArr mp)).
  { apply StronglySorted_merge_sort; apply _. }
  assert (Hne : a <> b).
  { intros ->. pose proof (NoDup_lookup _ _ _ _ (weekKeys_NoDup mp) Hi Hj). lia. }
  enough (a <= b) by lia.
  revert Hss i j Hi Hj Hlt. generalize (createSortedDateStrArr mp). intros l Hss.
  induction Hss as [|x l Hss IH Hall]; intros i j Hi Hj Hlt; [done|].
  destruct j as [|j]; [lia|]. destruct i as [|i].
  - injection Hi as ->. simpl in Hj.
    rewrite List.Forall_forall in Hall. apply Hall.
    apply list_elem_of_In, list_elem_of_lookup. by exists j.
  - simpl in Hi, Hj. eapply IH; [done..|lia].
Qed.

Lemma updateSliderWeek_spec_aux st i :
  createSortedDateStrArr (mealPlan st) !! i = Some (mealCalendarWeek st) ->
  let weekKeys := createSortedDateStrArr (mealPlan st) in
  updateSliderWeek "nextWeek" st =
    match weekKeys !! S i with
    | Some wk => set_mealCalendarWeek wk st
    | None => st
    end /\
  updateSliderWeek "previousWeek" st =
    match i with
    | O => st
    | S j => match weekKeys !! j with
             | Some wk => set_mealCalendarWeek wk st
             | None => st
             end
    end /\
  mealCalendarWeek (updateSliderWeek "previousWeek" st) <= mealCalendarWeek st /\
  mealCalendarWeek st <= mealCalendarWeek (updateSliderWeek "nextWeek" st).
Proof.
  intros Hi weekKeys.
  assert (Hidx : findIndex (Z.eqb (mealCalendarWeek st)) weekKeys = Z.of_nat i).
  { apply findIndex_NoDup; [apply weekKeys_NoDup|done]. }
  assert (Hnext : updateSliderWeek "nextWeek" st =
    match weekKeys !! S i with Some wk => set_mealCalendarWeek wk st | None => st end).
  { unfold updateSliderWeek. fold weekKeys. rewrite Hidx.
    change (String.eqb "nextWeek" "previousWeek") with false. cbv iota.
    replace (Z.to_nat (Z.of_nat i + 1)) with (S i) by lia.
    destruct (weekKeys !! S i) as [wk|] eqn:Hn.
    - apply lookup_lt_Some in Hn.
      destruct (Z.leb_spec 0 (Z.of_nat i + 1)); [|lia].
      destruct (Z.ltb_spec (Z.of_nat i + 1) (Z.of_nat (length weekKeys))); [done|lia].
    - by destruct (_ && _). }
  assert (Hprev : updateSliderWeek "previousWeek" st =
    match i with
    | O => st
    | S j => match weekKeys !! j with Some wk => set_mealCalendarWeek wk st | None => st end
    end).
  { unfold updateSliderWeek. fold weekKeys. rewrite Hidx.
    change (String.eqb "previousWeek" "previousWeek") with true. cbv iota.
    destruct i as [|j].
    - simpl. done.
    - replace (Z.to_nat (Z.of_nat (S j) + -1)) with j by lia.
      destruct (weekKeys !! j) as [wk|] eqn:Hn; [|by destruct (_ && _)].
      apply lookup_lt_Some in Hn.
      destruct (Z.leb_spec 0 (Z.of_nat (S j) + -1)); [|lia].
      destruct (Z.ltb_spec (Z.of_nat (S j) + -1) (Z.of_nat (length weekKeys))); [done|lia]. }
  split; [done|]. split; [done|]. rewrite Hnext, Hprev. split.
  - destruct i as [|j]; [done|].
    destruct (weekKeys !! j) as [wk|] eqn:Hj; [|done]. simpl.
    pose proof (weekKeys_increasing _ _ _ _ _ Hj Hi). lia.
  - destruct (weekKeys !! S i) as [wk|] eqn:Hn; [|done]. simpl.
    pose proof (weekKeys_increasing _ _ _ _ _ Hi Hn). lia.
Qed.

(** X5. When the displayed week is the [i]-th sorted week key, "nextWeek" moves
    to the key after it and "previousWeek" to the key before it; at either
    end of the list the state is unchanged, and the displayed week moves in
    the direction asked for or not at all. *)
Theorem updateSliderWeek_spec st i :
  createSortedDateStrArr (mealPlan st) !! i = Some (mealCalendarWeek st) ->
  let weekKeys := createSortedDateStrArr (mealPlan st) in
  updateSliderWeek "nextWeek" st =
    match weekKeys !! S i with
    | Some wk => set_mealCalendarWeek wk st
    | None => st
    end /\
  updateSliderWeek "previousWeek" st =
    match i with
    | O => st
    | S j => match weekKeys !! j with
             | Some wk => set_mealCalendarWeek wk st
             | None => st
             end
    end /\
  mealCalendarWeek (updateSliderWeek "previousWeek" st) <= mealCalendarWeek st /\
  mealCalendarWeek st <= mealCalendarWeek (updateSliderWeek "nextWeek" st).
Proof. exact (updateSliderWeek_spec_aux st i). Qed.

(** X6. From a resident week that has a successor, "nextWeek" followed by
    "previousWeek" gives back the initial state. *)
Theorem updateSliderWeek_next_previous st i wk :
  createSortedDateStrArr (mealPlan st) !! i = Some (mealCalendarWeek st) ->
  createSortedDateStrArr (mealPlan st) !! S i = Some wk ->
  updateSliderWeek "previousWeek" (updateSliderWeek "nextWeek" st) = st.
Proof.
  intros Hi Hn.
  destruct (updateSliderWeek_spec_aux st i Hi) as (Hnext & _).
  rewrite Hn in Hnext. rewrite Hnext.
  destruct (updateSliderWeek_spec_aux (set_mealCalendarWeek wk st) (S i) Hn) as (_ & Hprev & _).
  rewrite Hprev. cbn [mealPlan set_mealCalendarWeek]. rewrite Hi. by destruct st.
Qed.

(** X7. A displayed week that is not resident: "previousWeek" does nothing and
    "nextWeek" jumps to the earliest resident week. *)
Theorem updateSliderWeek_not_resident st :
  mealPlan st !! mealCalendarWeek st = None ->
  updateSliderWeek "previousWeek" st = st /\
  updateSliderWeek "nextWeek" st =
    match createSortedDateStrArr (mealPlan st) with
    | wk :: _ => set_mealCalendarWeek wk st
    | [] => st
    end.
Proof.
  intros Hnone.
  assert (Hidx : findIndex (Z.eqb (mealCalendarWeek st)) (createSortedDateStrArr (mealPlan st)) = -1).
  { apply findIndex_not_elem. rewrite weekKeys_elem, Hnone. by intros [? ?]. }
  unfold updateSliderWeek. rewrite Hidx. split; [done|].
  change (String.eqb "nextWeek" "previousWeek") with false. cbv iota.
  destruct (createSortedDateStrArr (mealPlan st)) as [|wk l]; [done|].
  simpl length. change (-1 + 1) with 0. cbn [Z.leb Z.compare andb Z.to_nat lookup list_lookup].
  destruct (Z.ltb_spec 0 (Z.of_nat (S (length l)))); [done|lia].
Qed.
End SliderFacts.

Section PantryFacts.

(** X9. Adding an ingredient that the pantry does not hold and removing it again
    gives back the initial state. *)
Theorem pantry_add_then_remove ingredient st :
  isIngredientInPantry ingredient st = false ->
  removeIngredientFromPantry ingredient (addIngredientToPantry ingredient st) = st.
Proof.
  intros Hnot. unfold removeIngredientFromPantry, addIngredientToPantry.
  cbn [pantry set_pantry].
  rewrite findIndex_at, splice_at, app_nil_r; [by destruct st| |apply String.eqb_refl].
  unfold isIngredientInPantry in Hnot.
  apply Forall_forall. intros y Hy. apply list_elem_of_In in Hy.
  destruct (String.eqb_spec y ingredient) as [->|]; [|done].
  assert (Hex : existsb (String.eqb ingredient) (pantry st) = true).
  { apply existsb_exists. exists ingredient. split; [done|apply String.eqb_refl]. }
  congruence.
Qed.

(** X10. [removeIngredientFromPantry] removes the first occurrence of the
    ingredient; when there is none, it removes the last entry of the pantry. *)
Theorem removeIngredientFromPantry_spec ingredient st :
  (forall l1 l2, pantry st = (l1 ++ ingredient :: l2)%list -> ~ In ingredient l1 ->
     pantry (removeIngredientFromPantry ingredient st) = (l1 ++ l2)%list) /\
  (~ In ingredient (pantry st) ->
     pantry (removeIngredientFromPantry ingredient st) = removelast (pantry st)).
Proof.
  unfold removeIngredientFromPantry. cbn [pantry set_pantry]. split.
  - intros l1 l2 -> Hl1. rewrite findIndex_at, splice_at; [done| |apply String.eqb_refl].
    apply Forall_forall. intros y Hy. apply list_elem_of_In in Hy.
    destruct (String.eqb_spec y ingredient) as [->|]; done.
  - intros Hnot. rewrite findIndex_absent, splice_minus_one; [done|].
    apply Forall_forall. intros y Hy. apply list_elem_of_In in Hy.
    destruct (String.eqb_spec y ingredient) as [->|]; done.
Qed.
End PantryFacts.

Section NutritionFacts.
Context `{JSConversions}.

Lemma fold_js_add_numeric (f : Recipe.t -> jsval) l acc :
  Forall (fun r => exists n, f r = VNum n) l ->
  fold_left (fun a r => js_add a (f r)) l (VNum acc) =
  VNum (fold_left (fun a r => num_add a (to_number (f r))) l acc).
Proof.
  intros Hall. revert acc. induction Hall as [|r l [n Hn] _ IH]; intros acc; [done|].
  cbn [fold_left]. rewrite Hn. apply IH.
Qed.

Lemma fold_addRecipeNutrition l n :
  fold_left addRecipeNutrition l n =
  Nutrition.Build
    (fold_left (fun a r => js_add a (Recipe.calories r)) l (Nutrition.calories n))
    (fold_left (fun a r => js_add a (Recipe.protein r)) l (Nutrition.protein n))
    (fold_left (fun a r => js_add a (Recipe.carbs r)) l (Nutrition.carbs n))
    (fold_left (fun a r => js_add a (Recipe.fats r)) l (Nutrition.fats n)).
Proof.
  revert n. induction l as [|r l IH]; intros n; [by destruct n|].
  cbn [fold_left]. by rewrite IH.
Qed.

Lemma recomputeNutrition_numeric dp :
  Forall numericMacros (recipesOfDay (meals dp)) ->
  recomputeNutrition dp =
  {| meals := meals dp; nutrition := sumNutrition (recipesOfDay (meals dp)) |}.
Proof.
  intros Hall. unfold recomputeNutrition, sumNutrition, sumOf. f_equal.
  rewrite fold_addRecipeNutrition. unfold zeroNutrition, num_lit.
  cbn [Nutrition.calories Nutrition.protein Nutrition.carbs Nutrition.fats].
  change (inject_Z 0) with (0%Q).
  f_equal; apply fold_js_add_numeric; (eapply Forall_impl; [exact Hall|]);
    intros r (c & p & cb & f & Hc & Hp & Hcb & Hf); by eexists.
Qed.

(** X11. When every recipe of a resident day holds numbers in its four macro
    fields, [updateNutritionForDay] sets the day's totals to the arithmetic
    sums over the recipes of its four slots, keeps its meals and leaves every
    other day as it was. *)
Theorem updateNutritionForDay_numeric d dp st :
  dayOf d st = Some dp ->
  Forall numericMacros (recipesOfDay (meals dp)) ->
  exists st', updateNutritionForDay d st = Some st' /\
    dayOf d st' =
      Some {| meals := meals dp; nutrition := sumNutrition (recipesOfDay (meals dp)) |} /\
    forall d', d' <> d -> dayOf d' st' = dayOf d' st.
Proof.
  intros Hd Hall. eexists. split; [by apply updateNutritionForDay_Some|]. split.
  - rewrite dayOf_modifyDay, decide_True, Hd by done. simpl.
    by rewrite recomputeNutrition_numeric.
  - intros d' Hne. by rewrite dayOf_modifyDay, decide_False.
Qed.

Lemma consistentDay_recompute dp : consistentDay (recomputeNutrition dp).
Proof. reflexivity. Qed.

(** After the week's recomputation every resident day of the week agrees
    with its slots, and the days of the other weeks are as before. *)
Lemma recomputeWeek_consistent wk st d dp :
  getMondayOfTheWeek d = wk -> dayOf d (recomputeWeek wk st) = Some dp -> consistentDay dp.
Proof.
  intros Hm. rewrite dayOf_recomputeWeek, decide_True by done.
  destruct (dayOf d st) as [dp0|]; [|done]. intros [= <-]. apply consistentDay_recompute.
Qed.

Lemma dayOf_modifySlot d' d m f st :
  dayOf d' (modifySlot d m f st) =
  if decide (d = d')
  then (fun dp => {| meals := meals_set m (f (meals_get m (meals dp))) (meals dp);
                     nutrition := nutrition dp |}) <$> dayOf d st
  else dayOf d' st.
Proof. unfold modifySlot. by rewrite dayOf_modifyDay. Qed.

Lemma deleteRecipeFromMealPlan_present_aux recipeId d m dp l1 r l2 st :
  wf_mealPlan (mealPlan st) ->
  dayOf d st = Some dp ->
  meals_get m (meals dp) = (l1 ++ r :: l2)%list ->
  Forall (fun x => has_id recipeId x = false) l1 ->
  has_id recipeId r = true ->
  exists st', deleteRecipeFromMealPlan recipeId d m st = Some st' /\
    slotOf d m st' = Some (l1 ++ l2)%list /\
    (forall wk' d' m', ~ (wk' = getMondayOfTheWeek d /\ d' = d /\ m' = m) ->
       planSlot wk' d' m' (mealPlan st') = planSlot wk' d' m' (mealPlan st)) /\
    storedMealPlan st' = Some (deepCopy_mealPlan (mealPlan st')) /\
    recipeBook st' = recipeBook st /\
    browseSearchResults st' = browseSearchResults st /\
    ingredientSearchResults st' = ingredientSearchResults st.
Proof.
  intros Hwf Hd Hslot Hl1 Hr. eexists.
  split; [by apply deleteRecipeFromMealPlan_wf|].
  split; [|split; [|done]].
  - rewrite slotOf_saveMealPlan, slotOf_recomputeWeek, slotOf_modifySlot, decide_True by done.
    rewrite (dayOf_slotOf _ _ dp) by done. simpl.
    by rewrite Hslot, findIndex_at, splice_at.
  - intros wk' d' m' Hne. change (mealPlan (saveMealPlan ?s)) with (mealPlan s).
    by rewrite planSlot_recomputeWeek, planSlot_modifySlot, decide_False.
Qed.

(** X12. [deleteRecipeFromMealPlan] on a slot that holds the id removes exactly the
    first recipe with that id; every other slot and the three browsing
    collections are as before, and the stored plan is the copy of the new
    plan. *)
Theorem deleteRecipeFromMealPlan_present recipeId d m dp l1 r l2 st :
  wf_mealPlan (mealPlan st) ->
  dayOf d st = Some dp ->
  meals_get m (meals dp) = (l1 ++ r :: l2)%list ->
  Forall (fun x => has_id recipeId x = false) l1 ->
  has_id recipeId r = true ->
  exists st', deleteRecipeFromMealPlan recipeId d m st = Some st' /\
    slotOf d m st' = Some (l1 ++ l2)%list /\
    (forall wk' d' m', ~ (wk' = getMondayOfTheWeek d /\ d' = d /\ m' = m) ->
       planSlot wk' d' m' (mealPlan st') = planSlot wk' d' m' (mealPlan st)) /\
    storedMealPlan st' = Some (deepCopy_mealPlan (mealPlan st')) /\
    recipeBook st' = recipeBook st /\
    browseSearchResults st' = browseSearchResults st /\
    ingredientSearchResults st' = ingredientSearchResults st.
Proof. exact (deleteRecipeFromMealPlan_present_aux recipeId d m dp l1 r l2 st). Qed.

Lemma deleteRecipeFromMealPlan_nutrition_aux recipeId d m dp st :
  wf_mealPlan (mealPlan st) ->
  dayOf d st = Some dp ->
  exists st', deleteRecipeFromMealPlan recipeId d m st = Some st' /\
    wf_mealPlan (mealPlan st') /\
    (forall d' dp', getMondayOfTheWeek d' = getMondayOfTheWeek d ->
       dayOf d' st' = Some dp' -> consistentDay dp') /\
    (forall d', getMondayOfTheWeek d' <> getMondayOfTheWeek d -> dayOf d' st' = dayOf d' st).
Proof.
  intros Hwf Hd. eexists. split; [by apply deleteRecipeFromMealPlan_wf|].
  split; [|split].
  - change (mealPlan (saveMealPlan ?s)) with (mealPlan s).
    by apply wf_recomputeWeek, wf_modifyDay.
  - intros d' dp' Hm. change (dayOf d' (saveMealPlan ?s)) with (dayOf d' s).
    by apply recomputeWeek_consistent.
  - intros d' Hne. change (dayOf d' (saveMealPlan ?s)) with (dayOf d' s).
    rewrite dayOf_recomputeWeek, decide_False by done.
    rewrite dayOf_modifySlot, decide_False; [done|]. by intros ->.
Qed.

(** X13. After [deleteRecipeFromMealPlan] every resident day of the week of the
    deletion carries the nutrition computed from its own slots, and the days
    of the other weeks are untouched. *)
Theorem deleteRecipeFromMealPlan_nutrition recipeId d m dp st :
  wf_mealPlan (mealPlan st) ->
  dayOf d st = Some dp ->
  exists st', deleteRecipeFromMealPlan recipeId d m st = Some st' /\
    wf_mealPlan (mealPlan st') /\
    (forall d' dp', getMondayOfTheWeek d' = getMondayOfTheWeek d ->
       dayOf d' st' = Some dp' -> consistentDay dp') /\
    (forall d', getMondayOfTheWeek d' <> getMondayOfTheWeek d -> dayOf d' st' = dayOf d' st).
Proof. exact (deleteRecipeFromMealPlan_nutrition_aux recipeId d m dp st). Qed.

Lemma createCustomMealEntry_wf uniqueId inputs dp st :
  wf_mealPlan (mealPlan st) -> dayOf (ce_date inputs) st = Some dp ->
  createCustomMealEntry uniqueId inputs st =
  Some (saveMealPlan (recomputeWeek (getMondayOfTheWeek (ce_date inputs))
          (modifySlot (ce_date inputs) (ce_meal inputs)
             (fun l => (l ++ [createCustomRecipeObject uniqueId inputs])%list) st))).
Proof.
  intros Hwf Hd. unfold createCustomMealEntry.
  rewrite getDayMealPlan_dayOf, Hd. simpl.
  rewrite updateNutritionForWeek_wf by (by apply wf_modifyDay). done.
Qed.

(** X14. [createCustomMealEntry] appends to the chosen slot one entry with the
    generated id, origin [customMealEntry], the given name, numeric macro
    fields and no serving count; every other slot is as before, the days of
    the week carry the nutrition computed from their slots, and the plan is
    saved. *)
Theorem createCustomMealEntry_spec uniqueId inputs dp st :
  wf_mealPlan (mealPlan st) ->
  dayOf (ce_date inputs) st = Some dp ->
  exists st' entry, createCustomMealEntry uniqueId inputs st = Some st' /\
    slotOf (ce_date inputs) (ce_meal inputs) st' =
      Some (meals_get (ce_meal inputs) (meals dp) ++ [entry])%list /\
    Recipe.id entry = uniqueId /\
    Recipe.origin entry = customMealEntry /\
    Recipe.title entry = mealName inputs /\
    numericMacros entry /\
    Recipe.servings entry = VStr "Unavailable" /\
    (forall wk' d' m',
       ~ (wk' = getMondayOfTheWeek (ce_date inputs) /\ d' = ce_date inputs /\ m' = ce_meal inputs) ->
       planSlot wk' d' m' (mealPlan st') = planSlot wk' d' m' (mealPlan st)) /\
    (forall d' dp', getMondayOfTheWeek d' = getMondayOfTheWeek (ce_date inputs) ->
       dayOf d' st' = Some dp' -> consistentDay dp') /\
    storedMealPlan st' = Some (deepCopy_mealPlan (mealPlan st')).
Proof.
  intros Hwf Hd. eexists _, (createCustomRecipeObject uniqueId inputs).
  split; [by eapply createCustomMealEntry_wf|].
  split; [|do 5 (split; [done || (by repeat eexists)|])].
  - rewrite slotOf_saveMealPlan, slotOf_recomputeWeek, slotOf_modifySlot, decide_True by done.
    by rewrite (dayOf_slotOf _ _ dp).
  - split; [|split; [|done]].
    + intros wk' d' m' Hne. change (mealPlan (saveMealPlan ?s)) with (mealPlan s).
      by rewrite planSlot_recomputeWeek, planSlot_modifySlot, decide_False.
    + intros d' dp' Hm. change (dayOf d' (saveMealPlan ?s)) with (dayOf d' s).
      by apply recomputeWeek_consistent.
Qed.
End NutritionFacts.

Section AddFacts.
Context `{JSConversions}.

Lemma adjust_appended_copy base c ns d m st :
  slotOf d m st = Some (base ++ [c])%list ->
  Forall (fun x => has_id (Recipe.id c) x = false) base ->
  (Recipe.origin c = customMealEntry \/ exists l, Recipe.ingredients c = Is l) ->
  exists st3 c',
    match Recipe.origin c with
    | customMealEntry => Some st
    | _ => adjustServings (Recipe.id c) None
             {| source := "mealPlan"; currentDate := Some d; currentMeal := Some m |}
             (nullable ns) st
    end = Some st3 /\
    slotOf d m st3 = Some (base ++ [c'])%list /\ Recipe.id c' = Recipe.id c /\
    adjustedCopy c ns c' /\
    (wf_mealPlan (mealPlan st) -> wf_mealPlan (mealPlan st3)) /\
    (forall wk' d' m', ~ (wk' = getMondayOfTheWeek d /\ d' = d /\ m' = m) ->
       planSlot wk' d' m' (mealPlan st3) = planSlot wk' d' m' (mealPlan st)) /\
    recipeBook st3 = recipeBook st /\
    browseSearchResults st3 = browseSearchResults st /\
    ingredientSearchResults st3 = ingredientSearchResults st.
Proof.
  intros Hslot Hbase Hshape.
  set (opts := {| source := "mealPlan"; currentDate := Some d; currentMeal := Some m |}).
  assert (Hc : planContext opts = Some (d, m)) by done.
  assert (Hr : getRecipe (Recipe.id c) opts st = Some c).
  { rewrite (getRecipe_plan _ _ d m) by done. rewrite Hslot. simpl.
    apply find_app_first; [done|apply has_id_id]. }
  assert (Hadj : Recipe.origin c <> customMealEntry ->
    exists st3 c', adjustServings (Recipe.id c) None opts (nullable ns) st = Some st3 /\
    slotOf d m st3 = Some (base ++ [c'])%list /\ Recipe.id c' = Recipe.id c /\
    (if isValidServings (calculateUpdatedServings (Recipe.servings c) None (nullable ns))
     then rescale c (calculateUpdatedServings (Recipe.servings c) None (nullable ns)) = Some c'
     else c' = c) /\
    (wf_mealPlan (mealPlan st) -> wf_mealPlan (mealPlan st3)) /\
    (forall wk' d' m', ~ (wk' = getMondayOfTheWeek d /\ d' = d /\ m' = m) ->
       planSlot wk' d' m' (mealPlan st3) = planSlot wk' d' m' (mealPlan st)) /\
    recipeBook st3 = recipeBook st /\
    browseSearchResults st3 = browseSearchResults st /\
    ingredientSearchResults st3 = ingredientSearchResults st).
  { intros Ho. destruct Hshape as [?|[l Hl]]; [done|].
    set (u := calculateUpdatedServings (Recipe.servings c) None (nullable ns)).
    destruct (isValidServings u) eqn:Hv.
    - destruct (rescale_Some c u l Hl) as (c' & Hs & Hid & _).
      exists (modifySlot d m (replace_first (has_id (Recipe.id c)) c') st), c'.
      split; [by eapply adjustServings_plan|].
      split.
      { rewrite slotOf_modifySlot, decide_True by done. rewrite Hslot. simpl.
        by rewrite replace_first_app by (done || apply has_id_id). }
      split; [done|]. split; [done|]. split; [apply wf_modifySlot|].
      split; [|done].
      intros wk' d' m' Hne. rewrite planSlot_modifySlot. by rewrite decide_False.
    - exists st, c. split; [by eapply adjustServings_rejected|]. done. }
  unfold adjustedCopy. cbv zeta.
  destruct (Recipe.origin c) eqn:Ho.
  - by apply Hadj.
  - by apply Hadj.
  - by exists st, c.
Qed.

Lemma add_first_steps X ui dp r st :
  dayOf (date ui) st = Some dp ->
  (operation ui = "replace" \/
   Forall (fun x => has_id X x = false) (meals_get (meal ui) (meals dp))) ->
  Recipe.id r = X ->
  let st1 := if String.eqb (operation ui) "replace"
             then modifySlot (date ui) (meal ui) (fun _ => []) st else st in
  let st2 := modifySlot (date ui) (meal ui) (fun l => (l ++ [Recipe.deepCopy r])%list) st1 in
  slotOf (date ui) (meal ui) st2 =
    Some (keptInSlot (operation ui) (meals_get (meal ui) (meals dp)) ++ [Recipe.deepCopy r])%list /\
  Forall (fun x => has_id (Recipe.id (Recipe.deepCopy r)) x = false)
    (keptInSlot (operation ui) (meals_get (meal ui) (meals dp))) /\
  (wf_mealPlan (mealPlan st) -> wf_mealPlan (mealPlan st2)) /\
  (forall wk' d' m', ~ (wk' = getMondayOfTheWeek (date ui) /\ d' = date ui /\ m' = meal ui) ->
     planSlot wk' d' m' (mealPlan st2) = planSlot wk' d' m' (mealPlan st)) /\
  recipeBook st2 = recipeBook st /\
  browseSearchResults st2 = browseSearchResults st /\
  ingredientSearchResults st2 = ingredientSearchResults st.
Proof.
  intros Hd Hfree HX st1 st2. unfold st2, st1, keptInSlot.
  rewrite deepCopy_id, HX.
  destruct (String.eqb_spec (operation ui) "replace") as [Hop|Hop].
  - split; [|split; [done|split; [|split; [|done]]]].
    + rewrite !slotOf_modifySlot, !decide_True by done.
      by rewrite (dayOf_slotOf _ _ dp).
    + intros Hwf. by do 2 apply wf_modifySlot.
    + intros wk' d' m' Hne. rewrite !planSlot_modifySlot. by rewrite !decide_False.
  - destruct Hfree as [?|Hfree]; [done|].
    split; [|split; [done|split; [|split; [|done]]]].
    + rewrite !slotOf_modifySlot, !decide_True by done.
      by rewrite (dayOf_slotOf _ _ dp).
    + intros Hwf. by apply wf_modifySlot.
    + intros wk' d' m' Hne. rewrite !planSlot_modifySlot. by rewrite !decide_False.
Qed.

Lemma addRecipeToMealPlan_from_browse_aux X ui opts dp r l st :
  wf_mealPlan (mealPlan st) ->
  dayOf (date ui) st = Some dp ->
  planContext opts = None ->
  getRecipe X opts st = Some r ->
  Recipe.ingredients r = Is l ->
  (operation ui = "replace" \/
   Forall (fun x => has_id X x = false) (meals_get (meal ui) (meals dp))) ->
  exists st' c, addRecipeToMealPlan X ui opts st = Some st' /\
    slotOf (date ui) (meal ui) st' =
      Some (keptInSlot (operation ui) (meals_get (meal ui) (meals dp)) ++ [c])%list /\
    Recipe.id c = X /\
    adjustedCopy (Recipe.deepCopy r) (numServings ui) c /\
    (forall wk' d' m', ~ (wk' = getMondayOfTheWeek (date ui) /\ d' = date ui /\ m' = meal ui) ->
       planSlot wk' d' m' (mealPlan st') = planSlot wk' d' m' (mealPlan st)) /\
    (forall d' dp', getMondayOfTheWeek d' = getMondayOfTheWeek (date ui) ->
       dayOf d' st' = Some dp' -> consistentDay dp') /\
    recipeBook st' = recipeBook st /\
    browseSearchResults st' = browseSearchResults st /\
    ingredientSearchResults st' = ingredientSearchResults st /\
    storedMealPlan st' = Some (deepCopy_mealPlan (mealPlan st')).
Proof.
  intros Hwf Hd Hctx Hget Hl Hfree.
  assert (HX : Recipe.id r = X).
  { rewrite getRecipe_browse in Hget by done.
    destruct (getSourceArray (source opts) st) as [arr|]; [|done]. simpl in Hget.
    apply has_id_eq. by destruct (find_split _ _ _ Hget) as (? & ? & _ & _ & ?). }
  assert (Hsrc : String.eqb (source opts) "mealPlan" = false).
  { rewrite getRecipe_browse in Hget by done.
    destruct (getSourceArray (source opts) st) as [arr|] eqn:Harr; [|done].
    by eapply getSourceArray_not_plan. }
  destruct (add_first_steps X ui dp r st Hd Hfree HX)
    as (Hslot2 & Hbase & Hwf2 & Hframe2 & Hb2 & Hbr2 & Hi2).
  set (st2 := modifySlot (date ui) (meal ui) (fun l => (l ++ [Recipe.deepCopy r])%list)
         (if String.eqb (operation ui) "replace"
          then modifySlot (date ui) (meal ui) (fun _ => []) st else st)) in *.
  destruct (adjust_appended_copy _ (Recipe.deepCopy r) (numServings ui) _ _ st2 Hslot2 Hbase)
    as (st3 & c & Hst3 & Hslot3 & Hid3 & Hadj & Hwf3 & Hframe3 & Hb3 & Hbr3 & Hi3).
  { right. rewrite deepCopy_ingredients, Hl. by eexists. }
  exists (saveMealPlan (recomputeWeek (getMondayOfTheWeek (date ui)) st3)), c.
  split.
  { rewrite (addRecipeToMealPlan_eq _ _ _ dp r) by done. cbv zeta.
    fold st2. rewrite Hst3. cbn [mbind option_bind].
    rewrite updateNutritionForWeek_wf by auto. cbn [mbind option_bind].
    by rewrite Hsrc. }
  split; [by rewrite slotOf_saveMealPlan, slotOf_recomputeWeek|].
  split; [by rewrite Hid3, deepCopy_id|]. split; [done|].
  split.
  { intros wk' d' m' Hne. change (mealPlan (saveMealPlan ?s)) with (mealPlan s).
    by rewrite planSlot_recomputeWeek, Hframe3, Hframe2. }
  split.
  { intros d' dp' Hm. change (dayOf d' (saveMealPlan ?s)) with (dayOf d' s).
    by apply recomputeWeek_consistent. }
  split; [by rewrite <- Hb2, <- Hb3|].
  split; [by rewrite <- Hbr2, <- Hbr3|].
  split; [by rewrite <- Hi2, <- Hi3|done].
Qed.

(** X15. [addRecipeToMealPlan] from a browsing source, the target slot not holding
    the id unless it is replaced: the slot becomes the kept recipes followed by
    one copy with the id, rescaled to the new serving count when it is
    accepted (the requested count, or one less than the recipe's own when
    none is given); every other slot and the three browsing collections are as
    before, the week's nutrition is recomputed and the plan is saved. *)
Theorem addRecipeToMealPlan_from_browse X ui opts dp r l st :
  wf_mealPlan (mealPlan st) ->
  dayOf (date ui) st = Some dp ->
  planContext opts = None ->
  getRecipe X opts st = Some r ->
  Recipe.ingredients r = Is l ->
  (operation ui = "replace" \/
   Forall (fun x => has_id X x = false) (meals_get (meal ui) (meals dp))) ->
  exists st' c, addRecipeToMealPlan X ui opts st = Some st' /\
    slotOf (date ui) (meal ui) st' =
      Some (keptInSlot (operation ui) (meals_get (meal ui) (meals dp)) ++ [c])%list /\
    Recipe.id c = X /\
    adjustedCopy (Recipe.deepCopy r) (numServings ui) c /\
    (forall wk' d' m', ~ (wk' = getMondayOfTheWeek (date ui) /\ d' = date ui /\ m' = meal ui) ->
       planSlot wk' d' m' (mealPlan st') = planSlot wk' d' m' (mealPlan st)) /\
    (forall d' dp', getMondayOfTheWeek d' = getMondayOfTheWeek (date ui) ->
       dayOf d' st' = Some dp' -> consistentDay dp') /\
    recipeBook st' = recipeBook st /\
    browseSearchResults st' = browseSearchResults st /\
    ingredientSearchResults st' = ingredientSearchResults st /\
    storedMealPlan st' = Some (deepCopy_mealPlan (mealPlan st')).
Proof. exact (addRecipeToMealPlan_from_browse_aux X ui opts dp r l st). Qed.

(** X16. A move between two different slots: the target slot gains one copy with
    the id behind the recipes it keeps (rescaled as in a plain addition, one
    serving less when no count is given), the source slot loses exactly its first
    recipe with the id, every other slot is as before, and the days of both
    weeks carry the nutrition computed from their slots. *)
Theorem addRecipeToMealPlan_move X ui d0 m0 dp dp0 l1 r l2 st :
  wf_mealPlan (mealPlan st) ->
  dayOf (date ui) st = Some dp ->
  dayOf d0 st = Some dp0 ->
  ~ (d0 = date ui /\ m0 = meal ui) ->
  meals_get m0 (meals dp0) = (l1 ++ r :: l2)%list ->
  Forall (fun x => has_id X x = false) l1 ->
  has_id X r = true ->
  (Recipe.origin r = customMealEntry \/ exists l, Recipe.ingredients r = Is l) ->
  (operation ui = "replace" \/
   Forall (fun x => has_id X x = false) (meals_get (meal ui) (meals dp))) ->
  exists st' c,
    addRecipeToMealPlan X ui
      {| source := "mealPlan"; currentDate := Some d0; currentMeal := Some m0 |} st = Some st' /\
    slotOf (date ui) (meal ui) st' =
      Some (keptInSlot (operation ui) (meals_get (meal ui) (meals dp)) ++ [c])%list /\
    Recipe.id c = X /\
    adjustedCopy (Recipe.deepCopy r) (numServings ui) c /\
    slotOf d0 m0 st' = Some (l1 ++ l2)%list /\
    (forall wk' d' m',
       ~ (wk' = getMondayOfTheWeek (date ui) /\ d' = date ui /\ m' = meal ui) ->
       ~ (wk' = getMondayOfTheWeek d0 /\ d' = d0 /\ m' = m0) ->
       planSlot wk' d' m' (mealPlan st') = planSlot wk' d' m' (mealPlan st)) /\
    (forall d' dp',
       getMondayOfTheWeek d' = getMondayOfTheWeek (date ui) \/
       getMondayOfTheWeek d' = getMondayOfTheWeek d0 ->
       dayOf d' st' = Some dp' -> consistentDay dp').
Proof.
  intros Hwf Hd Hd0 Hdiff Hslot0 Hl1 Hr Hshape Hfree.
  set (opts := {| source := "mealPlan"; currentDate := Some d0; currentMeal := Some m0 |}).
  assert (HX : Recipe.id r = X) by (by apply has_id_eq).
  assert (Hget : getRecipe X opts st = Some r).
  { rewrite (getRecipe_plan _ _ d0 m0) by done. rewrite (dayOf_slotOf _ _ dp0) by done.
    simpl. rewrite Hslot0. by apply find_app_first. }
  destruct (add_first_steps X ui dp r st Hd Hfree HX)
    as (Hslot2 & Hbase & Hwf2 & Hframe2 & _).
  set (st2 := modifySlot (date ui) (meal ui) (fun l => (l ++ [Recipe.deepCopy r])%list)
         (if String.eqb (operation ui) "replace"
          then modifySlot (date ui) (meal ui) (fun _ => []) st else st)) in *.
  destruct (adjust_appended_copy _ (Recipe.deepCopy r) (numServings ui) _ _ st2 Hslot2 Hbase)
    as (st3 & c & Hst3 & Hslot3 & Hid3 & Hadj & Hwf3 & Hframe3 & _).
  { destruct Hshape as [Ho|[l Hl]]; [by left|right].
    rewrite deepCopy_ingredients, Hl. by eexists. }
  set (st5 := saveMealPlan (recomputeWeek (getMondayOfTheWeek (date ui)) st3)).
  assert (Hwf5 : wf_mealPlan (mealPlan st5)) by (apply wf_recomputeWeek; auto).
  assert (Hframe5 : forall wk' d' m',
    ~ (wk' = getMondayOfTheWeek (date ui) /\ d' = date ui /\ m' = meal ui) ->
    planSlot wk' d' m' (mealPlan st5) = planSlot wk' d' m' (mealPlan st)).
  { intros wk' d' m' Hne. unfold st5. change (mealPlan (saveMealPlan ?s)) with (mealPlan s).
    by rewrite planSlot_recomputeWeek, Hframe3, Hframe2. }
  assert (Hslot5 : slotOf d0 m0 st5 = Some (l1 ++ r :: l2)%list).
  { rewrite slotOf_planSlot, Hframe5, <- slotOf_planSlot.
    - rewrite (dayOf_slotOf _ _ dp0) by done. by rewrite Hslot0.
    - intros (_ & ? & ?). by apply Hdiff. }
  destruct (slotOf_is_Some_dayOf _ _ _ _ Hslot5) as [dp5 Hdp5].
  assert (Hm5 : meals_get m0 (meals dp5) = (l1 ++ r :: l2)%list).
  { rewrite (dayOf_slotOf _ _ dp5) in Hslot5 by done. by injection Hslot5. }
  destruct (deleteRecipeFromMealPlan_present_aux X d0 m0 dp5 l1 r l2 st5 Hwf5 Hdp5 Hm5 Hl1 Hr)
    as (st' & Hdel & Hslot' & Hframe' & _).
  destruct (deleteRecipeFromMealPlan_nutrition_aux X d0 m0 dp5 st5 Hwf5 Hdp5)
    as (st'' & Hdel' & _ & Hcons & Hother).
  rewrite Hdel in Hdel'. injection Hdel' as <-.
  exists st', c. split.
  { rewrite (addRecipeToMealPlan_eq _ _ _ dp r) by done. cbv zeta.
    fold st2. rewrite Hst3. cbn [mbind option_bind].
    rewrite updateNutritionForWeek_wf by auto. cbn [mbind option_bind].
    cbn [source currentDate currentMeal opts].
    change (String.eqb "mealPlan" "mealPlan") with true. cbv iota. done. }
  split.
  { rewrite slotOf_planSlot, Hframe', <- slotOf_planSlot.
    - unfold st5. by rewrite slotOf_saveMealPlan, slotOf_recomputeWeek.
    - intros (_ & ? & ?). apply Hdiff. by split. }
  split; [by rewrite Hid3, deepCopy_id|]. split; [done|]. split; [done|].
  split.
  { intros wk' d' m' Hne1 Hne2. by rewrite Hframe', Hframe5. }
  intros d' dp' Hweek Hd'.
  destruct (decide (getMondayOfTheWeek d' = getMondayOfTheWeek d0)) as [Hsame|Hnot].
  - by eapply Hcons.
  - destruct Hweek as [Hweek|?]; [|done].
    rewrite Hother in Hd' by done. unfold st5 in Hd'.
    change (dayOf d' (saveMealPlan ?s)) with (dayOf d' s) in Hd'.
    by eapply recomputeWeek_consistent.
Qed.
End AddFacts.

Section PersistenceFacts.
Context `{JSConversions}.

Lemma Ingredients_deepCopy_idem (x : orStr (list Ingredient.t)) :
  orStr_map (List.map Ingredient.deepCopy) (orStr_map (List.map Ingredient.deepCopy) x) =
  orStr_map (List.map Ingredient.deepCopy) x.
Proof.
  destruct x as [l|s]; [|done]. simpl. f_equal. rewrite List.map_map.
  apply List.map_ext. intros i. apply Ingredient_deepCopy_idem.
Qed.

Lemma Recipe_deepCopy_idem r : Recipe.deepCopy (Recipe.deepCopy r) = Recipe.deepCopy r.
Proof.
  destruct r. unfold Recipe.deepCopy.
  cbn [Recipe.title Recipe.image Recipe.id Recipe.isBookmarked Recipe.mealType
       Recipe.dietaryRestrictions Recipe.prepTime Recipe.cuisine Recipe.calories
       Recipe.servings Recipe.ingredients Recipe.instructions Recipe.saturatedFat
       Recipe.sugar Recipe.fiber Recipe.sodium Recipe.cholesterol Recipe.iron Recipe.zinc
       Recipe.calcium Recipe.magnesium Recipe.protein Recipe.fats Recipe.carbs
       Recipe.percentProtein Recipe.percentFats Recipe.percentCarbs Recipe.percentDVProtein
       Recipe.percentDVFats Recipe.percentDVCarbs Recipe.numMissingIngredients Recipe.origin].
  by rewrite !json_val_idem, Ingredients_deepCopy_idem.
Qed.

Lemma map_deepCopy_idem l :
  List.map Recipe.deepCopy (List.map Recipe.deepCopy l) = List.map Recipe.deepCopy l.
Proof. rewrite List.map_map. apply List.map_ext. intros r. apply Recipe_deepCopy_idem. Qed.

Lemma deepCopy_day_idem dp : deepCopy_day (deepCopy_day dp) = deepCopy_day dp.
Proof.
  unfold deepCopy_day. cbn [meals nutrition Meals.breakfast Meals.lunch Meals.snacks
    Meals.dinner Nutrition.calories Nutrition.protein Nutrition.carbs Nutrition.fats].
  by rewrite !map_deepCopy_idem, !json_val_idem.
Qed.

(** X17. Saving the recipe book and restarting restores the copy of every recipe,
    ids and order included; saving again stores the same data and a second
    restart changes nothing. *)
Theorem saveRecipeBook_restart st :
  let restarted := initializeRecipeBook (saveRecipeBook st) in
  recipeBook restarted = List.map Recipe.deepCopy (recipeBook st) /\
  List.map Recipe.id (recipeBook restarted) = List.map Recipe.id (recipeBook st) /\
  storedRecipeBook (saveRecipeBook restarted) = storedRecipeBook (saveRecipeBook st) /\
  recipeBook (initializeRecipeBook (saveRecipeBook restarted)) = recipeBook restarted.
Proof.
  cbv zeta. unfold initializeRecipeBook, saveRecipeBook.
  cbn [recipeBook storedRecipeBook set_recipeBook set_storedRecipeBook].
  split; [done|]. split; [by rewrite List.map_map|].
  by rewrite map_deepCopy_idem.
Qed.

Lemma lookup_deepCopy_mealPlan (mp : MealPlan) wk :
  deepCopy_mealPlan mp !! wk = fmap (M := gmap Z) deepCopy_day <$> mp !! wk.
Proof. unfold deepCopy_mealPlan. by rewrite lookup_fmap. Qed.

(** X18. A restart after [saveMealPlan]: the weeks of the new range that were
    resident come back as their copies, the other weeks of the range are
    fresh, and nothing outside the range is restored. *)
Theorem saveMealPlan_restart today st wk :
  let restarted := initializeMealPlan today (set_mealPlan ∅ (saveMealPlan st)) in
  mealCalendarWeek restarted = getMondayOfTheWeek today /\
  (wk ∈ weeksAround today ->
     mealPlan restarted !! wk =
     Some (match mealPlan st !! wk with
           | Some w => fmap (M := gmap Z) deepCopy_day w
           | None => createWeeklyMealPlan wk
           end)) /\
  (wk ∉ weeksAround today -> mealPlan restarted !! wk = None).
Proof.
  cbv zeta. split; [done|]. rewrite lookup_initializeMealPlan.
  change (storedMealPlan (set_mealPlan ∅ (saveMealPlan st)))
    with (Some (deepCopy_mealPlan (mealPlan st))).
  change (mealPlan (set_mealPlan ∅ (saveMealPlan st))) with (∅ : MealPlan).
  split; intros Hin.
  - rewrite decide_True by done. rewrite lookup_deepCopy_mealPlan.
    by destruct (mealPlan st !! wk).
  - rewrite decide_False by done. apply lookup_empty.
Qed.

Lemma getRecipe_id X opts r st : getRecipe X opts st = Some r -> Recipe.id r = X.
Proof.
  intros Hr. apply has_id_eq.
  destruct (planContext opts) as [[d m]|] eqn:Hc.
  - rewrite (getRecipe_plan _ _ d m) in Hr by done.
    destruct (slotOf d m st); [|done]. simpl in Hr.
    by destruct (find_split _ _ _ Hr) as (? & ? & _ & _ & ?).
  - rewrite getRecipe_browse in Hr by done.
    destruct (getSourceArray (source opts) st); [|done]. simpl in Hr.
    by destruct (find_split _ _ _ Hr) as (? & ? & _ & _ & ?).
Qed.

(** X19. Adding to the recipe book a recipe whose id the book does not hold, then
    removing that id, gives back the initial book, in the state and in
    storage; the meal plan is untouched. *)
Theorem recipeBook_add_then_remove X opts r st :
  getRecipe X opts st = Some r ->
  Forall (fun c => has_id X c = false) (recipeBook st) ->
  exists st1, addRecipeToRecipeBookById X opts st = Some st1 /\
    recipeBook st1 = (recipeBook st ++ [Recipe.deepCopy r])%list /\
    storedRecipeBook st1 = Some (List.map Recipe.deepCopy (recipeBook st1)) /\
    recipeBook (removeRecipeFromBook X st1) = recipeBook st /\
    storedRecipeBook (removeRecipeFromBook X st1) =
      Some (List.map Recipe.deepCopy (recipeBook st)) /\
    mealPlan (removeRecipeFromBook X st1) = mealPlan st.
Proof.
  intros Hr Habsent. pose proof (getRecipe_id _ _ _ _ Hr) as HX.
  eexists. split; [unfold addRecipeToRecipeBookById; by rewrite Hr|].
  split; [done|]. split; [done|].
  assert (Hrm : splice (findIndex (has_id X) (recipeBook st ++ [Recipe.deepCopy r])) 1
            (recipeBook st ++ [Recipe.deepCopy r]) = recipeBook st).
  { rewrite findIndex_at, splice_at, app_nil_r; [done..|].
    apply has_id_eq. by rewrite deepCopy_id. }
  unfold removeRecipeFromBook, saveRecipeBook.
  cbn [recipeBook storedRecipeBook mealPlan set_recipeBook set_storedRecipeBook].
  by rewrite Hrm.
Qed.

(** X20. [removeRecipeFromBook] on a book that holds the id removes exactly the
    first recipe with that id and stores the remaining book; the plan and the
    search results are as before. *)
Theorem removeRecipeFromBook_present X l1 r l2 st :
  recipeBook st = (l1 ++ r :: l2)%list ->
  Forall (fun c => has_id X c = false) l1 ->
  has_id X r = true ->
  recipeBook (removeRecipeFromBook X st) = (l1 ++ l2)%list /\
  storedRecipeBook (removeRecipeFromBook X st) = Some (List.map Recipe.deepCopy (l1 ++ l2)) /\
  mealPlan (removeRecipeFromBook X st) = mealPlan st /\
  browseSearchResults (removeRecipeFromBook X st) = browseSearchResults st /\
  ingredientSearchResults (removeRecipeFromBook X st) = ingredientSearchResults st.
Proof.
  intros Hbook Hl1 Hr. unfold removeRecipeFromBook, saveRecipeBook.
  cbn [recipeBook storedRecipeBook mealPlan browseSearchResults ingredientSearchResults
       set_recipeBook set_storedRecipeBook].
  by rewrite Hbook, findIndex_at, splice_at.
Qed.
End PersistenceFacts.

Section ServingsFacts.
Context `{JSConversions}.

Lemma percentDVProtein_set k v r :
  Recipe.percentDVProtein (Recipe.set k v r) = Recipe.percentDVProtein r.
Proof. unfold_set. Qed.
Lemma percentDVFats_set k v r :
  Recipe.percentDVFats (Recipe.set k v r) = Recipe.percentDVFats r.
Proof. unfold_set. Qed.
Lemma percentDVCarbs_set k v r :
  Recipe.percentDVCarbs (Recipe.set k v r) = Recipe.percentDVCarbs r.
Proof. unfold_set. Qed.

Lemma percentDV_updateProperties c u :
  Recipe.percentDVProtein (updateProperties c u) = Recipe.percentDVProtein c /\
  Recipe.percentDVFats (updateProperties c u) = Recipe.percentDVFats c /\
  Recipe.percentDVCarbs (updateProperties c u) = Recipe.percentDVCarbs c.
Proof.
  split; [|split].
  - by rewrite (updateProperties_proj Recipe.percentDVProtein) by apply percentDVProtein_set.
  - by rewrite (updateProperties_proj Recipe.percentDVFats) by apply percentDVFats_set.
  - by rewrite (updateProperties_proj Recipe.percentDVCarbs) by apply percentDVCarbs_set.
Qed.

Lemma protein_outer v r :
  Recipe.protein (Recipe.set_servings v (updatePercentDV r)) = Recipe.protein r.
Proof. reflexivity. Qed.

Lemma percentDVProtein_outer v r :
  Recipe.percentDVProtein (Recipe.set_servings v (updatePercentDV r)) =
  js_mul (js_div (Recipe.protein r) RECOMMENDED_PROTEIN_DV) (num_lit 100).
Proof. reflexivity. Qed.

(** The adjusted instance gets its daily-value percentage recomputed from
    its new protein amount. *)
Lemma rescale_percentDVProtein r u r' :
  rescale r u = Some r' ->
  Recipe.percentDVProtein r' =
  js_mul (js_div (Recipe.protein r') RECOMMENDED_PROTEIN_DV) (num_lit 100).
Proof.
  destruct (Recipe.ingredients r) as [l|s] eqn:Hi; [|by rewrite (rescale_None _ _ s)].
  rewrite (rescale_eq _ _ l) by done. intros [= <-].
  by rewrite percentDVProtein_outer, protein_outer.
Qed.

Lemma Forall2_update_matching X (f : Recipe.t -> Recipe.t) (P : Recipe.t -> Recipe.t -> Prop) l :
  (forall c, has_id X c = true -> P c (f c)) -> (forall c, has_id X c = false -> P c c) ->
  Forall2 P l (update_matching X f l).
Proof.
  intros Hf Hid. unfold update_matching. induction l as [|c l IH]; simpl; [constructor|].
  constructor; [|done]. destruct (has_id X c) eqn:Hc; auto.
Qed.

(** X21. An accepted adjustment from a browsing source other than the recipe book:
    the adjusted instance has its daily-value percentage recomputed from its
    new protein amount, and every entry of the recipe book keeps its three
    daily-value percentages, although the entries with the id receive the new
    servings and the thirteen nutrient values. *)
Theorem adjustServings_percentDV_not_synchronized X operation opts newServings r l st :
  planContext opts = None ->
  source opts <> "recipeBook" ->
  getRecipe X opts st = Some r ->
  Recipe.ingredients r = Is l ->
  isValidServings (calculateUpdatedServings (Recipe.servings r) operation newServings) = true ->
  exists st' r',
    adjustServings X operation opts newServings st = Some st' /\
    rescale r (calculateUpdatedServings (Recipe.servings r) operation newServings) = Some r' /\
    Recipe.percentDVProtein r' =
      js_mul (js_div (Recipe.protein r') RECOMMENDED_PROTEIN_DV) (num_lit 100) /\
    Forall2 (fun c0 c =>
      Recipe.percentDVProtein c = Recipe.percentDVProtein c0 /\
      Recipe.percentDVFats c = Recipe.percentDVFats c0 /\
      Recipe.percentDVCarbs c = Recipe.percentDVCarbs c0 /\
      (has_id X c0 = true ->
         Recipe.servings c = Recipe.servings r' /\
         forall k, In k RECIPE_NUTRIENTS -> Recipe.get k c = Recipe.get k r'))
      (recipeBook st) (recipeBook st').
Proof.
  intros Hctx Hsrc Hr Hl Hv.
  set (u := calculateUpdatedServings (Recipe.servings r) operation newServings) in *.
  destruct (rescale_Some r u l Hl) as (r' & Hs & Hid & _).
  pose proof (getRecipe_id _ _ _ _ Hr) as HX.
  eexists _, r'. split; [by eapply adjustServings_browse|]. split; [done|].
  split; [by eapply rescale_percentDVProtein|].
  assert (Hbook : recipeBook (synchronizeRecipeInstances r'
            (modifySourceArray (source opts) (replace_first (has_id X) r') st)) =
          update_matching X (fun recipe => updateProperties recipe r') (recipeBook st)).
  { unfold synchronizeRecipeInstances. cbn [recipeBook set_recipeBook].
    change (recipeBook (set_browseSearchResults ?a ?s)) with (recipeBook s).
    change (recipeBook (set_ingredientSearchResults ?a ?s)) with (recipeBook s).
    rewrite recipeBook_modifySourceArray.
    destruct (String.eqb_spec (source opts) "recipeBook"); [done|].
    by rewrite Hid, HX. }
  rewrite Hbook. apply Forall2_update_matching.
  - intros c Hc. destruct (percentDV_updateProperties c r') as (-> & -> & ->).
    do 3 (split; [done|]). intros _. split.
    + by rewrite (updateProperties_proj Recipe.servings) by apply servings_set.
    + intros k Hk. by apply get_updateProperties.
  - intros c Hc. do 3 (split; [done|]). by rewrite Hc.
Qed.
End ServingsFacts.

Section AvailabilityFacts.
Context `{JSConversions} `{Environment}.

Lemma find_cases {A} (p : A -> bool) l :
  (exists x, List.find p l = Some x /\ In x l /\ p x = true /\ existsb p l = true) \/
  (List.find p l = None /\ existsb p l = false).
Proof.
  induction l as [|y l IH]; simpl; [by right|].
  destruct (p y) eqn:Hy.
  - left. exists y. split; [done|]. split; [by left|]. by split.
  - destruct IH as [(x & Hx & Hin & Hp & He)|[Hn He]].
    + left. exists x. split; [done|]. split; [by right|]. by split.
    + by right.
Qed.

Lemma existsb_orb {A} (f g : A -> bool) l :
  existsb (fun x => f x || g x) l = existsb f l || existsb g l.
Proof.
  induction l as [|x l IH]; simpl; [done|]. rewrite IH.
  destruct (f x), (g x), (existsb f l), (existsb g l); done.
Qed.

Lemma existsb_incl {A} (f : A -> bool) l l' :
  (forall x, In x l -> In x l') -> existsb f l = true -> existsb f l' = true.
Proof.
  intros Hincl Hl. apply existsb_exists in Hl as (x & Hin & Hx).
  apply existsb_exists. exists x. auto.
Qed.

Lemma In_nonempty (l : list string) x :
  Forall (fun p => p <> "") l -> In x l -> truthy_string x = true.
Proof.
  intros Hall Hin. rewrite List.Forall_forall in Hall. by apply truthy_string_true, Hall.
Qed.

Lemma COMMON_PANTRY_ITEMS_nonempty : Forall (fun p => p <> "") COMMON_PANTRY_ITEMS.
Proof. unfold COMMON_PANTRY_ITEMS. by repeat constructor. Qed.

Lemma firstSynonymGroup_nonempty : Forall (fun p => p <> "") firstSynonymGroup.
Proof. unfold firstSynonymGroup, INGREDIENT_SYNONYMS. by repeat constructor. Qed.

Lemma checkHouseholdItem_state ingredient :
  availabilityState <$> checkHouseholdItem ingredient =
  if existsb (String.eqb ingredient) COMMON_PANTRY_ITEMS then Some householdItem else None.
Proof.
  unfold checkHouseholdItem.
  change (fun commonItem : string => String.eqb ingredient commonItem)
    with (String.eqb ingredient).
  destruct (find_cases (String.eqb ingredient) COMMON_PANTRY_ITEMS)
    as [(x & -> & Hin & _ & ->)|[-> ->]]; [|done].
  by rewrite (In_nonempty _ _ COMMON_PANTRY_ITEMS_nonempty Hin).
Qed.

Lemma checkExactMatch_state ingredient st :
  availabilityState <$> checkExactMatch ingredient st =
  if existsb (fun pantryItem => String.eqb pantryItem ingredient) (pantry st)
  then Some definitelyAvailable else None.
Proof. unfold checkExactMatch. by destruct (existsb _ _). Qed.

Lemma checkPartialMatch_state ingredient st :
  Forall (fun p => p <> "") (pantry st) ->
  availabilityState <$> checkPartialMatch ingredient st =
  if existsb (fun pantryItem => includes pantryItem ingredient || includes ingredient pantryItem)
       (pantry st)
  then Some potentiallyAvailable else None.
Proof.
  intros Hne. unfold checkPartialMatch. rewrite existsb_orb.
  destruct (find_cases (fun pantryItem => includes pantryItem ingredient) (pantry st))
    as [(x & -> & Hin & _ & ->)|[-> ->]].
  - cbn [or_found orb]. by rewrite !(In_nonempty _ _ Hne Hin).
  - cbn [or_found orb].
    change (fun pantryItem : string => includes ingredient pantryItem)
      with (includes ingredient).
    destruct (find_cases (includes ingredient) (pantry st))
      as [(y & -> & Hin & _ & ->)|[-> ->]]; [|done].
    by rewrite (In_nonempty _ _ Hne Hin).
Qed.

Lemma checkSynonymMatch_state ingredient :
  availabilityState <$> checkSynonymMatch ingredient =
  if existsb (includes ingredient) firstSynonymGroup then Some potentiallyAvailable else None.
Proof.
  assert (Heq : checkSynonymMatch ingredient =
    match List.find (includes ingredient) firstSynonymGroup with
    | Some found =>
        if truthy_string found
        then Some {| availabilityState := potentiallyAvailable;
                     matchingPantryIngredient := Some "cheese" |}
        else None
    | None => None
    end) by reflexivity.
  rewrite Heq.
  destruct (find_cases (includes ingredient) firstSynonymGroup)
    as [(x & -> & Hin & _ & ->)|[-> ->]]; [|done].
  by rewrite (In_nonempty _ _ firstSynonymGroup_nonempty Hin).
Qed.

Lemma getIngredientAvailability_rules_aux apiIngredientName st :
  Forall (fun p => p <> "") (pantry st) ->
  availabilityState (getIngredientAvailability apiIngredientName st) =
  (let ingredient := normalizeIngredient apiIngredientName in
   if existsb (String.eqb ingredient) COMMON_PANTRY_ITEMS then householdItem
   else if existsb (fun pantryItem => String.eqb pantryItem ingredient) (pantry st)
        then definitelyAvailable
   else if existsb (fun pantryItem =>
             includes pantryItem ingredient || includes ingredient pantryItem) (pantry st)
        then potentiallyAvailable
   else if existsb (includes ingredient) firstSynonymGroup then potentiallyAvailable
   else unavailable).
Proof.
  intros Hne. cbv zeta. unfold getIngredientAvailability.
  set (ingredient := normalizeIngredient apiIngredientName).
  pose proof (checkHouseholdItem_state ingredient) as H1.
  pose proof (checkExactMatch_state ingredient st) as H2.
  pose proof (checkPartialMatch_state ingredient st Hne) as H3.
  pose proof (checkSynonymMatch_state ingredient) as H4.
  destruct (checkHouseholdItem ingredient) as [a1|];
    destruct (existsb (String.eqb ingredient) COMMON_PANTRY_ITEMS); simpl in H1; try done;
    [by injection H1|].
  destruct (checkExactMatch ingredient st) as [a2|];
    destruct (existsb (fun pantryItem => String.eqb pantryItem ingredient) (pantry st));
    simpl in H2; try done; [by injection H2|].
  destruct (checkPartialMatch ingredient st) as [a3|];
    destruct (existsb (fun pantryItem =>
                includes pantryItem ingredient || includes ingredient pantryItem) (pantry st));
    simpl in H3; try done; [by injection H3|].
  destruct (checkSynonymMatch ingredient) as [a4|];
    destruct (existsb (includes ingredient) firstSynonymGroup);
    simpl in H4; try done. by injection H4.
Qed.

(** X22. With no empty entry in the pantry, the availability state is decided,
    first match winning, by: the normalized name is a common pantry item; it
    equals a pantry entry; it contains or is contained in a pantry entry; it
    contains a synonym of the first synonym group, whatever the pantry holds;
    otherwise the ingredient is unavailable. *)
Theorem getIngredientAvailability_rules apiIngredientName st :
  Forall (fun p => p <> "") (pantry st) ->
  availabilityState (getIngredientAvailability apiIngredientName st) =
  (let ingredient := normalizeIngredient apiIngredientName in
   if existsb (String.eqb ingredient) COMMON_PANTRY_ITEMS then householdItem
   else if existsb (fun pantryItem => String.eqb pantryItem ingredient) (pantry st)
        then definitelyAvailable
   else if existsb (fun pantryItem =>
             includes pantryItem ingredient || includes ingredient pantryItem) (pantry st)
        then potentiallyAvailable
   else if existsb (includes ingredient) firstSynonymGroup then potentiallyAvailable
   else unavailable).
Proof. exact (getIngredientAvailability_rules_aux apiIngredientName st). Qed.

Lemma filter_length_le {A} (f g : A -> bool) l :
  (forall x, f x = true -> g x = true) ->
  (length (List.filter f l) <= length (List.filter g l))%nat.
Proof.
  intros Hfg. induction l as [|x l IH]; simpl; [done|].
  destruct (f x) eqn:Hf.
  - rewrite (Hfg x Hf). simpl. lia.
  - destruct (g x); simpl; lia.
Qed.

(** X23. A larger pantry never makes more ingredients of a recipe count as
    missing, and the count never exceeds the number of ingredients. *)
Theorem calculateMissingIngredients_monotone ingredients st st' :
  Forall (fun p => p <> "") (pantry st) ->
  Forall (fun p => p <> "") (pantry st') ->
  (forall p, In p (pantry st) -> In p (pantry st')) ->
  (calculateMissingIngredients ingredients st' <= calculateMissingIngredients ingredients st)%nat /\
  (calculateMissingIngredients ingredients st <= length ingredients)%nat.
Proof.
  intros Hne Hne' Hincl. split.
  - unfold calculateMissingIngredients. apply filter_length_le. intros ing.
    rewrite !getIngredientAvailability_rules_aux by done. cbv zeta.
    set (ingredient := normalizeIngredient (Ingredient.name ing)).
    destruct (existsb (String.eqb ingredient) COMMON_PANTRY_ITEMS); [done|].
    destruct (existsb (fun pantryItem => String.eqb pantryItem ingredient) (pantry st)) eqn:He.
    { by rewrite (existsb_incl _ _ _ Hincl He). }
    destruct (existsb (fun pantryItem =>
                includes pantryItem ingredient || includes ingredient pantryItem) (pantry st))
      eqn:Hp.
    { rewrite (existsb_incl _ _ _ Hincl Hp).
      by destruct (existsb (fun pantryItem => String.eqb pantryItem ingredient) (pantry st')). }
    destruct (existsb (includes ingredient) firstSynonymGroup); [|done].
    destruct (existsb (fun pantryItem => String.eqb pantryItem ingredient) (pantry st')); [done|].
    by destruct (existsb _ (pantry st')).
  - unfold calculateMissingIngredients. apply List.filter_length_le.
Qed.
End AvailabilityFacts.

Section RetrievalFacts.
Context `{JSConversions} `{Environment}.

Lemma sortsAfter_cases a b :
  missingAtMost a a -> missingAtMost b b ->
  if sortsAfter a b then missingAtMost b a else missingAtMost a b.
Proof.
  intros (x & _ & Hx & _ & _) (y & _ & Hy & _ & _).
  unfold sortsAfter, missingAtMost. rewrite Hx, Hy.
  cbn [js_sub to_number num_sub num_neg num_add num_ltb]. unfold Qlt_bool.
  destruct (Qle_bool (x + - y) 0) eqn:Hle; cbn [negb].
  - exists x, y. split; [done|]. split; [done|].
    apply Qle_bool_iff in Hle. lra.
  - exists y, x. split; [done|]. split; [done|].
    destruct (Qlt_le_dec 0 (x + - y)) as [Hlt|Hge]; [lra|].
    apply Qle_bool_iff in Hge. congruence.
Qed.

Lemma missingAtMost_trans a b c : missingAtMost a b -> missingAtMost b c -> missingAtMost a c.
Proof.
  intros (x & y & Hx & Hy & Hxy) (y' & z & Hy' & Hz & Hyz).
  rewrite Hy in Hy'. injection Hy' as <-.
  exists x, z. split; [done|]. split; [done|]. by eapply Qle_trans.
Qed.

Lemma insertSorted_sorted x l :
  missingAtMost x x -> Forall (fun r => missingAtMost r r) l ->
  StronglySorted missingAtMost l -> StronglySorted missingAtMost (insertSorted x l).
Proof.
  intros Hx Hfin Hs. induction Hs as [|y l Hs IH Hall]; simpl.
  - by repeat constructor.
  - apply Forall_cons in Hfin as [Hy Hfin].
    pose proof (sortsAfter_cases x y Hx Hy) as Hc.
    destruct (sortsAfter x y).
    + constructor; [by apply IH|].
      rewrite insertSorted_Permutation. by constructor.
    + constructor; [by constructor|]. constructor; [done|].
      eapply Forall_impl; [exact Hall|]. intros z Hz. by eapply missingAtMost_trans.
Qed.

Lemma sortByMissing_sorted l :
  Forall (fun r => missingAtMost r r) l -> StronglySorted missingAtMost (sortByMissing l).
Proof.
  induction 1 as [|x l Hx Hl IH]; simpl; [constructor|].
  apply insertSorted_sorted; [done| |done].
  by rewrite sortByMissing_Permutation.
Qed.

(** X24. In ingredient-search mode, with finite counts of missing ingredients,
    [populateSearchResults] leaves the results in ascending order of that
    count, a permutation of the previous results and the new recipe; the
    browse results and the recipe book are as before. *)
Theorem populateSearchResults_sorted recipeObj st :
  Forall (fun r => missingAtMost r r) (ingredientSearchResults st ++ [recipeObj])%list ->
  let st' := populateSearchResults recipeObj "ingredientSearch" st in
  StronglySorted missingAtMost (ingredientSearchResults st') /\
  ingredientSearchResults st' ≡ₚ (ingredientSearchResults st ++ [recipeObj])%list /\
  browseSearchResults st' = browseSearchResults st /\
  recipeBook st' = recipeBook st.
Proof.
  intros Hfin st'. split; [|split; [|done]].
  - by apply sortByMissing_sorted.
  - apply sortByMissing_Permutation.
Qed.

(** X25. For a recipe that is in the recipe book the provider's answer is only
    read for its id: the object is the copy of the entry of the book, servings
    and nutrient values included, with the availability of its ingredients
    recomputed. *)
Theorem getOrCreateRecipeObject_prefers_book raw raw' mode X existing l st :
  RawRecipe.id raw = Some X ->
  RawRecipe.id raw' = Some X ->
  List.find (has_id X) (recipeBook st) = Some existing ->
  Recipe.ingredients existing = Is l ->
  exists obj,
    getOrCreateRecipeObject raw mode st = Some obj /\
    getOrCreateRecipeObject raw' mode st = Some obj /\
    Recipe.id obj = X /\
    Recipe.isBookmarked obj = Recipe.isBookmarked existing /\
    Recipe.servings obj = json_val (Recipe.servings existing) /\
    (forall k, In k RECIPE_NUTRIENTS -> Recipe.get k obj = json_val (Recipe.get k existing)) /\
    Recipe.ingredients obj =
      Is (List.map (fun ing =>
            Ingredient.set_availability (getIngredientAvailability (Ingredient.name ing) st)
              (Ingredient.deepCopy ing)) l).
Proof.
  intros Hid Hid' Hfind Hl.
  assert (HX : Recipe.id existing = X).
  { apply has_id_eq. by destruct (find_split _ _ _ Hfind) as (? & ? & _ & _ & ?). }
  unfold getOrCreateRecipeObject. rewrite Hid, Hid', Hfind, deepCopy_ingredients, Hl.
  cbn [orStr_map]. eexists. split; [done|]. split; [done|].
  rewrite List.map_map.
  destruct (String.eqb mode "ingredientSearch").
  - split; [done|]. split; [done|]. split; [done|]. split; [|done].
    intros k Hk. simpl in Hk.
    repeat (destruct Hk as [<-|Hk]; [reflexivity|]). done.
  - split; [done|]. split; [done|]. split; [done|]. split; [|done].
    intros k Hk. simpl in Hk.
    repeat (destruct Hk as [<-|Hk]; [reflexivity|]). done.
Qed.

Lemma getNutrientValue_cases recipe n nutrients nutrientName :
  RawRecipe.nutrition recipe = Some n -> RawNutrition.nutrients n = Some nutrients ->
  exists v, getNutrientValue recipe nutrientName = Some v /\
    ((exists q, v = VNum (Fin q)) \/ v = VStr "-").
Proof.
  intros Hn Hns. rewrite (getNutrientValue_Some _ _ _ _ Hn Hns).
  eexists. split; [done|].
  destruct (Number_isFinite _) eqn:Hf; [|by right].
  left. by apply Number_isFinite_true.
Qed.

Lemma getNutrientValue_finite recipe n nutrients nutrientName :
  RawRecipe.nutrition recipe = Some n -> RawNutrition.nutrients n = Some nutrients ->
  finiteNutrient nutrients nutrientName ->
  exists q, getNutrientValue recipe nutrientName = Some (VNum (Fin q)).
Proof.
  intros Hn Hns Hfin. rewrite (getNutrientValue_Some _ _ _ _ Hn Hns).
  apply nutrientAmount_finite in Hfin. rewrite Hfin.
  apply Number_isFinite_true in Hfin as [q ->]. by exists q.
Qed.

Lemma existsb_has_id X (book : list Recipe.t) :
  existsb (Z.eqb X) (List.map Recipe.id book) = existsb (has_id X) book.
Proof.
  induction book as [|r book IH]; simpl; [done|].
  rewrite IH. unfold has_id. by rewrite (Z.eqb_sym X).
Qed.

(** X26. For a raw recipe that passes [isValidRecipe], [createRecipeObject] returns
    exactly when the dish types, the cuisines and every ingredient's US measure
    and name are present, and raises otherwise. The object it returns has the
    id, origin [app], the bookmark flag of the recipe book, a finite serving
    count, an ingredient list and finite protein, fats and carbs; its calories
    are a finite number or the sentinel "-". *)
Theorem createRecipeObject_accepted recipe mode st :
  isValidRecipe recipe = Some true ->
  (is_Some (createRecipeObject recipe mode st) <-> completeShape recipe) /\
  forall obj, createRecipeObject recipe mode st = Some obj ->
    RawRecipe.id recipe = Some (Recipe.id obj) /\
    Recipe.origin obj = app /\
    Recipe.isBookmarked obj = existsb (has_id (Recipe.id obj)) (recipeBook st) /\
    (exists q, Recipe.servings obj = VNum (Fin q)) /\
    (exists l, Recipe.ingredients obj = Is l) /\
    (exists p f c, Recipe.protein obj = VNum (Fin p) /\ Recipe.fats obj = VNum (Fin f) /\
       Recipe.carbs obj = VNum (Fin c)) /\
    ((exists q, Recipe.calories obj = VNum (Fin q)) \/ Recipe.calories obj = VStr "-").
Proof.
  intros Hv. apply isValidRecipe_accepted in Hv.
  destruct Hv as ((title & Ht & _) & [X HX] & [q Hq] & _ & [ings Hings] &
                  n & nutrients & breakdown & Hn & Hns & Hp & Hf & Hc & Hbd & _).
  destruct (getNutrientValue_finite recipe n nutrients "Protein" Hn Hns Hp) as [p Hpv].
  destruct (getNutrientValue_finite recipe n nutrients "Fat" Hn Hns Hf) as [f Hfv].
  destruct (getNutrientValue_finite recipe n nutrients "Carbohydrates" Hn Hns Hc) as [c Hcv].
  destruct (getNutrientValue_cases recipe n nutrients "Calories" Hn Hns) as (cal & Hcal & Hcalv).
  unfold createRecipeObject.
  rewrite HX, Hings, Ht, Hpv, Hfv, Hcv, Hcal.
  rewrite !(getNutrientValue_Some recipe n nutrients _ Hn Hns), Hn.
  cbn [mbind option_bind]. rewrite Hbd. cbn [mbind option_bind].
  match goal with |- context [mapM ?F ings] => set (toIngredient := F) end.
  assert (HF : forall ing, is_Some (toIngredient ing) <->
            is_Some (RawIngredient.measures_us ing) /\ is_Some (RawIngredient.name ing)).
  { intros ing. unfold toIngredient.
    destruct (RawIngredient.measures_us ing) as [us|], (RawIngredient.name ing) as [nm|];
      cbn [mbind option_bind].
    - split; [intros _; split; by eexists|intros _; by eexists].
    - split; [by intros [? ?]|by intros [_ [? ?]]].
    - split; [by intros [? ?]|by intros [[? ?] _]].
    - split; [by intros [? ?]|by intros [[? ?] _]]. }
  assert (Hmap : is_Some (mapM toIngredient ings) <->
            Forall (fun ing => is_Some (RawIngredient.measures_us ing) /\
                               is_Some (RawIngredient.name ing)) ings).
  { rewrite mapM_is_Some. apply Forall_proper; [|done]. intros ing. apply HF. }
  split.
  - unfold completeShape. rewrite Hings.
    destruct (RawRecipe.dishTypes recipe) as [dishTypes|];
      [|split; [destruct (mapM toIngredient ings); by intros [? ?]|by intros ([? ?] & _)]].
    destruct (RawRecipe.cuisines recipe) as [cuisines|];
      [|split; [destruct (mapM toIngredient ings); by intros [? ?]|by intros (_ & [? ?] & _)]].
    destruct (mapM toIngredient ings) as [ingredients|]; cbn [mbind option_bind]; split.
    + intros _. split; [by eexists|]. split; [by eexists|].
      intros ingredients' [= <-]. apply Hmap. by eexists.
    + intros _. by eexists.
    + by intros [? ?].
    + intros (_ & _ & Hall). specialize (Hall ings eq_refl). apply Hmap in Hall.
      by destruct Hall.
  - intros obj.
    destruct (mapM toIngredient ings) as [ingredients|]; [|done].
    destruct (RawRecipe.dishTypes recipe) as [dishTypes|]; [|done].
    destruct (RawRecipe.cuisines recipe) as [cuisines|]; [|done].
    cbn [mbind option_bind]. intros [= <-].
    cbn [Recipe.id Recipe.origin Recipe.isBookmarked Recipe.servings Recipe.ingredients
         Recipe.protein Recipe.fats Recipe.carbs Recipe.calories].
    split; [done|]. split; [done|]. split; [apply existsb_has_id|].
    split; [by exists q|]. split; [by eexists|]. split; [by exists p, f, c|].
    destruct Hcalv as [[qc ->]| ->]; [left; by exists qc|by right].
Qed.
End RetrievalFacts.

Section ControllerFacts.
Context `{JSConversions}.

Lemma planContext_generateOptionsObject opts :
  planContext (generateOptionsObject (source opts) (currentDate opts) (currentMeal opts)) =
  planContext opts.
Proof.
  unfold generateOptionsObject, planContext.
  destruct (currentDate opts) as [d|], (currentMeal opts) as [m|]; cbn [currentDate currentMeal source]; try done.
  destruct (String.eqb (source opts) "mealPlan") eqn:Hs; cbn [currentDate currentMeal source]; by rewrite ?Hs.
Qed.

Lemma source_generateOptionsObject src d m : source (generateOptionsObject src d m) = src.
Proof.
  unfold generateOptionsObject. destruct d, m; try done. by destruct (String.eqb src "mealPlan").
Qed.

Lemma getRecipe_planContext X opts opts' st :
  planContext opts' = planContext opts -> source opts' = source opts ->
  getRecipe X opts' st = getRecipe X opts st.
Proof.
  intros Hc Hs. destruct (planContext opts) as [[d m]|] eqn:Hctx.
  - by rewrite (getRecipe_plan _ opts' d m), (getRecipe_plan _ opts d m).
  - by rewrite !getRecipe_browse, Hs.
Qed.

Lemma putRecipe_planContext X opts opts' r st :
  planContext opts' = planContext opts -> source opts' = source opts ->
  putRecipe X opts' r st = putRecipe X opts r st.
Proof.
  intros Hc Hs. destruct (planContext opts) as [[d m]|] eqn:Hctx.
  - by rewrite (putRecipe_plan _ opts' d m), (putRecipe_plan _ opts d m).
  - by rewrite !putRecipe_browse, Hs.
Qed.

(** The options object that the controllers build is read by the model
    exactly as the raw triple would be. *)
Lemma generateOptionsObject_transparent_aux X operation newServings ui opts st :
  let options := generateOptionsObject (source opts) (currentDate opts) (currentMeal opts) in
  getRecipe X options st = getRecipe X opts st /\
  adjustServings X operation options newServings st =
    adjustServings X operation opts newServings st /\
  addRecipeToMealPlan X ui options st = addRecipeToMealPlan X ui opts st /\
  generateOptionsObject (source options) (currentDate options) (currentMeal options) = options.
Proof.
  intros options.
  pose proof (planContext_generateOptionsObject opts) as Hc. fold options in Hc.
  pose proof (source_generateOptionsObject (source opts) (currentDate opts) (currentMeal opts))
    as Hs. fold options in Hs.
  assert (Hget : getRecipe X options st = getRecipe X opts st)
    by (by apply getRecipe_planContext).
  split; [done|]. split; [|split].
  - unfold adjustServings. rewrite Hget, Hs.
    destruct (getRecipe X opts st) as [r|]; [|done]. cbn [mbind option_bind].
    destruct (negb _); [done|].
    destruct (rescale r _) as [r'|]; [|done]. cbn [mbind option_bind].
    by rewrite (putRecipe_planContext _ opts options).
  - unfold addRecipeToMealPlan. rewrite Hget, Hs.
    destruct (getDayMealPlan (date ui) st) as [[wk dp]|]; [|done]. cbn [mbind option_bind].
    destruct (getRecipe X opts st) as [r|]; [|done]. cbn [mbind option_bind].
    destruct (match Recipe.origin (Recipe.deepCopy r) with
              | customMealEntry => _ | _ => _ end) as [st3|]; [|done].
    cbn [mbind option_bind].
    destruct (updateNutritionForWeek wk st3) as [st4|]; [|done]. cbn [mbind option_bind].
    destruct (String.eqb (source opts) "mealPlan") eqn:Hsrc; [|done].
    unfold options, generateOptionsObject. rewrite Hsrc.
    by destruct (currentDate opts), (currentMeal opts).
  - unfold options, generateOptionsObject.
    destruct (currentDate opts) as [d|], (currentMeal opts) as [m|]; try done.
    destruct (String.eqb (source opts) "mealPlan") eqn:Hsrc;
      cbn [source currentDate currentMeal]; by rewrite ?Hsrc.
Qed.

(** X27. The options object that the controllers build is read by [getRecipe],
    [adjustServings] and [addRecipeToMealPlan] exactly as the raw triple would
    be, and building it again from its own fields changes nothing. *)
Theorem generateOptionsObject_transparent X operation newServings ui opts st :
  let options := generateOptionsObject (source opts) (currentDate opts) (currentMeal opts) in
  getRecipe X options st = getRecipe X opts st /\
  adjustServings X operation options newServings st =
    adjustServings X operation opts newServings st /\
  addRecipeToMealPlan X ui options st = addRecipeToMealPlan X ui opts st /\
  generateOptionsObject (source options) (currentDate options) (currentMeal options) = options.
Proof. exact (generateOptionsObject_transparent_aux X operation newServings ui opts st). Qed.

Lemma existsb_ids X l :
  existsb (Z.eqb X) (List.map Recipe.id l) = false ->
  Forall (fun x => has_id X x = false) l.
Proof.
  induction l as [|r l IH]; simpl; [constructor|].
  intros Hor. apply orb_false_iff in Hor as [Hr Hl].
  constructor; [|by apply IH]. unfold has_id. by rewrite Z.eqb_sym.
Qed.

Lemma controlAddRecipeToPlan_spec_aux X ui opts l st :
  slotOf (date ui) (meal ui) st = Some l ->
  controlAddRecipeToPlan X ui opts st =
  if existsb (Z.eqb X) (List.map Recipe.id l) && negb (String.eqb (operation ui) "replace")
  then Some (MealExistsErrorRendered, st)
  else (fun st' => (RecipeAdded, st')) <$> addRecipeToMealPlan X ui opts st.
Proof.
  intros Hslot. unfold controlAddRecipeToPlan, isRecipeAlreadyInMealSlot.
  rewrite mealsInMealSlot_slotOf, Hslot. cbn [fmap option_fmap option_map mbind option_bind].
  destruct (existsb _ _ && negb _); [done|].
  destruct (generateOptionsObject_transparent_aux X None None ui opts st) as (_ & _ & -> & _).
  by destruct (addRecipeToMealPlan X ui opts st).
Qed.

(** X28. On a resident target slot [controlAddRecipeToPlan] renders the error and
    keeps the state exactly when the slot holds the id and the operation is not
    "replace"; otherwise it does what [addRecipeToMealPlan] does with the
    caller's options. *)
Theorem controlAddRecipeToPlan_spec X ui opts l st :
  slotOf (date ui) (meal ui) st = Some l ->
  controlAddRecipeToPlan X ui opts st =
  if existsb (Z.eqb X) (List.map Recipe.id l) && negb (String.eqb (operation ui) "replace")
  then Some (MealExistsErrorRendered, st)
  else (fun st' => (RecipeAdded, st')) <$> addRecipeToMealPlan X ui opts st.
Proof. exact (controlAddRecipeToPlan_spec_aux X ui opts l st). Qed.

(** X29. A slot whose recipes have pairwise different ids keeps that property
    when a recipe is added from a browsing view through the controller; a
    rejected call changes nothing and an accepted one leaves the id in the
    slot. *)
Theorem controlAddRecipeToPlan_no_duplicates X ui opts dp r l0 st :
  wf_mealPlan (mealPlan st) ->
  dayOf (date ui) st = Some dp ->
  planContext opts = None ->
  getRecipe X opts st = Some r ->
  Recipe.ingredients r = Is l0 ->
  NoDup (List.map Recipe.id (meals_get (meal ui) (meals dp))) ->
  exists outcome st' l',
    controlAddRecipeToPlan X ui opts st = Some (outcome, st') /\
    slotOf (date ui) (meal ui) st' = Some l' /\
    NoDup (List.map Recipe.id l') /\
    (outcome = MealExistsErrorRendered -> st' = st) /\
    (outcome = RecipeAdded -> In X (List.map Recipe.id l')).
Proof.
  intros Hwf Hd Hctx Hget Hl Hnd.
  pose proof (dayOf_slotOf _ (meal ui) _ _ Hd) as Hslot.
  rewrite (controlAddRecipeToPlan_spec_aux X ui opts _ st Hslot).
  destruct (existsb (Z.eqb X) (List.map Recipe.id (meals_get (meal ui) (meals dp)))) eqn:Hex;
    destruct (String.eqb_spec (operation ui) "replace") as [Hop|Hop]; cbn [andb negb].
  2: { eexists _, _, _. split; [done|]. split; [done|]. split; [done|]. by split. }
  all: destruct (addRecipeToMealPlan_from_browse_aux X ui opts dp r l0 st Hwf Hd Hctx Hget Hl)
         as (st' & c & -> & Hslot' & Hid & _);
       [first [by left | right; by apply existsb_ids]|];
       cbn [fmap option_fmap option_map];
       eexists _, _, _; (split; [done|]); (split; [exact Hslot'|]);
       unfold keptInSlot; rewrite List.map_app; cbn [List.map]; rewrite Hid.
  - rewrite Hop, String.eqb_refl. cbn [List.map List.app].
    split; [apply NoDup_singleton|]. split; [done|]. intros _. by left.
  - rewrite Hop, String.eqb_refl. cbn [List.map List.app].
    split; [apply NoDup_singleton|]. split; [done|]. intros _. by left.
  - destruct (String.eqb_spec (operation ui) "replace") as [?|_]; [done|].
    split; [|split; [done|]].
    + apply NoDup_app. split; [done|]. split; [|apply NoDup_singleton].
      intros x Hx Hx'. apply list_elem_of_singleton in Hx'. subst x.
      apply list_elem_of_In in Hx.
      assert (Ht : existsb (Z.eqb X) (List.map Recipe.id (meals_get (meal ui) (meals dp))) = true).
      { apply existsb_exists. exists X. split; [done|apply Z.eqb_refl]. }
      congruence.
    + intros _. apply in_or_app. right. by left.
Qed.
End ControllerFacts.

Section NineWeeks.

Lemma lookup_weeksAround today k :
  -4 <= k <= 4 ->
  weeksAround today !! Z.to_nat (k + 4) = Some (getMondayOfTheWeek today + k * 7).
Proof.
  intros Hk.
  assert (Hc : k = -4 \/ k = -3 \/ k = -2 \/ k = -1 \/ k = 0 \/ k = 1 \/ k = 2 \/ k = 3 \/ k = 4)
    by lia.
  destruct Hc as [->|[->|[->|[->|[->|[->|[->|[->| ->]]]]]]]]; reflexivity.
Qed.

Lemma weeksAround_sorted today : StronglySorted Z.le (weeksAround today).
Proof.
  unfold weeksAround. cbn [List.map].
  repeat (constructor; [|repeat (constructor; [lia|]); constructor]). constructor.
Qed.

Lemma weeksAround_NoDup today : NoDup (weeksAround today).
Proof.
  unfold weeksAround. cbn [List.map].
  repeat (apply NoDup_cons_2; [rewrite ?elem_of_cons, elem_of_nil; lia|]).
  apply NoDup_nil_2.
Qed.

(** X4. After [initializeMealPlan] on an empty plan the sorted week keys are the
    nine Mondays around today, in ascending order. *)
Theorem initializeMealPlan_weekKeys today st :
  mealPlan st = ∅ ->
  createSortedDateStrArr (mealPlan (initializeMealPlan today st)) = weeksAround today.
Proof.
  intros Hempty.
  apply (StronglySorted_unique Z.le).
  - apply StronglySorted_merge_sort; apply _.
  - apply weeksAround_sorted.
  - apply NoDup_Permutation; [apply weekKeys_NoDup|apply weeksAround_NoDup|].
    intros wk. rewrite weekKeys_elem, lookup_initializeMealPlan.
    destruct (decide (wk ∈ weeksAround today)) as [Hin|Hout].
    + split; [done|by eexists].
    + rewrite Hempty, lookup_empty. split; [by intros [? ?]|done].
Qed.

(** X8. With the nine weeks resident, the slider moves by one week and stops at
    four weeks on either side of the week of [today]; the resident weeks are
    unchanged. *)
Theorem updateSliderWeek_nine_weeks today st k :
  createSortedDateStrArr (mealPlan st) = weeksAround today ->
  mealCalendarWeek st = getMondayOfTheWeek today + k * 7 ->
  -4 <= k <= 4 ->
  mealCalendarWeek (updateSliderWeek "nextWeek" st) =
    getMondayOfTheWeek today + Z.min (k + 1) 4 * 7 /\
  mealCalendarWeek (updateSliderWeek "previousWeek" st) =
    getMondayOfTheWeek today + Z.max (k - 1) (-4) * 7 /\
  createSortedDateStrArr (mealPlan (updateSliderWeek "nextWeek" st)) = weeksAround today /\
  createSortedDateStrArr (mealPlan (updateSliderWeek "previousWeek" st)) = weeksAround today.
Proof.
  intros Hkeys Hweek Hk.
  assert (Hi : createSortedDateStrArr (mealPlan st) !! Z.to_nat (k + 4) =
               Some (mealCalendarWeek st)).
  { rewrite Hkeys, Hweek. by apply lookup_weeksAround. }
  destruct (updateSliderWeek_spec_aux st _ Hi) as (Hnext & Hprev & _).
  rewrite Hkeys in Hnext, Hprev.
  assert (Hlen : length (weeksAround today) = 9%nat) by reflexivity.
  assert (Hn : mealCalendarWeek (updateSliderWeek "nextWeek" st) =
               getMondayOfTheWeek today + Z.min (k + 1) 4 * 7 /\
               mealPlan (updateSliderWeek "nextWeek" st) = mealPlan st).
  { rewrite Hnext. destruct (decide (k = 4)) as [->|Hne].
    - rewrite (lookup_ge_None_2 (weeksAround today) (S (Z.to_nat (4 + 4)))) by (rewrite Hlen; lia).
      split; [|done]. rewrite Hweek. lia.
    - replace (S (Z.to_nat (k + 4))) with (Z.to_nat ((k + 1) + 4)) by lia.
      rewrite lookup_weeksAround by lia. split; [|done].
      cbn [mealCalendarWeek set_mealCalendarWeek]. lia. }
  assert (Hp : mealCalendarWeek (updateSliderWeek "previousWeek" st) =
               getMondayOfTheWeek today + Z.max (k - 1) (-4) * 7 /\
               mealPlan (updateSliderWeek "previousWeek" st) = mealPlan st).
  { rewrite Hprev. destruct (decide (k = -4)) as [->|Hne].
    - change (Z.to_nat (-4 + 4)) with 0%nat. cbv iota. split; [|done]. rewrite Hweek. lia.
    - replace (Z.to_nat (k + 4)) with (S (Z.to_nat ((k - 1) + 4))) by lia.
      rewrite lookup_weeksAround by lia. split; [|done].
      cbn [mealCalendarWeek set_mealCalendarWeek]. lia. }
  destruct Hn as [Hn1 Hn2], Hp as [Hp1 Hp2].
  by rewrite Hn2, Hp2.
Qed.
End NineWeeks.

(** Sunday 26 January 2025 is filed under the Monday that follows it. *)
Lemma getMondayOfTheWeek_spec_witness : getMondayOfTheWeek 20114 = 20114 + 1.
Proof.
  destruct (getMondayOfTheWeek_spec 20114) as (_ & _ & Hsunday & _).
  apply Hsunday. reflexivity.
Defined.

Lemma createWeeklyMealPlan_spec_witness :
  is_Some (createWeeklyMealPlan mon20jan2025 !! tue21jan2025) /\
  ~ is_Some (createWeeklyMealPlan mon20jan2025 !! (mon20jan2025 + 5)).
Proof.
  destruct (createWeeklyMealPlan_spec mon20jan2025) as [Hdays _]; [reflexivity|].
  split.
  - apply Hdays. unfold mon20jan2025, tue21jan2025. lia.
  - intros Hsat. apply Hdays in Hsat. lia.
Defined.

Lemma wf_restartState :
  forall saved, storedMealPlan restartState = Some saved -> wf_mealPlan saved.
Proof. intros saved [= <-]. apply (bool_decide_unpack _). by vm_compute. Qed.

Lemma initializeMealPlan_spec_witness :
  mealCalendarWeek (initializeMealPlan tue21jan2025 restartState) = mon20jan2025 /\
  wf_mealPlan (mealPlan (initializeMealPlan tue21jan2025 restartState)).
Proof.
  destruct (initializeMealPlan_spec tue21jan2025 restartState) as (Hweek & _ & _ & Hwf).
  - reflexivity.
  - exact wf_restartState.
  - split; [exact Hweek|exact Hwf].
Defined.

Lemma updateSliderWeek_spec_witness :
  mealCalendarWeek nineWeeksState <=
  mealCalendarWeek (updateSliderWeek "nextWeek" nineWeeksState).
Proof.
  destruct (updateSliderWeek_spec nineWeeksState 4) as (_ & _ & _ & Hle).
  - vm_compute. reflexivity.
  - exact Hle.
Defined.

Lemma updateSliderWeek_next_previous_witness :
  updateSliderWeek "previousWeek" (updateSliderWeek "nextWeek" nineWeeksState) =
  nineWeeksState.
Proof.
  apply (updateSliderWeek_next_previous nineWeeksState 4 (mon20jan2025 + 7)).
  - vm_compute. reflexivity.
  - vm_compute. reflexivity.
Defined.

Lemma updateSliderWeek_not_resident_witness :
  updateSliderWeek "previousWeek" strayWeekState = strayWeekState.
Proof.
  destruct (updateSliderWeek_not_resident strayWeekState) as [Hprev _].
  - vm_compute. reflexivity.
  - exact Hprev.
Defined.

Lemma pantry_add_then_remove_witness :
  removeIngredientFromPantry "rice" (addIngredientToPantry "rice" exampleState) = exampleState.
Proof. apply pantry_add_then_remove. reflexivity. Defined.

Lemma removeIngredientFromPantry_spec_witness :
  pantry (removeIngredientFromPantry "rice" exampleState) = removelast (pantry exampleState).
Proof.
  destruct (removeIngredientFromPantry_spec "rice" exampleState) as [_ Habsent].
  apply Habsent. simpl. intros [Heq|[]]. discriminate Heq.
Defined.

Lemma updateNutritionForDay_numeric_witness :
  exists st', updateNutritionForDay mon20jan2025 exampleState = Some st'.
Proof.
  destruct (updateNutritionForDay_numeric mon20jan2025
              (dayWith lunch [exampleRecipe 42 (num_lit 300) (num_lit 2)]) exampleState)
    as (st' & Hst' & _).
  - reflexivity.
  - constructor; [|constructor]. by eexists _, _, _, _.
  - exists st'. exact Hst'.
Defined.

Lemma deleteRecipeFromMealPlan_present_witness :
  exists st', deleteRecipeFromMealPlan 42 mon20jan2025 lunch exampleState = Some st' /\
    slotOf mon20jan2025 lunch st' = Some [].
Proof.
  destruct (deleteRecipeFromMealPlan_present 42 mon20jan2025 lunch
              (dayWith lunch [exampleRecipe 42 (num_lit 300) (num_lit 2)])
              [] (exampleRecipe 42 (num_lit 300) (num_lit 2)) [] exampleState)
    as (st' & Hst' & Hslot & _).
  - exact wf_exampleState.
  - reflexivity.
  - reflexivity.
  - constructor.
  - reflexivity.
  - exists st'. split; [exact Hst'|exact Hslot].
Defined.

Lemma deleteRecipeFromMealPlan_nutrition_witness :
  exists st', deleteRecipeFromMealPlan 42 mon20jan2025 lunch exampleState = Some st' /\
    wf_mealPlan (mealPlan st').
Proof.
  destruct (deleteRecipeFromMealPlan_nutrition 42 mon20jan2025 lunch
              (dayWith lunch [exampleRecipe 42 (num_lit 300) (num_lit 2)]) exampleState)
    as (st' & Hst' & Hwf & _).
  - exact wf_exampleState.
  - reflexivity.
  - exists st'. split; [exact Hst'|exact Hwf].
Defined.

Lemma createCustomMealEntry_spec_witness :
  exists st' entry, createCustomMealEntry 1737000000000 leftovers exampleState = Some st' /\
    slotOf mon20jan2025 dinner st' = Some [entry] /\ Recipe.title entry = "Leftovers".
Proof.
  destruct (createCustomMealEntry_spec 1737000000000 leftovers
              (dayWith lunch [exampleRecipe 42 (num_lit 300) (num_lit 2)]) exampleState)
    as (st' & entry & Hst' & Hslot & _ & _ & Htitle & _).
  - exact wf_exampleState.
  - reflexivity.
  - exists st', entry. split; [exact Hst'|]. split; [exact Hslot|exact Htitle].
Defined.

Lemma addRecipeToMealPlan_from_browse_witness :
  exists st' c, addRecipeToMealPlan 42 tuesdayLunch browseOptions exampleState = Some st' /\
    slotOf tue21jan2025 lunch st' = Some [c] /\ Recipe.id c = 42 /\
    browseSearchResults st' = browseSearchResults exampleState.
Proof.
  destruct (addRecipeToMealPlan_from_browse 42 tuesdayLunch browseOptions
              (dayWith dinner [exampleRecipe 42 (num_lit 300) (num_lit 2)])
              (exampleRecipe 42 (num_lit 300) (num_lit 2)) exampleIngredients exampleState)
    as (st' & c & Hst' & Hslot & Hid & _ & _ & _ & _ & Hbrowse & _).
  - exact wf_exampleState.
  - reflexivity.
  - reflexivity.
  - reflexivity.
  - reflexivity.
  - right. constructor.
  - exists st', c. split; [exact Hst'|]. split; [exact Hslot|]. split; [exact Hid|exact Hbrowse].
Defined.

Lemma addRecipeToMealPlan_move_witness :
  exists st' c,
    addRecipeToMealPlan 42 tuesdayLunchNoCount mondayLunch exampleState = Some st' /\
    slotOf tue21jan2025 lunch st' = Some [c] /\
    Recipe.servings c = js_sub (num_lit 2) (num_lit 1) /\
    slotOf mon20jan2025 lunch st' = Some [].
Proof.
  destruct (addRecipeToMealPlan_move 42 tuesdayLunchNoCount mon20jan2025 lunch
              (dayWith dinner [exampleRecipe 42 (num_lit 300) (num_lit 2)])
              (dayWith lunch [exampleRecipe 42 (num_lit 300) (num_lit 2)])
              [] (exampleRecipe 42 (num_lit 300) (num_lit 2)) [] exampleState)
    as (st' & c & Hst' & Hslot & _ & Hadj & Hsrc & _).
  - exact wf_exampleState.
  - reflexivity.
  - reflexivity.
  - intros [Heq _]. discriminate Heq.
  - reflexivity.
  - constructor.
  - reflexivity.
  - right. by exists exampleIngredients.
  - right. constructor.
  - exists st', c. split; [exact Hst'|]. split; [exact Hslot|]. split; [|exact Hsrc].
    exact (rescale_servings _ _ _ Hadj).
Defined.

Lemma weeksAround_example : mon20jan2025 ∈ weeksAround tue21jan2025.
Proof. apply (bool_decide_unpack _). by vm_compute. Qed.

Lemma saveMealPlan_restart_witness :
  mealPlan (initializeMealPlan tue21jan2025 restartState) !! mon20jan2025 =
  fmap (M := gmap Z) deepCopy_day <$> mealPlan exampleState !! mon20jan2025.
Proof.
  destruct (saveMealPlan_restart tue21jan2025 exampleState mon20jan2025) as (_ & Hin & _).
  etrans; [exact (Hin weeksAround_example)|]. vm_compute. reflexivity.
Defined.

Lemma recipeBook_add_then_remove_witness :
  exists st1, addRecipeToRecipeBookById 9 browseOptions bigBatchState = Some st1 /\
    recipeBook (removeRecipeFromBook 9 st1) = recipeBook bigBatchState.
Proof.
  destruct (recipeBook_add_then_remove 9 browseOptions
              (exampleRecipe 9 (num_lit 640) (num_lit 64)) bigBatchState)
    as (st1 & Hst1 & _ & _ & Hback & _).
  - reflexivity.
  - repeat constructor.
  - exists st1. split; [exact Hst1|exact Hback].
Defined.

Lemma removeRecipeFromBook_present_witness :
  recipeBook (removeRecipeFromBook 42 exampleState) =
  [Recipe.set_isBookmarked true (exampleRecipe 7 (num_lit 100) (num_lit 4))].
Proof.
  destruct (removeRecipeFromBook_present 42
              [Recipe.set_isBookmarked true (exampleRecipe 7 (num_lit 100) (num_lit 4))]
              (exampleRecipe 42 (num_lit 300) (num_lit 2)) [] exampleState) as [Hbook _].
  - reflexivity.
  - repeat constructor.
  - reflexivity.
  - exact Hbook.
Defined.

Lemma adjustServings_percentDV_not_synchronized_witness :
  exists st' r',
    adjustServings 42 (Some "increaseServings") browseOptions None exampleState = Some st' /\
    rescale (exampleRecipe 42 (num_lit 300) (num_lit 2))
      (js_add (num_lit 2) (num_lit 1)) = Some r' /\
    Forall2 (fun c0 c => Recipe.percentDVProtein c = Recipe.percentDVProtein c0)
      (recipeBook exampleState) (recipeBook st').
Proof.
  destruct (adjustServings_percentDV_not_synchronized 42 (Some "increaseServings")
              browseOptions None (exampleRecipe 42 (num_lit 300) (num_lit 2))
              exampleIngredients exampleState)
    as (st' & r' & Hst' & Hr' & _ & Hall).
  - reflexivity.
  - discriminate.
  - reflexivity.
  - reflexivity.
  - vm_compute. reflexivity.
  - exists st', r'. split; [exact Hst'|]. split; [exact Hr'|].
    eapply Forall2_impl; [exact Hall|]. intros c0 c Hc. apply Hc.
Defined.

Lemma pantry_exampleState_nonempty : Forall (fun p => p <> "") (pantry exampleState).
Proof. repeat constructor. discriminate. Qed.

Lemma getIngredientAvailability_rules_witness :
  availabilityState (getIngredientAvailability "Spaghetti " exampleState) =
  definitelyAvailable.
Proof.
  rewrite (getIngredientAvailability_rules "Spaghetti " exampleState
             pantry_exampleState_nonempty).
  vm_compute. reflexivity.
Defined.

Lemma calculateMissingIngredients_monotone_witness :
  (calculateMissingIngredients exampleIngredients (addIngredientToPantry "carrot" exampleState) <=
   calculateMissingIngredients exampleIngredients exampleState)%nat.
Proof.
  destruct (calculateMissingIngredients_monotone exampleIngredients exampleState
              (addIngredientToPantry "carrot" exampleState)) as [Hle _].
  - exact pantry_exampleState_nonempty.
  - repeat constructor; discriminate.
  - intros p Hp. simpl. simpl in Hp. tauto.
  - exact Hle.
Defined.

Lemma populateSearchResults_sorted_witness :
  StronglySorted missingAtMost
    (ingredientSearchResults
       (populateSearchResults
          (Recipe.set_numMissingIngredients (num_lit 1)
             (exampleRecipe 42 (num_lit 300) (num_lit 2)))
          "ingredientSearch" searchState)).
Proof.
  destruct (populateSearchResults_sorted
              (Recipe.set_numMissingIngredients (num_lit 1)
                 (exampleRecipe 42 (num_lit 300) (num_lit 2))) searchState) as [Hsorted _].
  - repeat constructor; eexists _, _; (split; [reflexivity|]); (split; [reflexivity|]);
      apply Qle_refl.
  - exact Hsorted.
Defined.

Lemma getOrCreateRecipeObject_prefers_book_witness :
  getOrCreateRecipeObject rawSoup "browseRecipeSearch" exampleState =
  getOrCreateRecipeObject rawSoupRenamed "browseRecipeSearch" exampleState.
Proof.
  destruct (getOrCreateRecipeObject_prefers_book rawSoup rawSoupRenamed "browseRecipeSearch" 42
              (exampleRecipe 42 (num_lit 300) (num_lit 2)) exampleIngredients exampleState)
    as (obj & Hraw & Hraw' & _).
  - reflexivity.
  - reflexivity.
  - reflexivity.
  - reflexivity.
  - rewrite Hraw. symmetry. exact Hraw'.
Defined.

Lemma createRecipeObject_accepted_witness :
  ~ is_Some (createRecipeObject untypedRawRecipe "ingredientSearch" exampleState) /\
  is_Some (createRecipeObject teaRawRecipe "ingredientSearch" exampleState).
Proof.
  split.
  - destruct (createRecipeObject_accepted untypedRawRecipe "ingredientSearch" exampleState)
      as [Hshape _]; [vm_compute; reflexivity|].
    intros Hobj. apply Hshape in Hobj as [[dishTypes HdishTypes] _]. discriminate HdishTypes.
  - destruct (createRecipeObject_accepted teaRawRecipe "ingredientSearch" exampleState)
      as [Hshape _]; [vm_compute; reflexivity|].
    apply Hshape. split; [by eexists|]. split; [by eexists|].
    intros ingredients [= <-]. repeat constructor; by eexists.
Defined.

Lemma controlAddRecipeToPlan_spec_witness :
  controlAddRecipeToPlan 42 tuesdayLunch browseOptions exampleState =
  (fun st' => (RecipeAdded, st')) <$>
    addRecipeToMealPlan 42 tuesdayLunch browseOptions exampleState.
Proof.
  rewrite (controlAddRecipeToPlan_spec 42 tuesdayLunch browseOptions [] exampleState).
  - reflexivity.
  - reflexivity.
Defined.

Lemma controlAddRecipeToPlan_no_duplicates_witness :
  exists outcome st' l',
    controlAddRecipeToPlan 42 tuesdayLunch browseOptions exampleState = Some (outcome, st') /\
    slotOf tue21jan2025 lunch st' = Some l' /\ NoDup (List.map Recipe.id l').
Proof.
  destruct (controlAddRecipeToPlan_no_duplicates 42 tuesdayLunch browseOptions
              (dayWith dinner [exampleRecipe 42 (num_lit 300) (num_lit 2)])
              (exampleRecipe 42 (num_lit 300) (num_lit 2)) exampleIngredients exampleState)
    as (outcome & st' & l' & Hst' & Hslot & Hnd & _).
  - exact wf_exampleState.
  - reflexivity.
  - reflexivity.
  - reflexivity.
  - reflexivity.
  - apply NoDup_nil_2.
  - exists outcome, st', l'. split; [exact Hst'|]. split; [exact Hslot|exact Hnd].
Defined.

Lemma initializeMealPlan_weekKeys_witness :
  createSortedDateStrArr (mealPlan nineWeeksState) = weeksAround mon20jan2025.
Proof. apply (initializeMealPlan_weekKeys mon20jan2025 emptyPlanState). reflexivity. Defined.

Lemma updateSliderWeek_nine_weeks_witness :
  mealCalendarWeek (updateSliderWeek "nextWeek" nineWeeksState) = mon20jan2025 + 7 /\
  mealCalendarWeek (updateSliderWeek "previousWeek" nineWeeksState) = mon20jan2025 - 7.
Proof.
  destruct (updateSliderWeek_nine_weeks mon20jan2025 nineWeeksState 0)
    as (Hnext & Hprev & _).
  - vm_compute. reflexivity.
  - reflexivity.
  - lia.
  - split; [exact Hnext|exact Hprev].
Defined.
